(** * dev-server.py: a static file server that adds CORS headers

    The program is a subclass [CORSRequestHandler] of the standard
    library's [http.server.SimpleHTTPRequestHandler] with two methods of
    its own ([end_headers], [do_OPTIONS]) and a [__main__] block that
    changes to the script's directory, binds port 8000 and serves until
    interrupted.

    The two methods and the main block are embedded from [dev-server.py].
    Everything they inherit or call is embedded from CPython 3.11's
    [Lib/http/server.py], [Lib/http/client.py], [Lib/socketserver.py],
    [Lib/posixpath.py] and [Lib/pathlib.py], method by method and under
    the library's names; what those in turn leave to the operating system
    or to other library modules (the file system, the clock, MIME tables,
    URL quoting and splitting, HTML formatting, the conversion of file
    names) is a field of the records [filesystem] and [platform], with
    the exceptions that these calls raise and the code does not catch.

    A connection carries one request: with [protocol_version] ["HTTP/1.0"]
    the handler never keeps a connection alive.  The bytes written to the
    connection are the state [wfile], the lines written to [sys.stderr]
    the state [logged].  A reply is written as the rendering
    [Spec.render] of a status, a reason, header fields and a body, and
    read back by [Spec.parse] the way a client reads it: a status line,
    the header lines up to the first empty line, and the body after
    it. *)

From Stdlib Require Import String Ascii List ZArith Bool Lia.
From Stdlib Require Import Numbers.DecimalString.
Import ListNotations.

Local Open Scope list_scope.
Local Open Scope string_scope.

(** ** Python string operations used by the code *)

Module Py.

Definition CR : ascii := Ascii.ascii_of_nat 13.
Definition LF : ascii := Ascii.ascii_of_nat 10.
Definition CRLF : string := String CR (String LF "").

(** [str(n)] and ["%d" % n] *)
Definition str (n : Z) : string := NilZero.string_of_int (Z.to_int n).

(** [len(s)] *)
Definition len (s : string) : Z := Z.of_nat (String.length s).

(** [s.startswith(p)] *)
Definition startswith (s p : string) : bool := String.prefix p s.

(** [s.endswith(c)] for a one-character [c] *)
Fixpoint endswith (s : string) (c : ascii) : bool :=
  match s with
  | "" => false
  | String a "" => Ascii.eqb a c
  | String _ s' => endswith s' c
  end.

(** [c.isspace()] on the characters of a request line (ISO-8859-1) *)
Definition isspace (a : ascii) : bool :=
  let n := Ascii.nat_of_ascii a in
  (Nat.eqb n 32 || (Nat.leb 9 n && Nat.leb n 13) || (Nat.leb 28 n && Nat.leb n 31)
   || Nat.eqb n 133 || Nat.eqb n 160)%bool.

(** [s.rstrip()] *)
Fixpoint rstrip (s : string) : string :=
  match s with
  | "" => ""
  | String a s' =>
      match rstrip s' with
      | "" => if isspace a then "" else String a ""
      | r => String a r
      end
  end.

(** [s.split(sep)] for a one-character [sep]: never the empty list *)
Fixpoint split (s : string) (sep : ascii) : list string :=
  match s with
  | "" => [""]
  | String a s' =>
      if Ascii.eqb a sep then "" :: split s' sep
      else match split s' sep with
           | [] => [String a ""]
           | w :: ws => String a w :: ws
           end
  end.

(** [s.split(sep, 1)[0]]: the part before the first [sep] *)
Fixpoint split1_head (s : string) (sep : ascii) : string :=
  match s with
  | "" => ""
  | String a s' => if Ascii.eqb a sep then "" else String a (split1_head s' sep)
  end.

(** [sep.join(l)] *)
Definition join (sep : string) (l : list string) : string := String.concat sep l.

(** [b"".join(l)] *)
Definition join0 (l : list string) : string := String.concat "" l.

Definition lower_ascii (a : ascii) : ascii :=
  let n := Ascii.nat_of_ascii a in
  if (Nat.leb 65 n && Nat.leb n 90)%bool then Ascii.ascii_of_nat (n + 32) else a.

(** [s.lower()] on ISO-8859-1 text, as far as a comparison with an ASCII
    word can tell *)
Fixpoint lower (s : string) : string :=
  match s with
  | "" => ""
  | String a s' => String (lower_ascii a) (lower s')
  end.

(** [c in s] for a character *)
Fixpoint contains (s : string) (c : ascii) : bool :=
  match s with
  | "" => false
  | String a s' => (Ascii.eqb a c || contains s' c)%bool
  end.

(** The loop of [s.split()]: the word being read and the words after it. *)
Fixpoint split_ws_from (s : string) : string * list string :=
  match s with
  | "" => ("", [])
  | String a s' =>
      let (w, ws) := split_ws_from s' in
      if isspace a then ("", if String.eqb w "" then ws else w :: ws)
      else (String a w, ws)
  end.

(** [s.split()]: the words between runs of white space *)
Definition split_ws (s : string) : list string :=
  let (w, ws) := split_ws_from s in
  if String.eqb w "" then ws else w :: ws.

(** [s.split(sep, 1)[1]]: the part after the first [sep] *)
Fixpoint split1_tail (s : string) (sep : ascii) : string :=
  match s with
  | "" => ""
  | String a s' => if Ascii.eqb a sep then s' else split1_tail s' sep
  end.

(** [s.lstrip(c)] *)
Fixpoint lstrip (s : string) (c : ascii) : string :=
  match s with
  | "" => ""
  | String a s' => if Ascii.eqb a c then lstrip s' c else s
  end.

Definition digit_value (a : ascii) : option Z :=
  let n := Ascii.nat_of_ascii a in
  if (Nat.leb 48 n && Nat.leb n 57)%bool then Some (Z.of_nat (n - 48)) else None.

(** The digits of [int(s)], single underscores allowed between them, and
    how many there are. *)
Fixpoint int_digits (s : string) (acc : Z) (count : nat) (after_digit : bool)
  : option Z :=
  match s with
  | "" => if (after_digit && Nat.leb count 4300)%bool then Some acc else None
  | String a s' =>
      match digit_value a with
      | Some d => int_digits s' (10 * acc + d)%Z (S count) true
      | None =>
          if (Ascii.eqb a "_" && after_digit)%bool
          then int_digits s' acc count false
          else None
      end
  end.

(** [int(s)] for a word of a request line; [None] is [ValueError], also
    raised beyond [sys.get_int_max_str_digits()], 4300 digits *)
Definition int (s : string) : option Z :=
  match s with
  | String "+" s' => int_digits s' 0 0 false
  | String "-" s' => option_map Z.opp (int_digits s' 0 0 false)
  | _ => int_digits s 0 0 false
  end.

(** [s[:n]] for [0 <= n] *)
Definition take (n : nat) (s : string) : string := String.substring 0 n s.

Definition NUL : ascii := Ascii.ascii_of_nat 0.
Definition DQUOTE : ascii := Ascii.ascii_of_nat 34.
Definition BACKSLASH : ascii := Ascii.ascii_of_nat 92.

(** [s.rstrip(chars)] *)
Fixpoint rstrip_chars (s chars : string) : string :=
  match s with
  | "" => ""
  | String a s' =>
      match rstrip_chars s' chars with
      | "" => if contains chars a then "" else String a ""
      | r => String a r
      end
  end.

(** [f.readline(size)] on the bytes [s] still to be read, for
    [0 < size]: the line with its line feed, and what is left *)
Fixpoint readline (size : Z) (s : string) : string * string :=
  match s with
  | "" => ("", "")
  | String a s' =>
      if (size <=? 0)%Z then ("", s)
      else if Ascii.eqb a LF then (String a "", s')
      else let (l, rest) := readline (size - 1) s' in (String a l, rest)
  end.

(** [s.translate(table)] *)
Fixpoint translate (table : ascii -> option string) (s : string) : string :=
  match s with
  | "" => ""
  | String a s' =>
      match table a with
      | Some t => t ++ translate table s'
      | None => String a (translate table s')
      end
  end.

Definition hex_digit (n : nat) : ascii :=
  if Nat.ltb n 10 then Ascii.ascii_of_nat (48 + n) else Ascii.ascii_of_nat (87 + n).

(** [fr'\x{c:02x}'] *)
Definition escape_x (c : ascii) : string :=
  let n := Ascii.nat_of_ascii c in
  String BACKSLASH
    (String "x" (String (hex_digit (Nat.div n 16))
                   (String (hex_digit (Nat.modulo n 16)) ""))).

End Py.

(** ** posixpath *)

Module posixpath.

(** [os.path.join(a, b)] *)
Definition join (a b : string) : string :=
  if Py.startswith b "/" then b
  else if (String.eqb a "" || Py.endswith a "/")%bool then a ++ b
  else a ++ "/" ++ b.

(** [p[:p.rfind('/') + 1]]: everything up to and including the last slash *)
Fixpoint head_upto_slash (p : string) : string :=
  match p with
  | "" => ""
  | String a p' =>
      if Py.contains p "/" then String a (head_upto_slash p') else ""
  end.

Fixpoint all_slashes (s : string) : bool :=
  match s with
  | "" => true
  | String a s' => (Ascii.eqb a "/" && all_slashes s')%bool
  end.

Fixpoint rstrip_slash (s : string) : string :=
  match s with
  | "" => ""
  | String a s' =>
      match rstrip_slash s' with
      | "" => if Ascii.eqb a "/" then "" else String a ""
      | r => String a r
      end
  end.

(** [os.path.dirname(p)] *)
Definition dirname (p : string) : string :=
  let head := head_upto_slash p in
  if (negb (String.eqb head "") && negb (all_slashes head))%bool
  then rstrip_slash head else head.

(** The loop of [normpath] over the components. *)
Fixpoint normpath_comps (initial_slashes : nat) (comps new_comps : list string)
  : list string :=
  match comps with
  | [] => new_comps
  | comp :: rest =>
      if (String.eqb comp "" || String.eqb comp ".")%bool
      then normpath_comps initial_slashes rest new_comps
      else if (negb (String.eqb comp "..")
               || (Nat.eqb initial_slashes 0 && Nat.eqb (List.length new_comps) 0)
               || (negb (Nat.eqb (List.length new_comps) 0)
                   && String.eqb (List.last new_comps "") ".."))%bool
      then normpath_comps initial_slashes rest (new_comps ++ [comp])%list
      else normpath_comps initial_slashes rest (List.removelast new_comps)
  end.

(** [posixpath.normpath(path)] *)
Definition normpath (path : string) : string :=
  if String.eqb path "" then "."
  else
    let initial_slashes :=
      if Py.startswith path "/" then
        if (Py.startswith path "//" && negb (Py.startswith path "///"))%bool
        then 2%nat else 1%nat
      else 0%nat in
    let comps := normpath_comps initial_slashes (Py.split path "/") [] in
    let path := Py.join "/" comps in
    let path :=
      match initial_slashes with
      | 0%nat => path
      | 1%nat => "/" ++ path
      | _ => "//" ++ path
      end in
    if String.eqb path "" then "." else path.

End posixpath.

(** ** The operating system and the rest of the library *)

Definition timestamp := Z.

(** What a path names, symbolic links followed. [names = None] is a
    directory that [os.listdir] refuses to list. *)
Inductive node :=
| RegularFile (data : string) (mtime : timestamp) (readable : bool)
| Directory (names : option (list string)).

(** [realpath] is the kernel's name of the directory at an absolute path,
    the one that [os.getcwd()] returns once the process has changed to
    it: no [.], [..] or repeated slash, symbolic links resolved. *)
Record filesystem := {
  lookup : string -> option node;
  is_symlink : string -> bool;
  realpath : string -> string
}.

(** An open binary file ([open(path, 'rb')], with its [name]) or the
    in-memory [io.BytesIO] that [list_directory] returns. *)
Inductive fileobj :=
| FileIO (name : string) (data : string) (mtime : timestamp)
| BytesIO (data : string).

Definition read (f : fileobj) : string :=
  match f with FileIO _ data _ => data | BytesIO data => data end.

(** The exceptions that the code raises or lets through. *)
Inductive exception :=
| OSError
| ValueError (message : string)
| UnicodeEncodeError (message : string).

(** How a call ends: [return a] or an exception on its way up. *)
Inductive result (A : Type) :=
| Returned (a : A)
| Raised (e : exception).

Arguments Returned {A} a.
Arguments Raised {A} e.

(** Library functions that [http.server] calls and that are not part of
    it; each field is named after the call it stands for. *)
Record platform := {
  (** ["Python/" + sys.version.split()[0]] *)
  sys_version : string;
  (** [self.date_time_string(timestamp)]; [None] is the current time *)
  date_time_string : option timestamp -> string;
  (** [self.log_date_time_string()] *)
  log_date_time_string : string;
  (** the table [BaseHTTPRequestHandler.responses] *)
  responses : Z -> option (string * string);
  (** [(error_message_format % {...}).encode('UTF-8', 'replace')] of
      [code], [message] and [explain] *)
  error_page : Z -> string -> string -> string;
  (** ["%r" % s] *)
  repr : string -> string;
  (** the fields of [email.parser.Parser(_class=MessageClass).parsestr(s)] *)
  parsestr : string -> list (string * string);
  (** [urllib.parse.unquote(path, errors='surrogatepass')] with its fallback *)
  unquote : string -> string;
  (** [urllib.parse.urlsplit(path)] fails: the message of the
      [ValueError] for a URL whose host part has an unmatched bracket or
      characters that it refuses *)
  urlsplit_error : string -> option string;
  (** [urllib.parse.urlsplit(path).path] *)
  urlsplit_path : string -> string;
  (** [urlunsplit] of the split URL with ['/'] appended to its path *)
  urlunsplit_slash : string -> string;
  (** [self.guess_type(path)]: the extension of [path] looked up in
      [extensions_map] and [mimetypes] *)
  guess_type : string -> string;
  (** the value of [If-Modified-Since] parses to a UTC date that is not
      before the file's modification time *)
  not_modified_since : string -> timestamp -> bool;
  (** [sys.getfilesystemencoding()] *)
  getfilesystemencoding : string;
  (** [os.fsencode(name)] fails: the message of the [UnicodeEncodeError]
      for a name that the file system encoding cannot encode, as
      [unquote] gives for an escaped lone surrogate *)
  fsencode_error : string -> option string;
  (** the encoded HTML page of [list_directory] for [self.path], the
      translated [path] and the entries [(name, isdir, islink)] *)
  listing_page : string -> string -> list (string * bool * bool) -> string;
  (** encoding that page fails: the message of the [UnicodeEncodeError]
      for a request path whose unquoted form the file system encoding
      cannot encode *)
  listing_error : string -> string -> list (string * bool * bool) -> option string
}.

Module os.

Definition isdir (fs : filesystem) (p : string) : bool :=
  match lookup fs p with Some (Directory _) => true | _ => false end.

Definition isfile (fs : filesystem) (p : string) : bool :=
  match lookup fs p with Some (RegularFile _ _ _) => true | _ => false end.

Definition islink (fs : filesystem) (p : string) : bool := is_symlink fs p.

(** The exception that converting a name for the operating system
    raises: [UnicodeEncodeError] for a name that the file system encoding
    cannot encode, [ValueError] for a name with a null byte in it. *)
Definition fsconvert (P : platform) (p : string) : option exception :=
  match fsencode_error P p with
  | Some message => Some (UnicodeEncodeError message)
  | None =>
      if Py.contains p Py.NUL then Some (ValueError "embedded null byte")
      else None
  end.

(** [open(p, 'rb')].  What is not a readable regular file is [OSError].
    A name that cannot be converted never reaches the file system, which
    has nothing at such a name; [os.path.isdir] and [os.path.isfile]
    catch the exception and return [False], [open] raises it. *)
Definition open (P : platform) (fs : filesystem) (p : string)
  : fileobj + exception :=
  match lookup fs p with
  | Some (RegularFile data mtime true) => inl (FileIO p data mtime)
  | Some _ => inr OSError
  | None =>
      match fsconvert P p with
      | Some e => inr e
      | None => inr OSError
      end
  end.

(** [os.listdir(p)]; [None] is [OSError] *)
Definition listdir (fs : filesystem) (p : string) : option (list string) :=
  match lookup fs p with
  | Some (Directory names) => names
  | _ => None
  end.

End os.

(** ** http.client: reading the header lines of a request *)

Module http_client.

Definition _MAXLINE : Z := 65536.
Definition _MAXHEADERS : nat := 100.

Inductive HTTPException :=
| LineTooLong (line_type : string)
| TooManyHeaders.

(** [str(err)] *)
Definition message_of (err : HTTPException) : string :=
  match err with
  | LineTooLong line_type =>
      "got more than " ++ Py.str _MAXLINE ++ " bytes when reading " ++ line_type
  | TooManyHeaders =>
      "got more than " ++ Py.str (Z.of_nat _MAXHEADERS) ++ " headers"
  end.

(** [_read_headers(fp)]; [room] is how many more lines [headers] may
    take, [_MAXHEADERS - len(headers)]. *)
Fixpoint _read_headers (room : nat) (fp : string) : list string + HTTPException :=
  let (line, fp) := Py.readline (_MAXLINE + 1) fp in
  if (_MAXLINE <? Py.len line)%Z then inr (LineTooLong "header line")
  else
    match room with
    | O => inr TooManyHeaders
    | S room =>
        if (String.eqb line Py.CRLF || String.eqb line (String Py.LF "")
            || String.eqb line "")%bool
        then inl [line]
        else
          match _read_headers room fp with
          | inl headers => inl (line :: headers)
          | inr err => inr err
          end
    end.

(** [parse_headers(fp)] *)
Definition parse_headers (P : platform) (fp : string)
  : list (string * string) + HTTPException :=
  match _read_headers _MAXHEADERS fp with
  | inl headers => inl (parsestr P (Py.join0 headers))
  | inr err => inr err
  end.

End http_client.

(** ** The request handler object

    [logged] holds the lines that the handler has written to
    [sys.stderr], each without its line feed. *)

Record handler := {
  client_address : string * Z;
  requestline : string;
  command : string;
  path : string;
  request_version : string;
  headers : list (string * string);
  directory : string;
  _headers_buffer : list string;
  wfile : string;
  close_connection : bool;
  logged : list string
}.

Definition set_requestline (l : string) (self : handler) : handler :=
  {| client_address := client_address self; requestline := l;
     command := command self; path := path self;
     request_version := request_version self; headers := headers self;
     directory := directory self; _headers_buffer := _headers_buffer self;
     wfile := wfile self; close_connection := close_connection self;
     logged := logged self |}.

Definition set_command (c : string) (self : handler) : handler :=
  {| client_address := client_address self; requestline := requestline self;
     command := c; path := path self;
     request_version := request_version self; headers := headers self;
     directory := directory self; _headers_buffer := _headers_buffer self;
     wfile := wfile self; close_connection := close_connection self;
     logged := logged self |}.

Definition set_path (p : string) (self : handler) : handler :=
  {| client_address := client_address self; requestline := requestline self;
     command := command self; path := p;
     request_version := request_version self; headers := headers self;
     directory := directory self; _headers_buffer := _headers_buffer self;
     wfile := wfile self; close_connection := close_connection self;
     logged := logged self |}.

Definition set_request_version (v : string) (self : handler) : handler :=
  {| client_address := client_address self; requestline := requestline self;
     command := command self; path := path self;
     request_version := v; headers := headers self;
     directory := directory self; _headers_buffer := _headers_buffer self;
     wfile := wfile self; close_connection := close_connection self;
     logged := logged self |}.

Definition set_headers (hs : list (string * string)) (self : handler) : handler :=
  {| client_address := client_address self; requestline := requestline self;
     command := command self; path := path self;
     request_version := request_version self; headers := hs;
     directory := directory self; _headers_buffer := _headers_buffer self;
     wfile := wfile self; close_connection := close_connection self;
     logged := logged self |}.

Definition set_headers_buffer (b : list string) (self : handler) : handler :=
  {| client_address := client_address self; requestline := requestline self;
     command := command self; path := path self;
     request_version := request_version self; headers := headers self;
     directory := directory self; _headers_buffer := b;
     wfile := wfile self; close_connection := close_connection self;
     logged := logged self |}.

Definition set_wfile (w : string) (self : handler) : handler :=
  {| client_address := client_address self; requestline := requestline self;
     command := command self; path := path self;
     request_version := request_version self; headers := headers self;
     directory := directory self; _headers_buffer := _headers_buffer self;
     wfile := w; close_connection := close_connection self;
     logged := logged self |}.

Definition set_close_connection (c : bool) (self : handler) : handler :=
  {| client_address := client_address self; requestline := requestline self;
     command := command self; path := path self;
     request_version := request_version self; headers := headers self;
     directory := directory self; _headers_buffer := _headers_buffer self;
     wfile := wfile self; close_connection := c;
     logged := logged self |}.

Definition set_logged (l : list string) (self : handler) : handler :=
  {| client_address := client_address self; requestline := requestline self;
     command := command self; path := path self;
     request_version := request_version self; headers := headers self;
     directory := directory self; _headers_buffer := _headers_buffer self;
     wfile := wfile self; close_connection := close_connection self;
     logged := l |}.

(** Methods are state transformers on [self] that return or raise. *)
Definition M (A : Type) : Type := handler -> result A * handler.

Definition ret {A} (a : A) : M A := fun self => (Returned a, self).

Definition raise {A} (e : exception) : M A := fun self => (Raised e, self).

Definition bind {A B} (m : M A) (k : A -> M B) : M B :=
  fun self =>
    match m self with
    | (Returned a, self') => k a self'
    | (Raised e, self') => (Raised e, self')
    end.

Definition get {A} (f : handler -> A) : M A := fun self => (Returned (f self), self).

Definition modify (f : handler -> handler) : M unit :=
  fun self => (Returned tt, f self).

Definition when (b : bool) (m : M unit) : M unit := if b then m else ret tt.

Declare Scope method_scope.
Delimit Scope method_scope with method.
Notation "x <- m ;; k" := (bind m (fun x => k))
  (at level 61, m at next level, right associativity) : method_scope.
Notation "m ;; k" := (bind m (fun _ => k))
  (at level 61, right associativity) : method_scope.
Local Open Scope method_scope.

(** [self.path] and [self.directory], read where a local variable of the
    same name is in scope *)
Definition self_path : M string := get path.
Definition self_directory : M string := get directory.

(** [self.wfile.write(data)] *)
Definition wfile_write (data : string) : M unit :=
  modify (fun self => set_wfile (wfile self ++ data) self).

(** [name in self.headers]: header names compare without case *)
Definition headers_contains (hs : list (string * string)) (name : string) : bool :=
  existsb (fun kv => String.eqb (Py.lower (fst kv)) (Py.lower name)) hs.

(** [self.headers.get(name, default)] *)
Definition headers_get (hs : list (string * string)) (name default : string) : string :=
  match find (fun kv => String.eqb (Py.lower (fst kv)) (Py.lower name)) hs with
  | Some kv => snd kv
  | None => default
  end.

Module HTTPStatus.
Definition OK : Z := 200.
Definition BAD_REQUEST : Z := 400.
Definition HTTP_VERSION_NOT_SUPPORTED : Z := 505.
Definition NO_CONTENT : Z := 204.
Definition RESET_CONTENT : Z := 205.
Definition MOVED_PERMANENTLY : Z := 301.
Definition NOT_MODIFIED : Z := 304.
Definition NOT_FOUND : Z := 404.
Definition REQUEST_URI_TOO_LONG : Z := 414.
Definition REQUEST_HEADER_FIELDS_TOO_LARGE : Z := 431.
Definition NOT_IMPLEMENTED : Z := 501.
End HTTPStatus.

(** ** http.server.BaseHTTPRequestHandler

    [self_end_headers] is [self.end_headers]: the library calls it on
    [self], so a subclass that overrides [end_headers] changes what
    [send_error] and [send_head] do. *)

Module BaseHTTPRequestHandler.

Definition protocol_version : string := "HTTP/1.0".
Definition server_version : string := "SimpleHTTP/0.6".
Definition error_content_type : string := "text/html;charset=utf-8".

(** [_control_char_table.get(ord(c))]: the control characters and the
    backslash, escaped *)
Definition _control_char_table (c : ascii) : option string :=
  let n := Ascii.nat_of_ascii c in
  if Ascii.eqb c Py.BACKSLASH then Some (String Py.BACKSLASH (String Py.BACKSLASH ""))
  else if (Nat.ltb n 32 || (Nat.leb 127 n && Nat.ltb n 160))%bool
  then Some (Py.escape_x c)
  else None.

Section Methods.

Variable P : platform.
Variable self_end_headers : M unit.

Definition version_string : string := server_version ++ " " ++ sys_version P.

(** ["%s %d %s\r\n" % (self.protocol_version, code, message)] *)
Definition status_line (code : Z) (message : string) : string :=
  protocol_version ++ " " ++ Py.str code ++ " " ++ message ++ Py.CRLF.

(** ["%s: %s\r\n" % (keyword, value)] *)
Definition header_line (keyword value : string) : string :=
  keyword ++ ": " ++ value ++ Py.CRLF.

(** [self.client_address[0]] *)
Definition address_string : M string := get (fun self => fst (client_address self)).

(** [log_message(format, *args)], with [message = format % args] *)
Definition log_message (message : string) : M unit :=
  address <- address_string ;;
  let entry :=
    address ++ " - - [" ++ log_date_time_string P ++ "] "
    ++ Py.translate _control_char_table message in
  modify (fun self => set_logged (logged self ++ [entry])%list self).

(** [log_request(code)]: ['"%s" %s %s' % (self.requestline, str(code), '-')] *)
Definition log_request (code : Z) : M unit :=
  requestline <- get requestline ;;
  log_message (String Py.DQUOTE requestline ++ String Py.DQUOTE " "
               ++ Py.str code ++ " -").

Definition log_error (message : string) : M unit := log_message message.

Definition send_response_only (code : Z) (message : option string) : M unit :=
  version <- get request_version ;;
  when (negb (String.eqb version "HTTP/0.9"))
    (let message :=
       match message with
       | Some m => m
       | None => match responses P code with
                 | Some (shortmsg, _) => shortmsg
                 | None => ""
                 end
       end in
     modify (fun self =>
       set_headers_buffer
         (_headers_buffer self ++ [status_line code message])%list self)).

Definition send_header (keyword value : string) : M unit :=
  version <- get request_version ;;
  when (negb (String.eqb version "HTTP/0.9"))
    (modify (fun self =>
       set_headers_buffer
         (_headers_buffer self ++ [header_line keyword value])%list self)) ;;
  when (String.eqb (Py.lower keyword) "connection")
    (if String.eqb (Py.lower value) "close"
     then modify (set_close_connection true)
     else when (String.eqb (Py.lower value) "keep-alive")
            (modify (set_close_connection false))).

Definition flush_headers : M unit :=
  buffer <- get _headers_buffer ;;
  wfile_write (Py.join0 buffer) ;;
  modify (set_headers_buffer []).

Definition end_headers : M unit :=
  version <- get request_version ;;
  when (negb (String.eqb version "HTTP/0.9"))
    (modify (fun self =>
       set_headers_buffer (_headers_buffer self ++ [Py.CRLF])%list self) ;;
     flush_headers).

Definition send_response (code : Z) (message : option string) : M unit :=
  log_request code ;;
  send_response_only code message ;;
  send_header "Server" version_string ;;
  send_header "Date" (date_time_string P None).

Definition send_error (code : Z) (message explain : option string) : M unit :=
  let (shortmsg, longmsg) :=
    match responses P code with
    | Some sl => sl
    | None => ("???", "???")
    end in
  let message := match message with Some m => m | None => shortmsg end in
  let explain := match explain with Some e => e | None => longmsg end in
  log_error ("code " ++ Py.str code ++ ", message " ++ message) ;;
  send_response code (Some message) ;;
  send_header "Connection" "close" ;;
  let has_body :=
    ((200 <=? code)%Z
     && negb ((code =? HTTPStatus.NO_CONTENT)%Z
              || (code =? HTTPStatus.RESET_CONTENT)%Z
              || (code =? HTTPStatus.NOT_MODIFIED)%Z))%bool in
  let body := error_page P code message explain in
  when has_body
    (send_header "Content-Type" error_content_type ;;
     send_header "Content-Length" (Py.str (Py.len body))) ;;
  self_end_headers ;;
  command <- get command ;;
  when (negb (String.eqb command "HEAD") && has_body && negb (String.eqb body ""))%bool
    (wfile_write body).

(** What [parse_request] makes of the request line: the command, path
    and version it stores before it reads the headers; or the error it
    sends through [send_error], with [request_version] as it stands at
    that moment; or nothing, for an empty line. *)
Inductive parsed :=
| Accepted (command path version : string)
| Refused (version : string) (code : Z) (message : string)
| NoRequest.

Definition default_request_version : string := "HTTP/0.9".

(** [version_number >= (2, 0)] on pairs *)
Definition version_ge_2 (version_number : Z * Z) : bool :=
  let (major, minor) := version_number in
  ((2 <? major)%Z || ((major =? 2)%Z && (0 <=? minor)%Z))%bool.

(** [parse_request], the request line: [requestline] is the line without
    its end.  With [protocol_version] ["HTTP/1.0"] the tests on
    [Connection] and [Expect] that follow the headers change nothing. *)
Definition parse_request (requestline : string) : parsed :=
  let words := Py.split_ws requestline in
  match words with
  | [] => NoRequest
  | _ =>
      let checked : string + parsed :=
        if Nat.leb 3 (List.length words) then
          let version := List.last words "" in
          let bad_version :=
            Refused default_request_version HTTPStatus.BAD_REQUEST
              ("Bad request version (" ++ repr P version ++ ")") in
          if negb (Py.startswith version "HTTP/") then inr bad_version
          else
            let base_version_number := Py.split1_tail version "/" in
            match Py.split base_version_number "." with
            | [major; minor] =>
                match Py.int major, Py.int minor with
                | Some major, Some minor =>
                    if version_ge_2 (major, minor)
                    then inr (Refused default_request_version
                                HTTPStatus.HTTP_VERSION_NOT_SUPPORTED
                                ("Invalid HTTP version (" ++ base_version_number ++ ")"))
                    else inl version
                | _, _ => inr bad_version
                end
            | _ => inr bad_version
            end
        else inl default_request_version in
      match checked with
      | inr refused => refused
      | inl request_version =>
          match words with
          | [command; path] =>
              if negb (String.eqb command "GET")
              then Refused request_version HTTPStatus.BAD_REQUEST
                     ("Bad HTTP/0.9 request type (" ++ repr P command ++ ")")
              else Accepted command
                     (if Py.startswith path "//" then "/" ++ Py.lstrip path "/" else path)
                     request_version
          | [command; path; _] =>
              Accepted command
                (if Py.startswith path "//" then "/" ++ Py.lstrip path "/" else path)
                request_version
          | _ =>
              Refused request_version HTTPStatus.BAD_REQUEST
                ("Bad request syntax (" ++ repr P requestline ++ ")")
          end
      end
  end.

End Methods.

End BaseHTTPRequestHandler.

(** ** http.server.SimpleHTTPRequestHandler *)

Module SimpleHTTPRequestHandler.

Import BaseHTTPRequestHandler.

Section Methods.

Variable P : platform.
Variable fs : filesystem.
Variable self_end_headers : M unit.

(** The test of the loop in [translate_path] that skips a component. *)
Definition not_simple (word : string) : bool :=
  (negb (String.eqb (posixpath.dirname word) "")
   || String.eqb word "." || String.eqb word "..")%bool.

Definition translate_path (directory path : string) : string :=
  let path := Py.split1_head path "?" in
  let path := Py.split1_head path "#" in
  let trailing_slash := Py.endswith (Py.rstrip path) "/" in
  let path := unquote P path in
  let path := posixpath.normpath path in
  let words := Py.split path "/" in
  let words := filter (fun w => negb (String.eqb w "")) words in
  let path :=
    fold_left
      (fun path word =>
         if not_simple word then path else posixpath.join path word)
      words directory in
  if trailing_slash then path ++ "/" else path.

Definition list_directory (path : string) : M (option fileobj) :=
  match os.listdir fs path with
  | None =>
      send_error P self_end_headers HTTPStatus.NOT_FOUND
        (Some "No permission to list directory") None ;;
      ret None
  | Some list =>
      request_path <- self_path ;;
      let entries :=
        map (fun name =>
               let fullname := posixpath.join path name in
               (name, os.isdir fs fullname, os.islink fs fullname)) list in
      let enc := getfilesystemencoding P in
      match listing_error P request_path path entries with
      | Some message => raise (UnicodeEncodeError message)
      | None =>
          let encoded := listing_page P request_path path entries in
          send_response P HTTPStatus.OK None ;;
          send_header "Content-type" ("text/html; charset=" ++ enc) ;;
          send_header "Content-Length" (Py.str (Py.len encoded)) ;;
          self_end_headers ;;
          ret (Some (BytesIO encoded))
      end
  end.

(** [os.fstat(f.fileno())]: [fs[6]] and [fs.st_mtime] *)
Definition st_size (f : fileobj) : Z := Py.len (read f).

Definition st_mtime (f : fileobj) : timestamp :=
  match f with FileIO _ _ mtime => mtime | BytesIO _ => 0%Z end.

(** [send_head] from [ctype = self.guess_type(path)] on.  Of what
    [open] raises only [OSError] is caught. *)
Definition send_head_file (path : string) : M (option fileobj) :=
  let ctype := guess_type P path in
  if Py.endswith path "/" then
    send_error P self_end_headers HTTPStatus.NOT_FOUND (Some "File not found") None ;;
    ret None
  else
    match os.open P fs path with
    | inr OSError =>
        send_error P self_end_headers HTTPStatus.NOT_FOUND (Some "File not found") None ;;
        ret None
    | inr e => raise e
    | inl f =>
        hs <- get headers ;;
        if (headers_contains hs "If-Modified-Since"
            && negb (headers_contains hs "If-None-Match")
            && not_modified_since P (headers_get hs "If-Modified-Since" "")
                 (st_mtime f))%bool
        then
          send_response P HTTPStatus.NOT_MODIFIED None ;;
          self_end_headers ;;
          ret None
        else
          send_response P HTTPStatus.OK None ;;
          send_header "Content-type" ctype ;;
          send_header "Content-Length" (Py.str (st_size f)) ;;
          send_header "Last-Modified" (date_time_string P (Some (st_mtime f))) ;;
          self_end_headers ;;
          ret (Some f)
    end.

Definition send_head : M (option fileobj) :=
  request_path <- self_path ;;
  directory <- self_directory ;;
  let path := translate_path directory request_path in
  if os.isdir fs path then
    match urlsplit_error P request_path with
    | Some message => raise (ValueError message)
    | None =>
        if negb (Py.endswith (urlsplit_path P request_path) "/") then
          send_response P HTTPStatus.MOVED_PERMANENTLY None ;;
          send_header "Location" (urlunsplit_slash P request_path) ;;
          send_header "Content-Length" "0" ;;
          self_end_headers ;;
          ret None
        else
          match find (fun index => os.isfile fs (posixpath.join path index))
                     ["index.html"; "index.htm"] with
          | Some index => send_head_file (posixpath.join path index)
          | None => list_directory path
          end
    end
  else send_head_file path.

(** [shutil.copyfileobj(source, self.wfile)] *)
Definition copyfile (source : fileobj) : M unit := wfile_write (read source).

Definition do_GET : M unit :=
  f <- send_head ;;
  match f with
  | Some f => copyfile f
  | None => ret tt
  end.

Definition do_HEAD : M unit :=
  f <- send_head ;;
  ret tt.

(** The [do_*] attributes of the class. *)
Definition methods : list (string * M unit) :=
  [("do_GET", do_GET); ("do_HEAD", do_HEAD)].

End Methods.

End SimpleHTTPRequestHandler.

(** ** dev-server.py: class CORSRequestHandler *)

Module CORSRequestHandler.

Section Methods.

Variable P : platform.
Variable fs : filesystem.

Definition end_headers : M unit :=
  BaseHTTPRequestHandler.send_header "Access-Control-Allow-Origin" "*" ;;
  BaseHTTPRequestHandler.send_header "Access-Control-Allow-Methods" "GET, POST, OPTIONS" ;;
  BaseHTTPRequestHandler.send_header "Access-Control-Allow-Headers" "*" ;;
  BaseHTTPRequestHandler.end_headers.

Definition do_OPTIONS : M unit :=
  BaseHTTPRequestHandler.send_response P 200 None ;;
  end_headers.

(** The [do_*] attributes defined by the class itself. *)
Definition methods : list (string * M unit) :=
  [("do_OPTIONS", do_OPTIONS)].

(** [getattr(self, name)] for a method: the class first, then its base
    class, whose calls of [self.end_headers()] reach the override. *)
Definition getattr (name : string) : option (M unit) :=
  option_map snd
    (find (fun m => String.eqb (fst m) name)
          (methods ++ SimpleHTTPRequestHandler.methods P fs end_headers)%list).

Definition send_error : Z -> option string -> option string -> M unit :=
  BaseHTTPRequestHandler.send_error P end_headers.

(** The end of [handle_one_request], once [parse_request] has returned
    [True]: the method named after the command is looked up and called. *)
Definition call_method : M unit :=
  command <- get command ;;
  let mname := "do_" ++ command in
  match getattr mname with
  | None =>
      send_error HTTPStatus.NOT_IMPLEMENTED
        (Some ("Unsupported method (" ++ repr P command ++ ")")) None
  | Some method => method
  end.

(** [handle_one_request] on the bytes [rfile] that the client sends,
    with [parse_request] in its place.  [self.command = None] is written
    [""]: the only test on it is [self.command != 'HEAD']. *)
Definition handle_one_request (rfile : string) : M unit :=
  let (raw_requestline, rfile) := Py.readline 65537 rfile in
  if (65536 <? Py.len raw_requestline)%Z then
    modify (set_requestline "") ;;
    modify (set_request_version "") ;;
    modify (set_command "") ;;
    send_error HTTPStatus.REQUEST_URI_TOO_LONG None None
  else if String.eqb raw_requestline "" then
    modify (set_close_connection true)
  else
    modify (set_command "") ;;
    modify (set_request_version BaseHTTPRequestHandler.default_request_version) ;;
    modify (set_close_connection true) ;;
    let requestline := Py.rstrip_chars raw_requestline Py.CRLF in
    modify (set_requestline requestline) ;;
    match BaseHTTPRequestHandler.parse_request P requestline with
    | BaseHTTPRequestHandler.NoRequest => ret tt
    | BaseHTTPRequestHandler.Refused version code message =>
        modify (set_request_version version) ;;
        send_error code (Some message) None
    | BaseHTTPRequestHandler.Accepted command path version =>
        modify (set_request_version version) ;;
        modify (set_command command) ;;
        modify (set_path path) ;;
        match http_client.parse_headers P rfile with
        | inr (http_client.LineTooLong _ as err) =>
            send_error HTTPStatus.REQUEST_HEADER_FIELDS_TOO_LARGE
              (Some "Line too long") (Some (http_client.message_of err))
        | inr err =>
            send_error HTTPStatus.REQUEST_HEADER_FIELDS_TOO_LARGE
              (Some "Too many headers") (Some (http_client.message_of err))
        | inl headers =>
            modify (set_headers headers) ;;
            call_method
        end
    end.

End Methods.

End CORSRequestHandler.

(** ** Requests and the bytes sent in reply *)

(** The attributes of the handler when [parse_request] has returned
    [True]: what it has extracted from the request line and the headers,
    the request line itself and the address of the client.
    [parse_request] splits the request line at white space.  Two words
    are a simple request: the command must be [GET], and
    [request_version] keeps its default ['HTTP/0.9'].  With three words
    the last one is the version; it is accepted as written when it reads
    [HTTP/<major>.<minor>] below 2.0, so [HTTP/0.9] is accepted with any
    command.  Everything else is answered by [send_error] without a
    method being called. *)
Record request := {
  method : string;
  target : string;
  version : string;
  fields : list (string * string);
  line : string;
  client : string * Z
}.

(** The handler object as [parse_request] leaves it; [directory] is
    [os.getcwd()] at the time the handler is created. *)
Definition new_handler (cwd : string) (r : request) : handler :=
  {| client_address := client r; requestline := line r;
     command := method r; path := target r; request_version := version r;
     headers := fields r; directory := cwd; _headers_buffer := [];
     wfile := ""; close_connection := true; logged := [] |}.

(** The handler object when [handle] calls [handle_one_request]; the
    attributes of the request are not set yet. *)
Definition fresh_handler (cwd : string) (client : string * Z) : handler :=
  {| client_address := client; requestline := "";
     command := ""; path := ""; request_version := "";
     headers := []; directory := cwd; _headers_buffer := [];
     wfile := ""; close_connection := true; logged := [] |}.

(** The handler after the method of the request has run, and how the
    method ended. *)
Definition handled (P : platform) (fs : filesystem) (cwd : string) (r : request)
  : result unit * handler :=
  CORSRequestHandler.call_method P fs (new_handler cwd r).

(** Everything the server writes to the connection for one request. *)
Definition respond (P : platform) (fs : filesystem) (cwd : string) (r : request)
  : string :=
  wfile (snd (handled P fs cwd r)).

(** The exception that the method of the request lets through, if any. *)
Definition failure (P : platform) (fs : filesystem) (cwd : string) (r : request)
  : option exception :=
  match fst (handled P fs cwd r) with
  | Raised e => Some e
  | Returned _ => None
  end.

(** The handler after [handle_one_request] on the bytes of a client. *)
Definition received (P : platform) (fs : filesystem) (cwd : string)
  (client : string * Z) (rfile : string) : handler :=
  snd (CORSRequestHandler.handle_one_request P fs rfile (fresh_handler cwd client)).

(** Everything the server writes for a request line and the header
    lines that follow it, each sent with its end of line, and the empty
    line after them. *)
Definition respond_line (P : platform) (fs : filesystem) (cwd : string)
  (client : string * Z) (requestline : string) (header_lines : list string)
  : string :=
  wfile (received P fs cwd client
           (requestline ++ Py.CRLF
            ++ Py.join0 (map (fun l => l ++ Py.CRLF) header_lines)
            ++ Py.CRLF)).

(** ** pathlib and the process *)

Module pathlib.

(** The root and the names that [PurePosixPath(s)] keeps. *)
Definition parse_parts (s : string) : string * list string :=
  let root :=
    if Py.startswith s "/" then
      if (Py.startswith s "//" && negb (Py.startswith s "///"))%bool
      then "//" else "/"
    else "" in
  (root,
   filter (fun x => negb (String.eqb x "" || String.eqb x ".")%bool)
          (Py.split s "/")).

(** [str] of a path given by its root and names *)
Definition format_parsed_parts (root : string) (names : list string) : string :=
  let s := root ++ Py.join "/" names in
  if String.eqb s "" then "." else s.

(** [str(Path(s).parent)] *)
Definition parent (s : string) : string :=
  let (root, names) := parse_parts s in
  format_parsed_parts root (List.removelast names).

End pathlib.

(** What the process asks of the operating system, in order.  The host
    [""] of a bind is every interface ([INADDR_ANY]). *)
Inductive syscall :=
| Chdir (target : string)
| Bind (host : string) (port : Z)
| CloseSocket.

(** [stdout] and [stderr] hold the lines written, each without its line
    feed. *)
Record process := {
  cwd : string;
  stdout : list string;
  stderr : list string;
  listening : option (string * Z);
  (** the bytes sent on each accepted connection, oldest first *)
  connections : list string;
  syscalls : list syscall
}.

(** What happens while [serve_forever] runs: a connection is accepted and
    its request handled to the end; or the interrupt signal arrives while
    a request is being handled, right after byte [sent] of the reply has
    been written ([sent = 0]: before the handler has logged or written
    anything); or it arrives while the server waits for a connection.
    The signal is delivered to the main thread, the only thread, as
    [KeyboardInterrupt]. *)
Inductive event :=
| Request (r : request)
| InterruptedRequest (r : request) (sent : nat)
| Interrupt.

(** How far the program got: it left with an exit status, or it is still
    inside [serve_forever] waiting for the next event. *)
Inductive outcome :=
| Exit (status : Z)
| Serving.

Definition print (line : string) (p : process) : process :=
  {| cwd := cwd p; stdout := (stdout p ++ [line])%list; stderr := stderr p;
     listening := listening p; connections := connections p;
     syscalls := syscalls p |}.

Definition eprint (line : string) (p : process) : process :=
  {| cwd := cwd p; stdout := stdout p; stderr := (stderr p ++ [line])%list;
     listening := listening p; connections := connections p;
     syscalls := syscalls p |}.

(** The lines of a handler's log reach [sys.stderr]. *)
Definition write_stderr (lines : list string) (p : process) : process :=
  {| cwd := cwd p; stdout := stdout p; stderr := (stderr p ++ lines)%list;
     listening := listening p; connections := connections p;
     syscalls := syscalls p |}.

Definition log_syscall (c : syscall) (p : process) : process :=
  {| cwd := cwd p; stdout := stdout p; stderr := stderr p;
     listening := listening p; connections := connections p;
     syscalls := (syscalls p ++ [c])%list |}.

(** [os.chdir(target)]: the kernel resolves [target] from the working
    directory, and [os.getcwd()] returns its own name of the directory
    from then on.  The directory is the one the script was loaded from
    and is taken to be still there. *)
Definition chdir (fs : filesystem) (target : string) (p : process) : process :=
  let p := log_syscall (Chdir target) p in
  {| cwd := realpath fs (posixpath.join (cwd p) target);
     stdout := stdout p; stderr := stderr p;
     listening := listening p; connections := connections p;
     syscalls := syscalls p |}.

Definition set_listening (l : option (string * Z)) (p : process) : process :=
  {| cwd := cwd p; stdout := stdout p; stderr := stderr p;
     listening := l; connections := connections p; syscalls := syscalls p |}.

Definition send_reply (bytes : string) (p : process) : process :=
  {| cwd := cwd p; stdout := stdout p; stderr := stderr p;
     listening := listening p; connections := (connections p ++ [bytes])%list;
     syscalls := syscalls p |}.

Module socketserver.

Section Server.

Variable P : platform.
Variable fs : filesystem.

(** [server_close], which the failed constructor and leaving the [with]
    block call *)
Definition server_close (p : process) : process :=
  set_listening None (log_syscall CloseSocket p).

(** [TCPServer(server_address, RequestHandlerClass)]: [server_bind].
    [bind_error] is the operating system's answer, [Some strerror] when
    it refuses; the constructor then closes the socket and re-raises
    [OSError], the [inr] here. *)
Definition TCPServer (bind_error : string -> Z -> option string)
  (host : string) (port : Z) (p : process) : process + process * string :=
  let p := log_syscall (Bind host port) p in
  match bind_error host port with
  | None => inl (set_listening (Some (host, port)) p)
  | Some strerror => inr (server_close p, strerror)
  end.

(** The last line of the traceback of an exception. *)
Definition format_exception (e : exception) : string :=
  match e with
  | OSError => "OSError"
  | ValueError message => "ValueError: " ++ message
  | UnicodeEncodeError message => "UnicodeEncodeError: " ++ message
  end.

(** [handle_error(request, client_address)]; of the traceback that
    [traceback.print_exc()] prints, the last line stands for all. *)
Definition handle_error (e : exception) (client_address : string * Z)
  (p : process) : process :=
  let p := eprint "----------------------------------------" p in
  let p := eprint ("Exception occurred during processing of request from "
                   ++ "(" ++ repr P (fst client_address) ++ ", "
                   ++ Py.str (snd client_address) ++ ")") p in
  let p := eprint (format_exception e) p in
  eprint "----------------------------------------" p.

(** [_handle_request_noblock] for a connection whose request is [r]: the
    handler runs, its log lines and its reply go out, and an exception
    that it lets through is caught ([except Exception]) and reported by
    [handle_error]. *)
Definition _handle_request_noblock (r : request) (p : process) : process :=
  let (result, self) := handled P fs (cwd p) r in
  let p := send_reply (wfile self) (write_stderr (logged self) p) in
  match result with
  | Returned _ => p
  | Raised e => handle_error e (client r) p
  end.

(** [serve_forever]: [inl] is the process waiting for more, [inr] is
    [KeyboardInterrupt] leaving the loop.  Every line of the log is
    written before the first byte of the reply. *)
Fixpoint serve_forever (events : list event) (p : process) : process + process :=
  match events with
  | [] => inl p
  | Request r :: rest => serve_forever rest (_handle_request_noblock r p)
  | InterruptedRequest r sent :: _ =>
      let self := snd (handled P fs (cwd p) r) in
      inr (send_reply (Py.take sent (wfile self))
             (match sent with
              | O => p
              | S _ => write_stderr (logged self) p
              end))
  | Interrupt :: _ => inr p
  end.

End Server.

End socketserver.

(** ** dev-server.py: the main block *)

Definition PORT : Z := 8000.

Definition nl : string := String Py.LF "".

Definition main (P : platform) (fs : filesystem)
  (bind_error : string -> Z -> option string)
  (__file__ : string) (cwd0 : string) (events : list event)
  : process * outcome :=
  let p := {| cwd := cwd0; stdout := []; stderr := []; listening := None;
              connections := []; syscalls := [] |} in
  let p := chdir fs (pathlib.parent __file__) p in
  match socketserver.TCPServer bind_error "" PORT p with
  | inr (p, strerror) =>
      (* OSError is not caught: the interpreter prints the traceback,
         whose last line this is, and exits with status 1 *)
      (eprint ("OSError: " ++ strerror) p, Exit 1)
  | inl httpd =>
      let httpd := print "🚀 Finance Teacher development server running at:" httpd in
      let httpd := print ("   http://localhost:" ++ Py.str PORT) httpd in
      let httpd := print (nl ++ "📁 Serving files from: " ++ cwd httpd) httpd in
      let httpd := print "🔑 Using API key from main.js" httpd in
      let httpd := print (nl ++ "Press Ctrl+C to stop the server") httpd in
      match socketserver.serve_forever P fs events httpd with
      | inl httpd => (httpd, Serving)
      | inr httpd =>
          let httpd := print (nl ++ nl ++ "✅ Development server stopped") httpd in
          (* httpd.shutdown() returns at once: serve_forever has set
             __is_shut_down on its way out *)
          (socketserver.server_close httpd, Exit 0)
      end
  end.

(** ** The vocabulary of the specification

    A response, and the bytes that stand for it on an HTTP/1.0
    connection.  [cors_headers] is the header block of the
    specification's section 6.

    [render] is not one-to-one: bytes may be the rendering of more than
    one response.  The predicates [carries_cors], [has_status],
    [preflight_answered] and [serves_file] ask for some response that
    renders to the bytes; they serve to show what a reply is not, and to
    name a reply whose bytes are given in full.  What a reply is to a
    client is said with [parse], further down. *)

Module Spec.

Record response := {
  status : Z;
  reason : string;
  header_fields : list (string * string);
  body : string
}.

Definition render (r : response) : string :=
  "HTTP/1.0 " ++ Py.str (status r) ++ " " ++ reason r ++ Py.CRLF
  ++ String.concat ""
       (map (fun kv => fst kv ++ ": " ++ snd kv ++ Py.CRLF) (header_fields r))
  ++ Py.CRLF
  ++ body r.

Definition cors_headers : list (string * string) :=
  [("Access-Control-Allow-Origin", "*");
   ("Access-Control-Allow-Methods", "GET, POST, OPTIONS");
   ("Access-Control-Allow-Headers", "*")].

Definition is_cors_name (k : string) : bool :=
  existsb (fun kv => String.eqb (Py.lower (fst kv)) (Py.lower k)) cors_headers.

(** The bytes render some response whose fields end with the three CORS
    headers and bear none of their names before. *)
Definition carries_cors (bytes : string) : Prop :=
  exists status reason hs body,
    bytes = render {| status := status; reason := reason;
                      header_fields := (hs ++ cors_headers)%list;
                      body := body |}
    /\ Forall (fun kv => is_cors_name (fst kv) = false) hs.

(** The bytes render some response with the given status. *)
Definition has_status (code : Z) (bytes : string) : Prop :=
  exists reason hs body,
    bytes = render {| status := code; reason := reason;
                      header_fields := hs; body := body |}.


(** The bytes render some response with status 200 and the body
    [data]. *)
Definition serves_file (data bytes : string) : Prop :=
  exists reason hs,
    bytes = render {| status := 200; reason := reason;
                      header_fields := hs; body := data |}.


(** A header name that announces a body. *)
Definition is_content_name (k : string) : bool :=
  (String.eqb (Py.lower k) "content-length"
   || String.eqb (Py.lower k) "content-type")%bool.

(** A path that is [root] followed by a relative path with no
    parent-directory segment. *)
Definition under_root (root p : string) : Prop :=
  exists rest,
    p = root ++ rest
    /\ (rest = "" \/ Py.startswith rest "/" = true \/ Py.endswith root "/" = true)
    /\ ~ In ".." (Py.split rest "/").

(** Two file systems that cannot be told apart below [root]. *)
Definition agree_under (root : string) (fs1 fs2 : filesystem) : Prop :=
  forall p, under_root root p ->
    lookup fs1 p = lookup fs2 p /\ is_symlink fs1 p = is_symlink fs2 p.

(** A directory entry as [os.listdir] returns it: a name, not a path. *)
Definition entry_name (name : string) : Prop :=
  name <> "" /\ name <> ".." /\ Py.contains name "/" = false.

Definition listings_are_names (fs : filesystem) : Prop :=
  forall p names, lookup fs p = Some (Directory (Some names)) ->
    Forall entry_name names.

(** *** A reply as a client reads it

    A client takes the bytes up to the first CR LF as the status line,
    the lines up to the first empty line as the header fields, and
    everything after that line as the body. *)

(** The bytes before the first CR LF and the bytes after it. *)
Fixpoint cut_line (s : string) : option (string * string) :=
  match s with
  | EmptyString => None
  | String a rest =>
      match rest with
      | EmptyString => None
      | String b rest' =>
          if (Ascii.eqb a Py.CR && Ascii.eqb b Py.LF)%bool then Some ("", rest')
          else
            match cut_line rest with
            | Some (l, r) => Some (String a l, r)
            | None => None
            end
      end
  end.

(** The lines before the first empty line, and the bytes after it. *)
Fixpoint read_head (fuel : nat) (s : string) : option (list string * string) :=
  match fuel with
  | O => None
  | S fuel =>
      match cut_line s with
      | None => None
      | Some (l, rest) =>
          if String.eqb l "" then Some ([], rest)
          else
            match read_head fuel rest with
            | Some (ls, body) => Some (l :: ls, body)
            | None => None
            end
      end
  end.

Definition head_and_body (bytes : string) : option (list string * string) :=
  read_head (S (String.length bytes)) bytes.

(** The name and the value of a header line: what stands before the
    first colon, and what stands after it less one leading space. *)
Definition field_of_line (l : string) : string * string :=
  (Py.split1_head l ":",
   match Py.split1_tail l ":" with
   | String a v => if Ascii.eqb a " " then v else String a v
   | v => v
   end).

(** The status line, the header fields and the body of a reply; [None]
    for bytes without a status line or without the empty line that ends
    a header block. *)
Definition parse (bytes : string)
  : option (string * list (string * string) * string) :=
  match head_and_body bytes with
  | Some (status_line :: lines, body) =>
      Some (status_line, map field_of_line lines, body)
  | _ => None
  end.

(** The header block of the reply ends with the three CORS headers, and
    no other header of the block bears one of their names. *)
Definition cors_in_header (bytes : string) : Prop :=
  exists status_line hs body,
    parse bytes = Some (status_line, (hs ++ cors_headers)%list, body)
    /\ Forall (fun kv => is_cors_name (fst kv) = false) hs.


(** A string without a line feed. *)
Definition one_line (s : string) : Prop := Py.contains s Py.LF = false.

(** What the library functions behind [platform] give for a status line
    or a header value has no line feed in it: version and date strings,
    reason phrases, [repr] (which escapes it), [urlunsplit] (which drops
    it), MIME types and the name of an encoding. *)
Definition one_line_platform (P : platform) : Prop :=
  one_line (sys_version P)
  /\ (forall t, one_line (date_time_string P t))
  /\ (forall code shortmsg longmsg,
        responses P code = Some (shortmsg, longmsg) -> one_line shortmsg)
  /\ (forall s, one_line (repr P s))
  /\ (forall s, one_line (urlunsplit_slash P s))
  /\ (forall s, one_line (guess_type P s))
  /\ one_line (getfilesystemencoding P).

End Spec.

(** ** A concrete platform and file system, for the examples *)

Module Demo.

Definition status_table (code : Z) : option (string * string) :=
  if (code =? 200)%Z then Some ("OK", "Request fulfilled, document follows")
  else if (code =? 301)%Z then Some ("Moved Permanently", "Object moved permanently -- see URI list")
  else if (code =? 304)%Z then Some ("Not Modified", "Document has not changed since given time")
  else if (code =? 404)%Z then Some ("Not Found", "Nothing matches the given URI")
  else if (code =? 501)%Z then Some ("Not Implemented", "Server does not support this operation")
  else None.

Definition mime (path : string) : string :=
  if Py.endswith path "l" then "text/html"
  else if Py.endswith path "s" then "text/javascript"
  else "application/octet-stream".

(** [repr] of a word of plain characters *)
Definition quoted (s : string) : string :=
  "'" ++ Py.translate BaseHTTPRequestHandler._control_char_table s ++ "'".

(** Tabs and ends of line are dropped from a URL. *)
Definition unsafe_byte (c : ascii) : option string :=
  if (Ascii.eqb c Py.LF || Ascii.eqb c Py.CR || Ascii.eqb c (Ascii.ascii_of_nat 9))%bool
  then Some "" else None.

(** [urlunsplit] of a URL without scheme and host, with a slash added
    to its path: an empty query or fragment is dropped. *)
Definition add_slash (s : string) : string :=
  let u := Py.split1_head s "#" in
  let fragment := Py.split1_tail s "#" in
  let path := Py.split1_head u "?" in
  let query := Py.split1_tail u "?" in
  path ++ "/"
  ++ (if String.eqb query "" then "" else "?" ++ query)
  ++ (if String.eqb fragment "" then "" else "#" ++ fragment).

(** Header lines of the form [Name: value], one field each. *)
Definition fields_of_lines (hstring : string) : list (string * string) :=
  map Spec.field_of_line
    (filter (fun l => negb (String.eqb l ""))
       (map (fun l => Py.rstrip_chars l Py.CRLF) (Py.split hstring Py.LF))).

Definition lib : platform :=
  {| sys_version := "Python/3.11.2";
     date_time_string := fun _ => "Tue, 03 Nov 2026 12:00:00 GMT";
     log_date_time_string := "03/Nov/2026 12:00:00";
     responses := status_table;
     error_page := fun code message explain =>
       "<h1>" ++ Py.str code ++ " " ++ message ++ "</h1><p>" ++ explain ++ "</p>";
     repr := quoted;
     parsestr := fields_of_lines;
     unquote := fun s => s;
     urlsplit_error := fun _ => None;
     urlsplit_path := fun s => Py.split1_head (Py.split1_head s "?") "#";
     urlunsplit_slash := fun s => add_slash (Py.translate unsafe_byte s);
     guess_type := mime;
     not_modified_since := fun value _ =>
       String.eqb value "Tue, 03 Nov 2026 12:00:00 GMT";
     getfilesystemencoding := "utf-8";
     fsencode_error := fun _ => None;
     listing_error := fun _ _ _ => None;
     listing_page := fun request_path _ entries =>
       "<title>Directory listing for " ++ request_path ++ "</title>"
       ++ String.concat "" (map (fun e => "<li>" ++ fst (fst e) ++ "</li>") entries) |}.

Definition root : string := "/srv/app".

Definition tree (p : string) : option node :=
  if (String.eqb p "/srv/app" || String.eqb p "/srv/app/")%bool
  then Some (Directory (Some ["index.html"; "main.js"; "assets"]))
  else if String.eqb p "/srv/app/index.html"
  then Some (RegularFile "<h1>Hi</h1>" 1700000000%Z true)
  else if String.eqb p "/srv/app/main.js"
  then Some (RegularFile "const API_KEY = 1;" 1700000001%Z true)
  else if (String.eqb p "/srv/app/assets" || String.eqb p "/srv/app/assets/")%bool
  then Some (Directory (Some ["logo.svg"]))
  else if String.eqb p "/srv/app/assets/logo.svg"
  then Some (RegularFile "<svg/>" 1700000002%Z true)
  else if String.eqb p "/etc/passwd"
  then Some (RegularFile "root:x:0:0" 1600000000%Z true)
  else None.

(** A tree without symbolic links: the kernel's name of a directory is
    its normalized path, with one leading slash. *)
Definition kernel_name (p : string) : string :=
  let n := posixpath.normpath p in
  if Py.startswith n "//" then "/" ++ Py.lstrip n "/" else n.

Definition fs : filesystem :=
  {| lookup := tree; is_symlink := fun _ => false; realpath := kernel_name |}.

(** The same tree with another file outside the root. *)
Definition fs' : filesystem :=
  {| lookup := fun p =>
       if String.eqb p "/etc/passwd"
       then Some (RegularFile "toor:x:0:0" 1600000009%Z true)
       else tree p;
     is_symlink := fun _ => false;
     realpath := kernel_name |}.

Definition peer : string * Z := ("127.0.0.1", 54321%Z).

Definition req (m t v : string) : request :=
  {| method := m; target := t; version := v; fields := [];
     line := m ++ " " ++ t ++ " " ++ v; client := peer |}.

Definition bind_ok (host : string) (port : Z) : option string := None.

Definition bind_in_use (host : string) (port : Z) : option string :=
  if (port =? 8000)%Z then Some "[Errno 98] Address already in use" else None.

Definition script : string := "/srv/app/dev-server.py".

End Demo.

(** ** Vocabulary of the proofs *)

(** [self.path], under a name that no local variable hides *)
Definition request_target (self : handler) : string := path self.

(** [upd self b w c l] is [self] with the attributes that the methods
    change replaced. *)
Definition upd (self : handler) (b : list string) (w : string) (c : bool)
  (l : list string) : handler :=
  {| client_address := client_address self; requestline := requestline self;
     command := command self; path := path self;
     request_version := request_version self; headers := headers self;
     directory := directory self; _headers_buffer := b;
     wfile := w; close_connection := c; logged := l |}.

(** The line that [log_message] writes for a message. *)
Definition log_entry (P : platform) (self : handler) (message : string) : string :=
  fst (client_address self) ++ " - - [" ++ log_date_time_string P ++ "] "
  ++ Py.translate BaseHTTPRequestHandler._control_char_table message.

(** The lines of [log_request] and of [log_error] in [send_error]. *)
Definition request_entry (P : platform) (self : handler) (code : Z) : string :=
  log_entry P self
    (String Py.DQUOTE (requestline self) ++ String Py.DQUOTE " "
     ++ Py.str code ++ " -").

Definition error_entry (P : platform) (self : handler) (code : Z)
  (message : string) : string :=
  log_entry P self ("code " ++ Py.str code ++ ", message " ++ message).

(** What [send_header] does to [close_connection]. *)
Definition connection_effect (keyword value : string) (c : bool) : bool :=
  if String.eqb (Py.lower keyword) "connection" then
    if String.eqb (Py.lower value) "close" then true
    else if String.eqb (Py.lower value) "keep-alive" then false else c
  else c.

(** The header lines reach the buffer only above HTTP/0.9. *)
Definition versioned (self : handler) (lines : list string) : list string :=
  if String.eqb (request_version self) "HTTP/0.9" then [] else lines.

(** The reason phrase that [send_response_only] picks. *)
Definition phrase (P : platform) (code : Z) (message : option string) : string :=
  match message with
  | Some m => m
  | None => match responses P code with
            | Some (shortmsg, _) => shortmsg
            | None => ""
            end
  end.

(** The line of a header field, and the lines of a status and its fields. *)
Definition field_line (kv : string * string) : string :=
  BaseHTTPRequestHandler.header_line (fst kv) (snd kv).

Definition head_lines (code : Z) (reason : string) (hs : list (string * string))
  : list string :=
  BaseHTTPRequestHandler.status_line code reason :: map field_line hs.

(** The three lines that the override of [end_headers] adds. *)
Definition cors_lines : list string := map field_line Spec.cors_headers.

(** The two headers that [send_response] adds. *)
Definition server_date (P : platform) : list (string * string) :=
  [("Server", BaseHTTPRequestHandler.version_string P);
   ("Date", date_time_string P None)].

(** A response given by its parts, with the CORS headers after [hs]. *)
Definition with_cors (code : Z) (reason : string) (hs : list (string * string))
  (body : string) : Spec.response :=
  {| Spec.status := code; Spec.reason := reason;
     Spec.header_fields := (hs ++ Spec.cors_headers)%list; Spec.body := body |}.

(** What [send_error] sends, as a response. *)
Definition error_response (P : platform) (command : string) (code : Z)
  (message explain : option string) : Spec.response :=
  let sl := match responses P code with Some sl => sl | None => ("???", "???") end in
  let message := match message with Some m => m | None => fst sl end in
  let explain := match explain with Some e => e | None => snd sl end in
  let has_body :=
    ((200 <=? code)%Z
     && negb ((code =? HTTPStatus.NO_CONTENT)%Z
              || (code =? HTTPStatus.RESET_CONTENT)%Z
              || (code =? HTTPStatus.NOT_MODIFIED)%Z))%bool in
  let body := error_page P code message explain in
  with_cors code message
    (server_date P ++ [("Connection", "close")]
     ++ (if has_body
         then [("Content-Type", BaseHTTPRequestHandler.error_content_type);
               ("Content-Length", Py.str (Py.len body))]
         else []))%list
    (if (negb (String.eqb command "HEAD") && has_body && negb (String.eqb body ""))%bool
     then body else "").

(** The response [resp] followed by [data] on the wire. *)
Definition add_body (resp : Spec.response) (data : string) : Spec.response :=
  {| Spec.status := Spec.status resp; Spec.reason := Spec.reason resp;
     Spec.header_fields := Spec.header_fields resp;
     Spec.body := Spec.body resp ++ data |}.

(** The test of [send_head] for a conditional request that the cached
    copy answers. *)
Definition answered_by_cache (P : platform) (hs : list (string * string))
  (mtime : timestamp) : bool :=
  (headers_contains hs "If-Modified-Since"
   && negb (headers_contains hs "If-None-Match")
   && not_modified_since P (headers_get hs "If-Modified-Since" "") mtime)%bool.

Definition not_found (P : platform) (self : handler) (message : string)
  : Spec.response :=
  error_response P (command self) HTTPStatus.NOT_FOUND (Some message) None.

(** What the handler logs for a response: [send_error], which sends
    the statuses from 400 on, logs the error before [send_response] logs
    the request. *)
Definition log_of (P : platform) (self : handler) (resp : Spec.response)
  : list string :=
  ((if (400 <=? Spec.status resp)%Z
    then [error_entry P self (Spec.status resp) (Spec.reason resp)] else [])
   ++ [request_entry P self (Spec.status resp)])%list.

(** What [send_head] sends for a path that is not a directory, and the
    file it returns; or the exception that it lets through. *)
Definition file_reply (P : platform) (fs : filesystem) (self : handler)
  (path : string) : result (Spec.response * option fileobj) :=
  if Py.endswith path "/" then Returned (not_found P self "File not found", None)
  else
    match os.open P fs path with
    | inr OSError => Returned (not_found P self "File not found", None)
    | inr e => Raised e
    | inl f =>
        if answered_by_cache P (headers self) (SimpleHTTPRequestHandler.st_mtime f)
        then Returned
               (with_cors HTTPStatus.NOT_MODIFIED
                  (phrase P HTTPStatus.NOT_MODIFIED None) (server_date P) "", None)
        else Returned
               (with_cors HTTPStatus.OK (phrase P HTTPStatus.OK None)
                  (server_date P
                   ++ [("Content-type", guess_type P path);
                       ("Content-Length", Py.str (SimpleHTTPRequestHandler.st_size f));
                       ("Last-Modified",
                        date_time_string P (Some (SimpleHTTPRequestHandler.st_mtime f)))])%list
                  "", Some f)
    end.

(** The same for a directory without an index file. *)
Definition listing_reply (P : platform) (fs : filesystem) (self : handler)
  (path : string) : result (Spec.response * option fileobj) :=
  match os.listdir fs path with
  | None => Returned (not_found P self "No permission to list directory", None)
  | Some list =>
      let entries :=
        map (fun name =>
               let fullname := posixpath.join path name in
               (name, os.isdir fs fullname, os.islink fs fullname)) list in
      match listing_error P (request_target self) path entries with
      | Some message => Raised (UnicodeEncodeError message)
      | None =>
          let encoded := listing_page P (request_target self) path entries in
          Returned
            (with_cors HTTPStatus.OK (phrase P HTTPStatus.OK None)
               (server_date P
                ++ [("Content-type",
                     ("text/html; charset=" ++ getfilesystemencoding P)%string);
                    ("Content-Length", Py.str (Py.len encoded))])%list
               "", Some (BytesIO encoded))
      end
  end.

(** What [send_head] sends, and the file it returns. *)
Definition head_reply (P : platform) (fs : filesystem) (self : handler)
  : result (Spec.response * option fileobj) :=
  let path :=
    SimpleHTTPRequestHandler.translate_path P (directory self) (request_target self) in
  if os.isdir fs path then
    match urlsplit_error P (request_target self) with
    | Some message => Raised (ValueError message)
    | None =>
        if negb (Py.endswith (urlsplit_path P (request_target self)) "/") then
          Returned
            (with_cors HTTPStatus.MOVED_PERMANENTLY
               (phrase P HTTPStatus.MOVED_PERMANENTLY None)
               (server_date P
                ++ [("Location", urlunsplit_slash P (request_target self));
                    ("Content-Length", "0")])%list
               "", None)
        else
          match find (fun index => os.isfile fs (posixpath.join path index))
                     ["index.html"; "index.htm"] with
          | Some index => file_reply P fs self (posixpath.join path index)
          | None => listing_reply P fs self path
          end
    end
  else file_reply P fs self path.

(** The whole reply to a request above HTTP/0.9, by method; or the
    exception that ends the handling of the request. *)
Definition reply (P : platform) (fs : filesystem) (self : handler)
  : result Spec.response :=
  if String.eqb (command self) "OPTIONS" then
    Returned (with_cors 200 (phrase P 200 None) (server_date P) "")
  else if String.eqb (command self) "GET" then
    match head_reply P fs self with
    | Returned (resp, Some f) => Returned (add_body resp (read f))
    | Returned (resp, None) => Returned resp
    | Raised e => Raised e
    end
  else if String.eqb (command self) "HEAD" then
    match head_reply P fs self with
    | Returned (resp, _) => Returned resp
    | Raised e => Raised e
    end
  else
    Returned
      (error_response P (command self) HTTPStatus.NOT_IMPLEMENTED
         (Some ("Unsupported method (" ++ repr P (command self) ++ ")")) None).

(** The handler after a method that started from [upd self [] w true l]
    and sent the response [x] or raised: the bytes on the connection are
    the rendering of the response when [full], its body otherwise. *)
Definition after {A} (P : platform) (self : handler) (full : bool) (w : string)
  (l : list string) (x : result (Spec.response * A)) : result A * handler :=
  match x with
  | Returned (resp, a) =>
      (Returned a,
       upd self []
         (w ++ if full then Spec.render resp else Spec.body resp) true
         (l ++ log_of P self resp)%list)
  | Raised e => (Raised e, upd self [] w true l)
  end.

(** The response with nothing returned beside it. *)
Definition only (x : result Spec.response) : result (Spec.response * unit) :=
  match x with
  | Returned resp => Returned (resp, tt)
  | Raised e => Raised e
  end.

(** The bytes of a response that was sent, in full or its body alone;
    nothing when the handler raised. *)
Definition wire (full : bool) (x : result Spec.response) : string :=
  match x with
  | Returned resp => if full then Spec.render resp else Spec.body resp
  | Raised _ => ""
  end.

(** A response whose header block ends with the three CORS headers and
    has none of their names before. *)
Definition cors_shaped (resp : Spec.response) : Prop :=
  exists code reason hs body,
    resp = with_cors code reason hs body
    /\ Forall (fun kv => Spec.is_cors_name (fst kv) = false) hs.

(** [self.request_version] when the reply to a request line is sent. *)
Definition request_version_of (p : BaseHTTPRequestHandler.parsed) : option string :=
  match p with
  | BaseHTTPRequestHandler.Accepted _ _ version => Some version
  | BaseHTTPRequestHandler.Refused version _ _ => Some version
  | BaseHTTPRequestHandler.NoRequest => None
  end.

(** The process after it has served the requests [rs] one after the
    other. *)
Definition serve_all (P : platform) (fs : filesystem) (rs : list request)
  (p : process) : process :=
  fold_left (fun p r => socketserver._handle_request_noblock P fs r p) rs p.

(** What [handle_error] prints for an exception. *)
Definition error_report (P : platform) (e : exception) (client_address : string * Z)
  : list string :=
  ["----------------------------------------";
   "Exception occurred during processing of request from "
   ++ "(" ++ repr P (fst client_address) ++ ", " ++ Py.str (snd client_address) ++ ")";
   socketserver.format_exception e;
   "----------------------------------------"].

(** The lines that a request leaves on standard error: the log of the
    handler, and the report of the exception that it let through. *)
Definition reported (P : platform) (fs : filesystem) (cwd : string) (r : request)
  : list string :=
  (logged (snd (handled P fs cwd r))
   ++ match failure P fs cwd r with
      | Some e => error_report P e (client r)
      | None => []
      end)%list.

(** The event is the interrupt signal, at rest or during a request. *)
Definition is_interrupt (ev : event) : bool :=
  match ev with Request _ => false | _ => true end.

(** What the connection that the signal cut off has received. *)
Definition cut_off (P : platform) (fs : filesystem) (cwd : string) (ev : event)
  : list string :=
  match ev with
  | InterruptedRequest r sent => [Py.take sent (respond P fs cwd r)]
  | _ => []
  end.

(** The lines that the main block prints before it serves. *)
Definition banner (cwd : string) : list string :=
  ["🚀 Finance Teacher development server running at:";
   "   http://localhost:8000";
   nl ++ "📁 Serving files from: " ++ cwd;
   "🔑 Using API key from main.js";
   nl ++ "Press Ctrl+C to stop the server"].

Definition stopped_line : string := nl ++ nl ++ "✅ Development server stopped".

(** The process when [serve_forever] is entered. *)
Definition started (fs : filesystem) (script cwd0 : string) : process :=
  {| cwd := realpath fs (posixpath.join cwd0 (pathlib.parent script));
     stdout := banner (realpath fs (posixpath.join cwd0 (pathlib.parent script)));
     stderr := [];
     listening := Some ("", 8000%Z);
     connections := [];
     syscalls := [Chdir (pathlib.parent script); Bind "" 8000] |}.

(** Every Content-Length field of the response gives the length of its
    body. *)
Definition length_announced (resp : Spec.response) : Prop :=
  forall k v, In (k, v) (Spec.header_fields resp) ->
    Py.lower k = "content-length" ->
    v = Py.str (Py.len (Spec.body resp)).

(** [any(c.isspace() for c in s)] *)
Fixpoint has_space (s : string) : bool :=
  match s with
  | "" => false
  | String a s' => (Py.isspace a || has_space s')%bool
  end.

(** A word of a request line: not empty and free of white space. *)
Definition is_word (w : string) : Prop := w <> "" /\ has_space w = false.


(** What [do_GET] ([get]) or [do_HEAD] makes of the result of
    [send_head]. *)
Definition with_file (get : bool) (x : result (Spec.response * option fileobj))
  : result Spec.response :=
  match x with
  | Returned (resp, Some f) => Returned (if get then add_body resp (read f) else resp)
  | Returned (resp, None) => Returned resp
  | Raised e => Raised e
  end.

(** The status line of a response, without its end. *)
Definition status_text (resp : Spec.response) : string :=
  "HTTP/1.0 " ++ Py.str (Spec.status resp) ++ " " ++ Spec.reason resp.

(** A header field that a client reads back as it was written: no colon
    in the name, no line feed in the name or the value. *)
Definition field_ok (kv : string * string) : Prop :=
  Py.contains (fst kv) ":" = false
  /\ Spec.one_line (fst kv) /\ Spec.one_line (snd kv).

(** A response whose reason and header fields each stay on their line. *)
Definition well_formed (resp : Spec.response) : Prop :=
  Spec.one_line (Spec.reason resp) /\ Forall field_ok (Spec.header_fields resp).

(** What a connection holds when the handler is done: nothing, or a
    response with the CORS headers last in its header fields and each
    field on its line. *)
Definition sound_reply (bytes : string) : Prop :=
  bytes = ""
  \/ exists resp, bytes = Spec.render resp /\ cors_shaped resp /\ well_formed resp.





(** * Properties *)

(** ** Strings *)

Lemma append_assoc (a b c : string) : (a ++ b) ++ c = a ++ (b ++ c).
Proof.
  induction a as [|x a IH]; simpl; [reflexivity | now rewrite IH].
Qed.

Lemma append_nil_r (a : string) : a ++ "" = a.
Proof.
  induction a as [|x a IH]; simpl; [reflexivity | now rewrite IH].
Qed.

Lemma join0_app (l1 l2 : list string) :
  Py.join0 (l1 ++ l2)%list = Py.join0 l1 ++ Py.join0 l2.
Proof.
  unfold Py.join0.
  induction l1 as [|x l1 IH]; simpl; [reflexivity |].
  destruct l1 as [|y l1].
  - simpl. destruct l2; simpl; [now rewrite append_nil_r | reflexivity].
  - change ((y :: l1) ++ l2)%list with (y :: (l1 ++ l2))%list.
    simpl in IH |- *. rewrite append_assoc. f_equal. exact IH.
Qed.

Lemma join0_cons (x : string) (l : list string) :
  Py.join0 (x :: l) = x ++ Py.join0 l.
Proof.
  change (x :: l) with ([x] ++ l)%list. rewrite join0_app. simpl.
  reflexivity.
Qed.

(** ** Running the methods of the handler *)

Lemma bind_run {A B} (m : M A) (k : A -> M B) self a self' :
  m self = (Returned a, self') -> bind m k self = k a self'.
Proof. intros H. unfold bind. now rewrite H. Qed.

Lemma bind_raise {A B} (m : M A) (k : A -> M B) self e self' :
  m self = (Raised e, self') -> bind m k self = (Raised e, self').
Proof. intros H. unfold bind. now rewrite H. Qed.

Lemma get_run {A} (f : handler -> A) (h : handler) : get f h = (Returned (f h), h).
Proof. reflexivity. Qed.

Lemma ret_run {A} (a : A) (h : handler) : ret a h = (Returned a, h).
Proof. reflexivity. Qed.

Section Run.

Variable P : platform.
Variable self : handler.

Import BaseHTTPRequestHandler.

Lemma send_header_run keyword value b w c l :
  send_header keyword value (upd self b w c l)
  = (Returned tt,
     upd self (b ++ versioned self [header_line keyword value])%list w
       (connection_effect keyword value c) l).
Proof.
  unfold send_header, versioned, connection_effect, bind, get, when, modify, ret.
  cbn.
  destruct (String.eqb (request_version self) "HTTP/0.9"); cbn;
    [rewrite app_nil_r |];
    destruct (String.eqb (Py.lower keyword) "connection"); cbn; try reflexivity;
    destruct (String.eqb (Py.lower value) "close"); cbn; try reflexivity;
    destruct (String.eqb (Py.lower value) "keep-alive"); reflexivity.
Qed.

Lemma send_response_only_run code message b w c l :
  send_response_only P code message (upd self b w c l)
  = (Returned tt,
     upd self (b ++ versioned self [status_line code (phrase P code message)])%list
       w c l).
Proof.
  unfold send_response_only, versioned, phrase, bind, get, when, modify, ret.
  cbn.
  destruct (String.eqb (request_version self) "HTTP/0.9"); cbn;
    [now rewrite app_nil_r | reflexivity].
Qed.

Lemma log_message_run message b w c l :
  log_message P message (upd self b w c l)
  = (Returned tt, upd self b w c (l ++ [log_entry P self message])%list).
Proof. reflexivity. Qed.

Lemma log_request_run code b w c l :
  log_request P code (upd self b w c l)
  = (Returned tt, upd self b w c (l ++ [request_entry P self code])%list).
Proof. reflexivity. Qed.

Lemma versioned_app l1 l2 :
  (versioned self l1 ++ versioned self l2)%list = versioned self (l1 ++ l2)%list.
Proof.
  unfold versioned. now destruct (String.eqb (request_version self) "HTTP/0.9").
Qed.

Lemma send_response_run code message b w c l :
  send_response P code message (upd self b w c l)
  = (Returned tt,
     upd self
       (b ++ versioned self
               (head_lines code (phrase P code message) (server_date P)))%list
       w c (l ++ [request_entry P self code])%list).
Proof.
  unfold send_response.
  erewrite bind_run by apply log_request_run.
  erewrite bind_run by apply send_response_only_run.
  erewrite bind_run by apply send_header_run.
  rewrite send_header_run.
  rewrite <- !app_assoc, !versioned_app. reflexivity.
Qed.

Lemma base_end_headers_run b w c l :
  end_headers (upd self b w c l)
  = (Returned tt,
     if String.eqb (request_version self) "HTTP/0.9"
     then upd self b w c l
     else upd self [] (w ++ Py.join0 b ++ Py.CRLF) c l).
Proof.
  unfold end_headers, flush_headers, wfile_write, bind, get, when, modify, ret.
  cbn.
  destruct (String.eqb (request_version self) "HTTP/0.9"); cbn; [reflexivity |].
  rewrite join0_app. reflexivity.
Qed.

Lemma end_headers_run b w c l :
  CORSRequestHandler.end_headers (upd self b w c l)
  = (Returned tt,
     if String.eqb (request_version self) "HTTP/0.9"
     then upd self b w c l
     else upd self [] (w ++ Py.join0 (b ++ cors_lines)%list ++ Py.CRLF) c l).
Proof.
  unfold CORSRequestHandler.end_headers.
  erewrite bind_run by apply send_header_run.
  erewrite bind_run by apply send_header_run.
  erewrite bind_run by apply send_header_run.
  rewrite base_end_headers_run.
  rewrite <- !app_assoc, !versioned_app.
  change (connection_effect _ _ (connection_effect _ _ (connection_effect _ _ c)))
    with c.
  unfold versioned.
  destruct (String.eqb (request_version self) "HTTP/0.9");
    [now rewrite app_nil_r | reflexivity].
Qed.

End Run.

(** ** Lines and rendered responses *)

Lemma render_head_lines code reason hs body :
  Py.join0 (head_lines code reason hs) ++ Py.CRLF ++ body
  = Spec.render {| Spec.status := code; Spec.reason := reason;
                   Spec.header_fields := hs; Spec.body := body |}.
Proof.
  unfold head_lines, Spec.render. cbn [Spec.status Spec.reason Spec.header_fields Spec.body].
  rewrite join0_cons.
  unfold BaseHTTPRequestHandler.status_line, BaseHTTPRequestHandler.protocol_version.
  rewrite !append_assoc. reflexivity.
Qed.

Lemma head_lines_app code reason hs hs' :
  (head_lines code reason hs ++ map field_line hs')%list
  = head_lines code reason (hs ++ hs')%list.
Proof. unfold head_lines. now rewrite map_app. Qed.

(** What a handler that wrote the lines of [hs] and then the CORS lines
    has sent. *)
Lemma render_with_cors code reason hs body :
  Py.join0 (head_lines code reason hs ++ cors_lines)%list ++ Py.CRLF ++ body
  = Spec.render (with_cors code reason hs body).
Proof.
  unfold cors_lines, with_cors. rewrite head_lines_app. apply render_head_lines.
Qed.

Section RunOptions.

Variable P : platform.
Variable fs : filesystem.
Variable self : handler.

Lemma do_OPTIONS_run w c l :
  CORSRequestHandler.do_OPTIONS P (upd self [] w c l)
  = (Returned tt,
     if String.eqb (request_version self) "HTTP/0.9"
     then upd self [] w c (l ++ [request_entry P self 200])%list
     else upd self []
            (w ++ Spec.render (with_cors 200 (phrase P 200 None) (server_date P) ""))
            c (l ++ [request_entry P self 200])%list).
Proof.
  unfold CORSRequestHandler.do_OPTIONS.
  erewrite bind_run by apply send_response_run.
  rewrite end_headers_run. unfold versioned.
  destruct (String.eqb (request_version self) "HTTP/0.9"); [reflexivity |].
  cbn [app]. rewrite <- render_with_cors, append_nil_r. reflexivity.
Qed.

End RunOptions.

Lemma getattr_OPTIONS P fs :
  CORSRequestHandler.getattr P fs "do_OPTIONS" = Some (CORSRequestHandler.do_OPTIONS P).
Proof. reflexivity. Qed.

Lemma respond_OPTIONS P fs cwd r :
  method r = "OPTIONS" ->
  respond P fs cwd r
  = if String.eqb (version r) "HTTP/0.9" then ""
    else Spec.render (with_cors 200 (phrase P 200 None) (server_date P) "").
Proof.
  intros Hm. unfold respond, handled, CORSRequestHandler.call_method.
  unfold bind at 1, get at 1. cbn [new_handler command]. rewrite Hm.
  change ("do_" ++ "OPTIONS") with "do_OPTIONS". rewrite getattr_OPTIONS.
  change (new_handler cwd r) with (upd (new_handler cwd r) [] "" true []).
  rewrite do_OPTIONS_run. cbn [new_handler request_version].
  destruct (String.eqb (version r) "HTTP/0.9"); reflexivity.
Qed.

Lemma render_body code reason hs data :
  Spec.render (with_cors code reason hs "") ++ data
  = Spec.render (with_cors code reason hs data).
Proof.
  unfold Spec.render, with_cors.
  cbn [Spec.status Spec.reason Spec.header_fields Spec.body].
  rewrite !append_assoc. reflexivity.
Qed.

(** ** The methods on a request above HTTP/0.9 *)

Section Run1x.

Variable P : platform.
Variable fs : filesystem.
Variable self : handler.
Hypothesis Hv : String.eqb (request_version self) "HTTP/0.9" = false.

Import BaseHTTPRequestHandler.

Lemma send_response_1x code message w c l :
  send_response P code message (upd self [] w c l)
  = (Returned tt,
     upd self (head_lines code (phrase P code message) (server_date P)) w c
       (l ++ [request_entry P self code])%list).
Proof.
  rewrite send_response_run. unfold versioned. rewrite Hv. reflexivity.
Qed.

Lemma send_header_1x keyword value code reason hs w c l :
  send_header keyword value (upd self (head_lines code reason hs) w c l)
  = (Returned tt,
     upd self (head_lines code reason (hs ++ [(keyword, value)])%list) w
       (connection_effect keyword value c) l).
Proof.
  rewrite send_header_run. unfold versioned. rewrite Hv.
  rewrite <- head_lines_app. reflexivity.
Qed.

Lemma end_headers_1x code reason hs w c l :
  CORSRequestHandler.end_headers (upd self (head_lines code reason hs) w c l)
  = (Returned tt, upd self [] (w ++ Spec.render (with_cors code reason hs "")) c l).
Proof.
  rewrite end_headers_run, Hv. rewrite <- render_with_cors, append_nil_r.
  reflexivity.
Qed.

Lemma wfile_write_body code reason hs data w c l :
  wfile_write data (upd self [] (w ++ Spec.render (with_cors code reason hs "")) c l)
  = (Returned tt, upd self [] (w ++ Spec.render (with_cors code reason hs data)) c l).
Proof.
  unfold wfile_write, modify, set_wfile, upd.
  cbn -[Spec.render with_cors append].
  rewrite append_assoc, render_body. reflexivity.
Qed.

Lemma send_error_1x code message explain w c l :
  send_error P (CORSRequestHandler.end_headers) code message explain (upd self [] w c l)
  = (Returned tt,
     upd self []
       (w ++ Spec.render (error_response P (command self) code message explain))
       true
       (l ++ [error_entry P self code
                (Spec.reason (error_response P (command self) code message explain));
              request_entry P self code])%list).
Proof.
  unfold send_error, error_response.
  destruct (match responses P code with Some sl => sl | None => ("???", "???") end)
    as [shortmsg longmsg].
  cbn [fst snd].
  set (msg := match message with Some m => m | None => shortmsg end).
  set (expl := match explain with Some e => e | None => longmsg end).
  set (has_body := ((200 <=? code)%Z && _)%bool).
  set (body := error_page P code msg expl).
  unfold log_error. erewrite bind_run by apply log_message_run.
  fold (error_entry P self code msg).
  erewrite bind_run by apply send_response_1x.
  erewrite bind_run by apply send_header_1x.
  change (connection_effect "Connection" "close" c) with true.
  change (phrase P code (Some msg)) with msg.
  rewrite <- !app_assoc. cbn [app with_cors Spec.reason].
  destruct has_body; cbn [when andb].
  - erewrite bind_run.
    2:{ erewrite bind_run by apply send_header_1x. apply send_header_1x. }
    change (connection_effect _ _ (connection_effect _ _ true)) with true.
    erewrite bind_run by apply end_headers_1x.
    erewrite bind_run by apply get_run. cbn [upd command].
    rewrite <- ?app_assoc. cbn [app].
    rewrite andb_true_r.
    destruct (negb (String.eqb (command self) "HEAD") && negb (String.eqb body ""))%bool;
      cbn [when].
    + apply wfile_write_body.
    + reflexivity.
  - erewrite bind_run by apply ret_run.
    erewrite bind_run by apply end_headers_1x.
    erewrite bind_run by apply get_run. cbn [upd command].
    rewrite andb_false_r. cbn [andb]. rewrite ?app_nil_r. reflexivity.
Qed.

End Run1x.

Lemma render_add_body resp data :
  Spec.render resp ++ data = Spec.render (add_body resp data).
Proof.
  unfold Spec.render, add_body.
  cbn [Spec.status Spec.reason Spec.header_fields Spec.body].
  rewrite !append_assoc. reflexivity.
Qed.

Lemma connection_effect_keep keyword value c :
  String.eqb (Py.lower keyword) "connection" = false ->
  connection_effect keyword value c = c.
Proof. intros H. unfold connection_effect. now rewrite H. Qed.

Ltac step Hv :=
  first
    [ erewrite bind_run by (apply send_response_1x; exact Hv)
    | erewrite bind_run by (apply send_header_1x; exact Hv)
    | erewrite bind_run by (apply end_headers_1x; exact Hv)
    | erewrite bind_run by (apply send_error_1x; exact Hv)
    | erewrite bind_run by apply get_run
    | erewrite bind_run by apply ret_run ];
  rewrite ?connection_effect_keep by reflexivity.

(** The log of a response that [send_error] sent with status 404. *)
Lemma log_of_not_found P self message :
  log_of P self (not_found P self message)
  = [error_entry P self 404 message; request_entry P self 404].
Proof. reflexivity. Qed.

Section RunFiles.

Variable P : platform.
Variable fs : filesystem.
Variable self : handler.
Hypothesis Hv : String.eqb (request_version self) "HTTP/0.9" = false.

Import SimpleHTTPRequestHandler.

Lemma send_head_file_1x p w l :
  send_head_file P fs (CORSRequestHandler.end_headers) p (upd self [] w true l)
  = after P self true w l (file_reply P fs self p).
Proof.
  unfold send_head_file, file_reply.
  destruct (Py.endswith p "/").
  { step Hv. cbn [after]. rewrite log_of_not_found. reflexivity. }
  destruct (os.open P fs p) as [f|[|m|m]].
  2:{ step Hv. cbn [after]. rewrite log_of_not_found. reflexivity. }
  2:{ reflexivity. }
  2:{ reflexivity. }
  step Hv. cbn [upd headers]. unfold answered_by_cache.
  destruct (headers_contains (headers self) "If-Modified-Since"
            && negb (headers_contains (headers self) "If-None-Match")
            && not_modified_since P
                 (headers_get (headers self) "If-Modified-Since" "") (st_mtime f))%bool.
  - do 2 step Hv. reflexivity.
  - do 5 step Hv. rewrite <- !app_assoc. reflexivity.
Qed.

Lemma list_directory_1x p w l :
  list_directory P fs (CORSRequestHandler.end_headers) p (upd self [] w true l)
  = after P self true w l (listing_reply P fs self p).
Proof.
  unfold list_directory, listing_reply, request_target.
  destruct (os.listdir fs p) as [names|].
  2:{ step Hv. cbn [after]. rewrite log_of_not_found. reflexivity. }
  unfold self_path. step Hv. cbn [upd path].
  destruct (listing_error P (path self) p _); [reflexivity |].
  do 4 step Hv.
  rewrite <- !app_assoc. reflexivity.
Qed.

Lemma send_head_1x w l :
  send_head P fs (CORSRequestHandler.end_headers) (upd self [] w true l)
  = after P self true w l (head_reply P fs self).
Proof.
  unfold send_head, head_reply, self_path, self_directory, request_target.
  do 2 step Hv. cbn [upd path directory].
  destruct (os.isdir fs (translate_path P (directory self) (path self))).
  2:{ apply send_head_file_1x. }
  destruct (urlsplit_error P (path self)); [reflexivity |].
  destruct (negb (Py.endswith (urlsplit_path P (path self)) "/")).
  { do 4 step Hv. rewrite <- !app_assoc. reflexivity. }
  destruct (find _ _) as [index|].
  - apply send_head_file_1x.
  - apply list_directory_1x.
Qed.

Lemma do_GET_1x w l :
  command self = "GET" ->
  do_GET P fs (CORSRequestHandler.end_headers) (upd self [] w true l)
  = after P self true w l (only (reply P fs self)).
Proof.
  intros Hc. unfold do_GET, reply. rewrite Hc. cbn [String.eqb Ascii.eqb].
  change (String.eqb "GET" "OPTIONS") with false.
  change (String.eqb "GET" "GET") with true. cbv iota.
  unfold bind. rewrite send_head_1x.
  destruct (head_reply P fs self) as [[resp [f|]]|e]; cbn [after only].
  - unfold copyfile, wfile_write, modify, set_wfile, upd.
    cbn -[Spec.render add_body append log_of].
    rewrite append_assoc, render_add_body. reflexivity.
  - reflexivity.
  - reflexivity.
Qed.

Lemma do_HEAD_1x w l :
  command self = "HEAD" ->
  do_HEAD P fs (CORSRequestHandler.end_headers) (upd self [] w true l)
  = after P self true w l (only (reply P fs self)).
Proof.
  intros Hc. unfold do_HEAD, reply. rewrite Hc.
  change (String.eqb "HEAD" "OPTIONS") with false.
  change (String.eqb "HEAD" "GET") with false.
  change (String.eqb "HEAD" "HEAD") with true. cbv iota.
  unfold bind. rewrite send_head_1x.
  destruct (head_reply P fs self) as [[resp f]|e]; reflexivity.
Qed.

End RunFiles.

(** ** Method lookup and the whole reply *)

Lemma getattr_do P fs c :
  CORSRequestHandler.getattr P fs ("do_" ++ c)
  = if String.eqb c "OPTIONS" then Some (CORSRequestHandler.do_OPTIONS P)
    else if String.eqb c "GET"
    then Some (SimpleHTTPRequestHandler.do_GET P fs (CORSRequestHandler.end_headers))
    else if String.eqb c "HEAD"
    then Some (SimpleHTTPRequestHandler.do_HEAD P fs (CORSRequestHandler.end_headers))
    else None.
Proof.
  unfold CORSRequestHandler.getattr, CORSRequestHandler.methods,
    SimpleHTTPRequestHandler.methods.
  cbn [app find fst].
  change (String.eqb "do_OPTIONS" ("do_" ++ c)) with (String.eqb "OPTIONS" c).
  change (String.eqb "do_GET" ("do_" ++ c)) with (String.eqb "GET" c).
  change (String.eqb "do_HEAD" ("do_" ++ c)) with (String.eqb "HEAD" c).
  rewrite (String.eqb_sym "OPTIONS"), (String.eqb_sym "GET"), (String.eqb_sym "HEAD").
  destruct (String.eqb c "OPTIONS"); [reflexivity |].
  destruct (String.eqb c "GET"); [reflexivity |].
  destruct (String.eqb c "HEAD"); reflexivity.
Qed.

(** Above HTTP/0.9 the bytes on the connection are the rendering of
    [reply], and the log holds its lines. *)
Lemma call_method_1x P fs self w l :
  String.eqb (request_version self) "HTTP/0.9" = false ->
  CORSRequestHandler.call_method P fs (upd self [] w true l)
  = after P self true w l (only (reply P fs self)).
Proof.
  intros Hv. unfold CORSRequestHandler.call_method.
  erewrite bind_run by apply get_run. cbn [upd command].
  rewrite getattr_do.
  destruct (String.eqb (command self) "OPTIONS") eqn:Ho.
  { rewrite do_OPTIONS_run, Hv. unfold reply. rewrite Ho. reflexivity. }
  destruct (String.eqb_spec (command self) "GET") as [Hg|Hg].
  { now apply do_GET_1x. }
  destruct (String.eqb_spec (command self) "HEAD") as [Hh|Hh].
  { now apply do_HEAD_1x. }
  unfold CORSRequestHandler.send_error.
  rewrite (send_error_1x P self Hv). unfold reply. rewrite Ho.
  apply String.eqb_neq in Hg, Hh. rewrite Hg, Hh. reflexivity.
Qed.

Lemma handled_1x P fs cwd r :
  String.eqb (version r) "HTTP/0.9" = false ->
  handled P fs cwd r
  = after P (new_handler cwd r) true "" [] (only (reply P fs (new_handler cwd r))).
Proof.
  intros Hv. unfold handled.
  change (new_handler cwd r) with (upd (new_handler cwd r) [] "" true []) at 1.
  now apply call_method_1x.
Qed.

Lemma respond_1x P fs cwd r :
  String.eqb (version r) "HTTP/0.9" = false ->
  respond P fs cwd r = wire true (reply P fs (new_handler cwd r)).
Proof.
  intros Hv. unfold respond. rewrite handled_1x by exact Hv.
  destruct (reply P fs (new_handler cwd r)); reflexivity.
Qed.

(** ** Every reply ends its header block with the CORS headers *)

Ltac shaped :=
  do 4 eexists; split; [reflexivity |];
  rewrite ?Forall_app; repeat split; repeat constructor.

Lemma error_response_shaped P c code message explain :
  cors_shaped (error_response P c code message explain).
Proof.
  unfold error_response.
  destruct ((200 <=? code)%Z && _)%bool; shaped.
Qed.

Lemma add_body_shaped resp data :
  cors_shaped resp -> cors_shaped (add_body resp data).
Proof.
  intros (code & reason & hs & body & -> & H).
  exists code, reason, hs, (body ++ data). split; [reflexivity | exact H].
Qed.

Lemma file_reply_shaped P fs self p resp f :
  file_reply P fs self p = Returned (resp, f) -> cors_shaped resp.
Proof.
  unfold file_reply, not_found.
  destruct (Py.endswith p "/").
  { intros [= <- _]. apply error_response_shaped. }
  destruct (os.open P fs p) as [f0|[|m|m]]; [| | discriminate | discriminate].
  - destruct (answered_by_cache _ _ _); intros [= <- _]; shaped.
  - intros [= <- _]. apply error_response_shaped.
Qed.

Lemma listing_reply_shaped P fs self p resp f :
  listing_reply P fs self p = Returned (resp, f) -> cors_shaped resp.
Proof.
  unfold listing_reply, not_found.
  destruct (os.listdir fs p).
  - destruct (listing_error P _ _ _); [discriminate |]. intros [= <- _]. shaped.
  - intros [= <- _]. apply error_response_shaped.
Qed.

Lemma head_reply_shaped P fs self resp f :
  head_reply P fs self = Returned (resp, f) -> cors_shaped resp.
Proof.
  unfold head_reply.
  destruct (os.isdir fs _); [| apply file_reply_shaped].
  destruct (urlsplit_error P _); [discriminate |].
  destruct (negb _); [intros [= <- _]; shaped |].
  destruct (find _ _); [apply file_reply_shaped | apply listing_reply_shaped].
Qed.

Lemma reply_shaped P fs self resp :
  reply P fs self = Returned resp -> cors_shaped resp.
Proof.
  unfold reply.
  destruct (String.eqb (command self) "OPTIONS"); [intros [= <-]; shaped |].
  destruct (String.eqb (command self) "GET").
  { destruct (head_reply P fs self) as [[resp0 [f|]]|e] eqn:H;
      intros [= <-]; [apply add_body_shaped |]; eapply head_reply_shaped; exact H. }
  destruct (String.eqb (command self) "HEAD").
  { destruct (head_reply P fs self) as [[resp0 f]|e] eqn:H;
      intros [= <-]; eapply head_reply_shaped; exact H. }
  intros [= <-]. apply error_response_shaped.
Qed.


(** ** Paths below the root *)

Lemma split_not_nil (a : string) (sep : ascii) : Py.split a sep <> [].
Proof.
  destruct a as [|x a]; simpl; [discriminate |].
  destruct (Ascii.eqb x sep); [discriminate |].
  destruct (Py.split a sep); discriminate.
Qed.

Lemma split_app_sep (a b : string) (sep : ascii) :
  Py.split (a ++ String sep b) sep = (Py.split a sep ++ Py.split b sep)%list.
Proof.
  induction a as [|x a IH]; simpl.
  - now rewrite Ascii.eqb_refl.
  - destruct (Ascii.eqb x sep); [now rewrite IH |].
    rewrite IH. pose proof (split_not_nil a sep) as Hn.
    destruct (Py.split a sep); [congruence | reflexivity].
Qed.

Lemma split_no_sep (w : string) (sep : ascii) :
  Py.contains w sep = false -> Py.split w sep = [w].
Proof.
  induction w as [|x w IH]; simpl; [reflexivity |].
  intros H. apply orb_false_iff in H as [Hx Hw].
  rewrite Hx, (IH Hw). reflexivity.
Qed.

Lemma endswith_inv (s : string) (c : ascii) :
  Py.endswith s c = true -> exists s0, s = s0 ++ String c "".
Proof.
  induction s as [|x s IH]; simpl; [discriminate |].
  destruct s as [|y s].
  - intros H. apply Ascii.eqb_eq in H. subst. now exists "".
  - intros H. destruct (IH H) as [s0 ->]. now exists (String x s0).
Qed.

Lemma endswith_app (a b : string) (c : ascii) :
  b <> "" -> Py.endswith (a ++ b) c = Py.endswith b c.
Proof.
  intros Hb. induction a as [|x a IH]; [reflexivity |].
  cbn [append]. rewrite <- IH.
  cbn [Py.endswith]. destruct (a ++ b) eqn:E; [| reflexivity].
  destruct a; [cbn in E; congruence | discriminate].
Qed.

Lemma startswith_app (a b p : string) :
  Py.startswith a p = true -> Py.startswith (a ++ b) p = true.
Proof.
  unfold Py.startswith. revert a.
  induction p as [|x p IH]; intros a; [now destruct (a ++ b) |].
  destruct a as [|y a]; cbn; [discriminate |].
  destruct (Ascii.ascii_dec x y); [apply IH | discriminate].
Qed.

Lemma no_slash_not_absolute (w : string) :
  Py.contains w "/" = false -> Py.startswith w "/" = false.
Proof.
  destruct w as [|x w]; [reflexivity |]. cbn -[Ascii.ascii_dec].
  intros H. apply orb_false_iff in H as [Hx _].
  destruct (Ascii.ascii_dec "/" x) as [<-|]; [discriminate | reflexivity].
Qed.

Lemma startswith_slash (w : string) : Py.startswith (String "/" w) "/" = true.
Proof. now destruct w. Qed.

Lemma under_root_refl (root : string) : Spec.under_root root root.
Proof.
  exists "". rewrite append_nil_r. repeat split; [now left |].
  cbn. intros [H|[]]. discriminate.
Qed.

Lemma under_root_slash (root a : string) :
  Spec.under_root root a -> Spec.under_root root (a ++ "/").
Proof.
  intros (rest & -> & Hsep & Hno).
  exists (rest ++ "/"). rewrite append_assoc. split; [reflexivity | split].
  - destruct Hsep as [-> | [H | H]]; [right; left; reflexivity | | now right; right].
    right; left. now apply startswith_app.
  - rewrite split_app_sep. intros H. apply in_app_or in H as [H | H]; [tauto |].
    cbn in H. destruct H as [H|[]]. discriminate.
Qed.

Lemma under_root_join (root a w : string) :
  root <> "" -> Spec.under_root root a -> Spec.entry_name w ->
  Spec.under_root root (posixpath.join a w).
Proof.
  intros Hroot (rest & -> & Hsep & Hno) (Hne & Hdd & Hslash).
  assert (Hsplit : Py.split w "/" = [w]) by now apply split_no_sep.
  assert (Hw : ~ In ".." [w]) by (intros [H|[]]; congruence).
  unfold posixpath.join. rewrite (no_slash_not_absolute w Hslash).
  assert (Hnonempty : String.eqb (root ++ rest) "" = false).
  { apply String.eqb_neq. destruct root; [congruence | discriminate]. }
  rewrite Hnonempty. cbn [orb].
  destruct (Py.endswith (root ++ rest) "/") eqn:Hend.
  - exists (rest ++ w). rewrite append_assoc. split; [reflexivity |].
    destruct rest as [|x rest].
    + rewrite append_nil_r in Hend. cbn [append].
      split; [now right; right | now rewrite Hsplit].
    + rewrite endswith_app in Hend by discriminate.
      destruct (endswith_inv _ _ Hend) as [r0 Hr0].
      split.
      * destruct Hsep as [H | [H | H]]; [discriminate | | now right; right].
        right; left. now apply startswith_app.
      * rewrite Hr0 in Hno |- *. rewrite append_assoc. cbn [append].
        rewrite split_app_sep in Hno |- *. rewrite Hsplit.
        intros H. apply in_app_or in H as [H | H]; [| tauto].
        apply Hno, in_or_app. now left.
  - exists (rest ++ "/" ++ w). rewrite !append_assoc.
    split; [reflexivity | split].
    + destruct Hsep as [-> | [H | H]];
        [right; left; apply startswith_slash | | now right; right].
      right; left. now apply startswith_app.
    + cbn [append]. rewrite split_app_sep, Hsplit.
      intros H. apply in_app_or in H as [H | H]; tauto.
Qed.

Lemma rstrip_slash_empty (s : string) :
  posixpath.rstrip_slash s = "" -> posixpath.all_slashes s = true.
Proof.
  induction s as [|x s IH]; [reflexivity |]. cbn.
  destruct (posixpath.rstrip_slash s); [| discriminate].
  destruct (Ascii.eqb x "/"); [intros _; now apply IH | discriminate].
Qed.

Lemma dirname_empty (w : string) :
  posixpath.dirname w = "" -> Py.contains w "/" = false.
Proof.
  unfold posixpath.dirname.
  destruct w as [|x w]; [reflexivity |].
  cbn [posixpath.head_upto_slash].
  destruct (Py.contains (String x w) "/"); [| reflexivity].
  cbn [String.eqb negb andb].
  destruct (posixpath.all_slashes _) eqn:E; cbn [negb]; [discriminate |].
  intros H. apply rstrip_slash_empty in H. congruence.
Qed.

Lemma simple_entry_name (w : string) :
  String.eqb w "" = false ->
  SimpleHTTPRequestHandler.not_simple w = false ->
  Spec.entry_name w.
Proof.
  unfold SimpleHTTPRequestHandler.not_simple. intros Hne H.
  apply orb_false_iff in H as [H Hdd].
  apply orb_false_iff in H as [Hdir _].
  apply negb_false_iff, String.eqb_eq in Hdir.
  repeat split.
  - now apply String.eqb_neq.
  - now apply String.eqb_neq.
  - now apply dirname_empty.
Qed.

Lemma translate_loop_under_root (root : string) (words : list string) :
  root <> "" ->
  forall a, Spec.under_root root a ->
  Spec.under_root root
    (fold_left
       (fun path word =>
          if SimpleHTTPRequestHandler.not_simple word then path
          else posixpath.join path word)
       (filter (fun w => negb (String.eqb w "")) words) a).
Proof.
  intros Hroot. induction words as [|w words IH]; intros a Ha; [exact Ha |].
  cbn [filter]. destruct (String.eqb w "") eqn:Hw; cbn [negb]; [now apply IH |].
  cbn [fold_left]. apply IH.
  destruct (SimpleHTTPRequestHandler.not_simple w) eqn:Hs; [exact Ha |].
  apply under_root_join; auto using simple_entry_name.
Qed.

Lemma translate_path_under_root P (root p : string) :
  root <> "" ->
  Spec.under_root root (SimpleHTTPRequestHandler.translate_path P root p).
Proof.
  intros Hroot. unfold SimpleHTTPRequestHandler.translate_path.
  destruct (Py.endswith _ "/").
  - apply under_root_slash, translate_loop_under_root;
      auto using under_root_refl.
  - apply translate_loop_under_root; auto using under_root_refl.
Qed.

(** ** File systems that agree below the root *)

Section Agree.

Variable P : platform.
Variables fs1 fs2 : filesystem.
Variable root : string.
Hypothesis Hroot : root <> "".
Hypothesis Hnames : Spec.listings_are_names fs1.
Hypothesis Hagree : Spec.agree_under root fs1 fs2.

Import SimpleHTTPRequestHandler.

Lemma isdir_agree p : Spec.under_root root p -> os.isdir fs1 p = os.isdir fs2 p.
Proof. intros H. unfold os.isdir. now rewrite (proj1 (Hagree p H)). Qed.

Lemma isfile_agree p : Spec.under_root root p -> os.isfile fs1 p = os.isfile fs2 p.
Proof. intros H. unfold os.isfile. now rewrite (proj1 (Hagree p H)). Qed.

Lemma islink_agree p : Spec.under_root root p -> os.islink fs1 p = os.islink fs2 p.
Proof. intros H. unfold os.islink. exact (proj2 (Hagree p H)). Qed.

Lemma open_agree p : Spec.under_root root p -> os.open P fs1 p = os.open P fs2 p.
Proof. intros H. unfold os.open. now rewrite (proj1 (Hagree p H)). Qed.

Lemma listdir_agree p : Spec.under_root root p -> os.listdir fs1 p = os.listdir fs2 p.
Proof. intros H. unfold os.listdir. now rewrite (proj1 (Hagree p H)). Qed.

Lemma listdir_names p names :
  os.listdir fs1 p = Some names -> Forall Spec.entry_name names.
Proof.
  unfold os.listdir. intros H.
  destruct (lookup fs1 p) as [[| [l|]]|] eqn:E; try discriminate.
  injection H as <-. exact (Hnames p l E).
Qed.

Lemma send_head_file_agree eh p self :
  Spec.under_root root p ->
  send_head_file P fs1 eh p self = send_head_file P fs2 eh p self.
Proof.
  intros H. unfold send_head_file. now rewrite (open_agree p H).
Qed.

Lemma list_directory_agree eh p self :
  Spec.under_root root p ->
  list_directory P fs1 eh p self = list_directory P fs2 eh p self.
Proof.
  intros H. unfold list_directory.
  pose proof (listdir_names p) as Hn.
  rewrite <- (listdir_agree p H).
  destruct (os.listdir fs1 p) as [names|]; [| reflexivity].
  specialize (Hn names eq_refl).
  replace (map (fun name => (name, os.isdir fs2 (posixpath.join p name),
                             os.islink fs2 (posixpath.join p name))) names)
    with (map (fun name => (name, os.isdir fs1 (posixpath.join p name),
                            os.islink fs1 (posixpath.join p name))) names);
    [reflexivity |].
  apply map_ext_in. intros name Hin.
  rewrite Forall_forall in Hn.
  assert (Hu : Spec.under_root root (posixpath.join p name))
    by (apply under_root_join; auto).
  now rewrite (isdir_agree _ Hu), (islink_agree _ Hu).
Qed.

Lemma index_entry_name index :
  In index ["index.html"; "index.htm"] -> Spec.entry_name index.
Proof.
  intros [<- | [<- | []]]; repeat split; discriminate.
Qed.

Lemma send_head_agree eh self :
  directory self = root ->
  send_head P fs1 eh self = send_head P fs2 eh self.
Proof.
  intros Hd. unfold send_head, self_path, self_directory, bind, get.
  rewrite Hd.
  set (p := translate_path P root (path self)).
  assert (Hp : Spec.under_root root p) by now apply translate_path_under_root.
  rewrite <- (isdir_agree p Hp).
  destruct (os.isdir fs1 p); [| now apply send_head_file_agree].
  destruct (urlsplit_error P (path self)); [reflexivity |].
  destruct (negb _); [reflexivity |].
  assert (Hi : forall index, In index ["index.html"; "index.htm"] ->
                 Spec.under_root root (posixpath.join p index))
    by (intros; apply under_root_join; auto using index_entry_name).
  cbn [find].
  rewrite <- !isfile_agree by (apply Hi; cbn; tauto).
  destruct (os.isfile fs1 (posixpath.join p "index.html"));
    [apply send_head_file_agree, Hi; cbn; tauto |].
  destruct (os.isfile fs1 (posixpath.join p "index.htm"));
    [apply send_head_file_agree, Hi; cbn; tauto |].
  now apply list_directory_agree.
Qed.

Lemma call_method_agree self :
  directory self = root ->
  CORSRequestHandler.call_method P fs1 self
  = CORSRequestHandler.call_method P fs2 self.
Proof.
  intros Hd. unfold CORSRequestHandler.call_method.
  rewrite !(bind_run _ _ _ _ _ (get_run command self)).
  rewrite !getattr_do.
  destruct (String.eqb (command self) "OPTIONS"); [reflexivity |].
  destruct (String.eqb (command self) "GET").
  { unfold do_GET, bind. now rewrite send_head_agree. }
  destruct (String.eqb (command self) "HEAD"); [| reflexivity].
  unfold do_HEAD, bind. now rewrite send_head_agree.
Qed.

End Agree.

(** ** The process *)

Section Process.

Variable P : platform.
Variable fs : filesystem.

Lemma handle_request_fields r p :
  let p' := socketserver._handle_request_noblock P fs r p in
  cwd p' = cwd p
  /\ stdout p' = stdout p
  /\ stderr p' = (stderr p ++ reported P fs (cwd p) r)%list
  /\ listening p' = listening p
  /\ syscalls p' = syscalls p
  /\ connections p' = (connections p ++ [respond P fs (cwd p) r])%list.
Proof.
  unfold socketserver._handle_request_noblock, reported, failure, respond.
  destruct (handled P fs (cwd p) r) as [[[]|e] self]; cbn.
  - rewrite app_nil_r. repeat split.
  - rewrite <- !app_assoc. repeat split.
Qed.

Lemma serve_all_fields rs p :
  cwd (serve_all P fs rs p) = cwd p
  /\ stdout (serve_all P fs rs p) = stdout p
  /\ stderr (serve_all P fs rs p)
     = (stderr p ++ concat (map (reported P fs (cwd p)) rs))%list
  /\ listening (serve_all P fs rs p) = listening p
  /\ syscalls (serve_all P fs rs p) = syscalls p
  /\ connections (serve_all P fs rs p)
     = (connections p ++ map (respond P fs (cwd p)) rs)%list.
Proof.
  revert p. induction rs as [|r rs IH]; intros p.
  - cbn. now rewrite !app_nil_r.
  - cbn [serve_all fold_left map concat].
    destruct (IH (socketserver._handle_request_noblock P fs r p))
      as (H1 & H2 & H3 & H4 & H5 & H6).
    destruct (handle_request_fields r p) as (G1 & G2 & G3 & G4 & G5 & G6).
    unfold serve_all in *. rewrite H1, H2, H3, H4, H5, H6.
    rewrite G1, G2, G3, G4, G5, G6.
    rewrite <- !app_assoc. repeat split.
Qed.


Lemma serve_forever_interrupted before ev after p :
  is_interrupt ev = true ->
  socketserver.serve_forever P fs (map Request before ++ ev :: after)%list p
  = inr (let p' := serve_all P fs before p in
         match ev with
         | InterruptedRequest r sent =>
             send_reply (Py.take sent (respond P fs (cwd p') r))
               (match sent with
                | O => p'
                | S _ => write_stderr (logged (snd (handled P fs (cwd p') r))) p'
                end)
         | _ => p'
         end).
Proof.
  intros Hev. revert p. induction before as [|r before IH]; intros p.
  - cbn [map app serve_all fold_left].
    destruct ev; [discriminate | reflexivity | reflexivity].
  - cbn [map app socketserver.serve_forever]. now rewrite IH.
Qed.

End Process.



(** ** The methods on an HTTP/0.9 request *)

Section Run09.

Variable P : platform.
Variable fs : filesystem.
Variable self : handler.
Hypothesis Hv : String.eqb (request_version self) "HTTP/0.9" = true.

Import BaseHTTPRequestHandler.

Lemma send_response_09 code message b w c l :
  send_response P code message (upd self b w c l)
  = (Returned tt, upd self b w c (l ++ [request_entry P self code])%list).
Proof.
  rewrite send_response_run. unfold versioned. rewrite Hv.
  now rewrite app_nil_r.
Qed.

Lemma send_header_09 keyword value b w c l :
  send_header keyword value (upd self b w c l)
  = (Returned tt, upd self b w (connection_effect keyword value c) l).
Proof.
  rewrite send_header_run. unfold versioned. rewrite Hv.
  now rewrite app_nil_r.
Qed.

Lemma end_headers_09 b w c l :
  CORSRequestHandler.end_headers (upd self b w c l) = (Returned tt, upd self b w c l).
Proof. now rewrite end_headers_run, Hv. Qed.

Lemma wfile_write_run data b w c l :
  wfile_write data (upd self b w c l) = (Returned tt, upd self b (w ++ data) c l).
Proof. reflexivity. Qed.

Lemma send_error_09 code message explain w c l :
  send_error P (CORSRequestHandler.end_headers) code message explain (upd self [] w c l)
  = (Returned tt,
     upd self []
       (w ++ Spec.body (error_response P (command self) code message explain))
       true
       (l ++ [error_entry P self code
                (Spec.reason (error_response P (command self) code message explain));
              request_entry P self code])%list).
Proof.
  unfold send_error, error_response.
  destruct (match responses P code with Some sl => sl | None => ("???", "???") end)
    as [shortmsg longmsg].
  cbn [fst snd].
  set (msg := match message with Some m => m | None => shortmsg end).
  set (expl := match explain with Some e => e | None => longmsg end).
  set (has_body := ((200 <=? code)%Z && _)%bool).
  set (body := error_page P code msg expl).
  unfold log_error. erewrite bind_run by apply log_message_run.
  fold (error_entry P self code msg).
  erewrite bind_run by apply send_response_09.
  erewrite bind_run by apply send_header_09.
  change (connection_effect "Connection" "close" c) with true.
  rewrite <- !app_assoc. cbn [app].
  unfold with_cors. cbn [Spec.body Spec.reason].
  destruct has_body; cbn [when andb].
  - erewrite bind_run.
    2:{ erewrite bind_run by apply send_header_09. apply send_header_09. }
    change (connection_effect _ _ (connection_effect _ _ true)) with true.
    erewrite bind_run by apply end_headers_09.
    erewrite bind_run by apply get_run. cbn [upd command].
    rewrite andb_true_r.
    destruct (negb (String.eqb (command self) "HEAD") && negb (String.eqb body ""))%bool;
      cbn [when].
    + apply wfile_write_run.
    + rewrite append_nil_r. reflexivity.
  - erewrite bind_run by apply ret_run.
    erewrite bind_run by apply end_headers_09.
    erewrite bind_run by apply get_run. cbn [upd command].
    rewrite andb_false_r. cbn [andb when]. rewrite append_nil_r. reflexivity.
Qed.

End Run09.

Ltac step09 Hv :=
  first
    [ erewrite bind_run by (apply send_response_09; exact Hv)
    | erewrite bind_run by (apply send_header_09; exact Hv)
    | erewrite bind_run by (apply end_headers_09; exact Hv)
    | erewrite bind_run by (apply send_error_09; exact Hv)
    | erewrite bind_run by apply get_run
    | erewrite bind_run by apply ret_run ];
  rewrite ?connection_effect_keep by reflexivity.

Section RunFiles09.

Variable P : platform.
Variable fs : filesystem.
Variable self : handler.
Hypothesis Hv : String.eqb (request_version self) "HTTP/0.9" = true.

Import SimpleHTTPRequestHandler.

Lemma send_head_file_09 p w l :
  send_head_file P fs (CORSRequestHandler.end_headers) p (upd self [] w true l)
  = after P self false w l (file_reply P fs self p).
Proof.
  unfold send_head_file, file_reply.
  destruct (Py.endswith p "/").
  { step09 Hv. cbn [after]. rewrite log_of_not_found. reflexivity. }
  destruct (os.open P fs p) as [f|[|m|m]].
  2:{ step09 Hv. cbn [after]. rewrite log_of_not_found. reflexivity. }
  2:{ reflexivity. }
  2:{ reflexivity. }
  step09 Hv. cbn [upd headers]. unfold answered_by_cache.
  destruct (headers_contains (headers self) "If-Modified-Since"
            && negb (headers_contains (headers self) "If-None-Match")
            && not_modified_since P
                 (headers_get (headers self) "If-Modified-Since" "") (st_mtime f))%bool;
    cbn [after with_cors Spec.body]; rewrite append_nil_r.
  - do 2 step09 Hv. reflexivity.
  - do 5 step09 Hv. reflexivity.
Qed.

Lemma list_directory_09 p w l :
  list_directory P fs (CORSRequestHandler.end_headers) p (upd self [] w true l)
  = after P self false w l (listing_reply P fs self p).
Proof.
  unfold list_directory, listing_reply, request_target.
  destruct (os.listdir fs p) as [names|].
  2:{ step09 Hv. cbn [after]. rewrite log_of_not_found. reflexivity. }
  unfold self_path. step09 Hv. cbn [upd path].
  destruct (listing_error P (path self) p _); [reflexivity |].
  cbn [after with_cors Spec.body]. rewrite append_nil_r.
  do 4 step09 Hv.
  reflexivity.
Qed.

Lemma send_head_09 w l :
  send_head P fs (CORSRequestHandler.end_headers) (upd self [] w true l)
  = after P self false w l (head_reply P fs self).
Proof.
  unfold send_head, head_reply, self_path, self_directory, request_target.
  do 2 step09 Hv. cbn [upd path directory].
  destruct (os.isdir fs (translate_path P (directory self) (path self))).
  2:{ apply send_head_file_09. }
  destruct (urlsplit_error P (path self)); [reflexivity |].
  destruct (negb (Py.endswith (urlsplit_path P (path self)) "/")).
  { cbn [after with_cors Spec.body]. rewrite append_nil_r.
    do 4 step09 Hv. reflexivity. }
  destruct (find _ _) as [index|].
  - apply send_head_file_09.
  - apply list_directory_09.
Qed.

Lemma call_method_09 w l :
  CORSRequestHandler.call_method P fs (upd self [] w true l)
  = after P self false w l (only (reply P fs self)).
Proof.
  unfold CORSRequestHandler.call_method.
  erewrite bind_run by apply get_run. cbn [upd command].
  rewrite getattr_do. unfold reply.
  destruct (String.eqb (command self) "OPTIONS").
  { rewrite do_OPTIONS_run, Hv. cbn [only after with_cors Spec.body].
    now rewrite append_nil_r. }
  destruct (String.eqb (command self) "GET").
  { unfold do_GET, bind. rewrite send_head_09.
    destruct (head_reply P fs self) as [[resp [f|]]|e]; cbn [after only].
    - unfold copyfile. rewrite wfile_write_run.
      unfold add_body. cbn [Spec.body]. now rewrite append_assoc.
    - reflexivity.
    - reflexivity. }
  destruct (String.eqb (command self) "HEAD").
  { unfold do_HEAD, bind. rewrite send_head_09.
    destruct (head_reply P fs self) as [[resp f]|e]; reflexivity. }
  unfold CORSRequestHandler.send_error.
  rewrite (send_error_09 P self Hv). reflexivity.
Qed.

End RunFiles09.

Lemma handled_09 P fs cwd r :
  String.eqb (version r) "HTTP/0.9" = true ->
  handled P fs cwd r
  = after P (new_handler cwd r) false "" [] (only (reply P fs (new_handler cwd r))).
Proof.
  intros Hv. unfold handled.
  change (new_handler cwd r) with (upd (new_handler cwd r) [] "" true []) at 1.
  now apply call_method_09.
Qed.

Lemma respond_09 P fs cwd r :
  String.eqb (version r) "HTTP/0.9" = true ->
  respond P fs cwd r = wire false (reply P fs (new_handler cwd r)).
Proof.
  intros Hv. unfold respond. rewrite handled_09 by exact Hv.
  destruct (reply P fs (new_handler cwd r)); reflexivity.
Qed.

(** Whether the handler raises does not depend on the version. *)
Lemma failure_reply P fs cwd r :
  failure P fs cwd r
  = match reply P fs (new_handler cwd r) with
    | Returned _ => None
    | Raised e => Some e
    end.
Proof.
  unfold failure.
  destruct (String.eqb (version r) "HTTP/0.9") eqn:Hv;
    [rewrite handled_09 by exact Hv | rewrite handled_1x by exact Hv];
    destruct (reply P fs (new_handler cwd r)); reflexivity.
Qed.

(** ** Replies by case *)

Lemma reply_get_or_head P fs self :
  (String.eqb (command self) "GET" || String.eqb (command self) "HEAD")%bool = true ->
  reply P fs self
  = with_file (String.eqb (command self) "GET") (head_reply P fs self).
Proof.
  intros Hm. unfold reply.
  destruct (String.eqb_spec (command self) "OPTIONS") as [Ho | _].
  { rewrite Ho in Hm. discriminate Hm. }
  destruct (String.eqb (command self) "GET").
  { now destruct (head_reply P fs self) as [[resp [f|]]|e]. }
  cbn [orb] in Hm. rewrite Hm.
  now destruct (head_reply P fs self) as [[resp [f|]]|e].
Qed.

Lemma error_body_page (c page : string) :
  String.eqb c "HEAD" = false ->
  (if (negb (String.eqb c "HEAD") && true && negb (String.eqb page ""))%bool
   then page else "") = page.
Proof.
  intros ->. cbn [negb andb].
  now destruct (String.eqb_spec page "") as [-> | _].
Qed.

Lemma respond_not_directory P fs cwd r :
  (String.eqb (method r) "GET" || String.eqb (method r) "HEAD")%bool = true ->
  String.eqb (version r) "HTTP/0.9" = false ->
  os.isdir fs (SimpleHTTPRequestHandler.translate_path P cwd (target r)) = false ->
  respond P fs cwd r
  = wire true
      (with_file (String.eqb (method r) "GET")
         (file_reply P fs (new_handler cwd r)
            (SimpleHTTPRequestHandler.translate_path P cwd (target r)))).
Proof.
  intros Hm Hv Hd. rewrite respond_1x by exact Hv.
  rewrite reply_get_or_head by exact Hm.
  unfold head_reply, request_target. cbn [new_handler directory path command].
  now rewrite Hd.
Qed.

Lemma respond_directory P fs cwd r :
  (String.eqb (method r) "GET" || String.eqb (method r) "HEAD")%bool = true ->
  String.eqb (version r) "HTTP/0.9" = false ->
  os.isdir fs (SimpleHTTPRequestHandler.translate_path P cwd (target r)) = true ->
  Py.endswith (urlsplit_path P (target r)) "/" = true ->
  let p := SimpleHTTPRequestHandler.translate_path P cwd (target r) in
  respond P fs cwd r
  = match urlsplit_error P (target r) with
    | Some _ => ""
    | None =>
        wire true
          (with_file (String.eqb (method r) "GET")
             match find (fun index => os.isfile fs (posixpath.join p index))
                        ["index.html"; "index.htm"] with
             | Some index =>
                 file_reply P fs (new_handler cwd r) (posixpath.join p index)
             | None => listing_reply P fs (new_handler cwd r) p
             end)
    end.
Proof.
  intros Hm Hv Hd Hs p. rewrite respond_1x by exact Hv.
  rewrite reply_get_or_head by exact Hm.
  unfold head_reply, request_target. cbn [new_handler directory path command].
  subst p. rewrite Hd.
  destruct (urlsplit_error P (target r)); [reflexivity |].
  rewrite Hs. reflexivity.
Qed.

Lemma file_reply_regular P fs self p data mtime :
  lookup fs p = Some (RegularFile data mtime true) ->
  Py.endswith p "/" = false ->
  file_reply P fs self p
  = if answered_by_cache P (headers self) mtime
    then Returned (with_cors 304 (phrase P 304 None) (server_date P) "", None)
    else Returned
           (with_cors 200 (phrase P 200 None)
              (server_date P
               ++ [("Content-type", guess_type P p);
                   ("Content-Length", Py.str (Py.len data));
                   ("Last-Modified", date_time_string P (Some mtime))])%list
              "", Some (FileIO p data mtime)).
Proof.
  intros Hf He. unfold file_reply. rewrite He. unfold os.open. rewrite Hf.
  reflexivity.
Qed.

Lemma not_found_explicit P self message :
  not_found P self message
  = let explain :=
      match responses P 404 with Some sl => snd sl | None => "???" end in
    let page := error_page P 404 message explain in
    with_cors 404 message
      (server_date P
       ++ [("Connection", "close");
           ("Content-Type", "text/html;charset=utf-8");
           ("Content-Length", Py.str (Py.len page))])%list
      (if String.eqb (command self) "HEAD" then "" else page).
Proof.
  unfold not_found, error_response, HTTPStatus.NOT_FOUND, HTTPStatus.NO_CONTENT,
    HTTPStatus.RESET_CONTENT, HTTPStatus.NOT_MODIFIED.
  change ((200 <=? 404)%Z
          && negb ((404 =? 204)%Z || (404 =? 205)%Z || (404 =? 304)%Z))%bool
    with true.
  cbv iota zeta.
  destruct (responses P 404) as [[shortmsg longmsg]|]; cbn [fst snd];
    (destruct (String.eqb (command self) "HEAD"); cbn [negb andb];
     [reflexivity |]);
    match goal with
    | |- context [String.eqb ?page ""] =>
        generalize page; intros pg;
        destruct (String.eqb_spec pg "") as [-> | _]; reflexivity
    end.
Qed.

Lemma translate_path_keeps_trailing_slash P d t :
  Py.endswith (Py.rstrip (Py.split1_head (Py.split1_head t "?") "#")) "/" = true ->
  Py.endswith (SimpleHTTPRequestHandler.translate_path P d t) "/" = true.
Proof.
  intros H. unfold SimpleHTTPRequestHandler.translate_path. rewrite H.
  now rewrite endswith_app by discriminate.
Qed.

Lemma join_name_not_slash (p w : string) :
  Py.startswith w "/" = false -> w <> "" -> Py.endswith w "/" = false ->
  Py.endswith (posixpath.join p w) "/" = false.
Proof.
  intros Hs Hne He. unfold posixpath.join. rewrite Hs.
  destruct (String.eqb p "" || Py.endswith p "/")%bool.
  - now rewrite endswith_app.
  - rewrite endswith_app by discriminate.
    destruct w as [|a w]; [congruence | exact He].
Qed.

(** ** More on strings *)

Lemma split1_head_app (a b : string) (c : ascii) :
  Py.contains a c = false ->
  Py.split1_head (a ++ b) c = a ++ Py.split1_head b c.
Proof.
  induction a as [|x a IH]; cbn; [reflexivity |].
  intros H. apply orb_false_iff in H as [Hx Ha].
  now rewrite Hx, (IH Ha).
Qed.

Lemma split1_head_sep (b : string) (c : ascii) :
  Py.split1_head (String c b) c = "".
Proof. cbn. now rewrite Ascii.eqb_refl. Qed.

Lemma split1_head_none (a : string) (c : ascii) :
  Py.contains a c = false -> Py.split1_head a c = a.
Proof.
  intros H. rewrite <- (append_nil_r a) at 1.
  rewrite split1_head_app by exact H. cbn. apply append_nil_r.
Qed.

Lemma contains_app (a b : string) (c : ascii) :
  Py.contains (a ++ b) c = (Py.contains a c || Py.contains b c)%bool.
Proof.
  induction a as [|x a IH]; cbn; [reflexivity |].
  now rewrite IH, orb_assoc.
Qed.

Lemma strip_query_and_fragment (p q : string) :
  Py.contains p "?" = false -> Py.contains p "#" = false ->
  Py.split1_head (Py.split1_head (p ++ "?" ++ q) "?") "#" = p
  /\ Py.split1_head (Py.split1_head (p ++ "#" ++ q) "?") "#" = p
  /\ Py.split1_head (Py.split1_head p "?") "#" = p.
Proof.
  intros Hq Hf. repeat split.
  - rewrite split1_head_app by exact Hq. cbn [append].
    rewrite split1_head_sep, append_nil_r. now apply split1_head_none.
  - rewrite split1_head_app by exact Hq. cbn [append].
    rewrite split1_head_app by exact Hf.
    replace (Py.split1_head (String "#" q) "?")
      with (String "#" (Py.split1_head q "?")) by reflexivity.
    rewrite split1_head_sep. apply append_nil_r.
  - rewrite (split1_head_none p "?" Hq). now apply split1_head_none.
Qed.

(** ** Words of a request line *)

Lemma split_ws_from_words (s : string) :
  has_space (fst (Py.split_ws_from s)) = false
  /\ Forall is_word (snd (Py.split_ws_from s)).
Proof.
  induction s as [|a s [IHw IHws]]; [split; [reflexivity | constructor] |].
  cbn [Py.split_ws_from].
  destruct (Py.split_ws_from s) as [w ws]. cbn [fst snd] in *.
  destruct (Py.isspace a) eqn:Ha; cbn [fst snd].
  - split; [reflexivity |].
    destruct (String.eqb_spec w "") as [_ | Hne]; [exact IHws |].
    constructor; [now split | exact IHws].
  - split; [| exact IHws]. cbn [has_space]. now rewrite Ha.
Qed.

Lemma split_ws_words (s : string) : Forall is_word (Py.split_ws s).
Proof.
  unfold Py.split_ws.
  destruct (split_ws_from_words s) as [Hw Hws].
  destruct (Py.split_ws_from s) as [w ws]. cbn [fst snd] in *.
  destruct (String.eqb_spec w "") as [_ | Hne]; [exact Hws |].
  constructor; [now split | exact Hws].
Qed.

Lemma lstrip_has_space (w : string) (c : ascii) :
  has_space w = false -> has_space (Py.lstrip w c) = false.
Proof.
  induction w as [|a w IH]; [reflexivity |]. cbn [Py.lstrip].
  destruct (Ascii.eqb a c); [| trivial].
  cbn [has_space]. intros H. apply orb_false_iff in H as [_ H]. now apply IH.
Qed.

Lemma lstrip_no_lead (w : string) (c : ascii) :
  Py.startswith (Py.lstrip w c) (String c "") = false.
Proof.
  induction w as [|a w IH]; [reflexivity |]. cbn [Py.lstrip].
  destruct (Ascii.eqb a c) eqn:E; [exact IH |].
  unfold Py.startswith. cbn -[Ascii.ascii_dec].
  destruct (Ascii.ascii_dec c a) as [-> | _]; [| reflexivity].
  now rewrite Ascii.eqb_refl in E.
Qed.

Lemma startswith_two_slashes (x : string) :
  Py.startswith (String "/" x) "//" = Py.startswith x "/".
Proof.
  unfold Py.startswith. cbn -[Ascii.ascii_dec].
  now destruct (Ascii.ascii_dec "/" "/").
Qed.

(** The path as [parse_request] stores it. *)
Lemma collapsed_path (w : string) :
  is_word w ->
  let p := if Py.startswith w "//" then "/" ++ Py.lstrip w "/" else w in
  is_word p /\ Py.startswith p "//" = false.
Proof.
  intros [Hne Hsp] p. subst p.
  destruct (Py.startswith w "//") eqn:E.
  - repeat split.
    + discriminate.
    + cbn [append has_space]. now apply lstrip_has_space.
    + cbn [append]. rewrite startswith_two_slashes. apply lstrip_no_lead.
  - now repeat split.
Qed.

(** ** The main block *)

Section Main.

Variable P : platform.
Variable fs : filesystem.
Variable bind_error : string -> Z -> option string.
Variable script : string.
Variable cwd0 : string.

Lemma main_bound events :
  bind_error "" 8000%Z = None ->
  main P fs bind_error script cwd0 events
  = match socketserver.serve_forever P fs events (started fs script cwd0) with
    | inl httpd => (httpd, Serving)
    | inr httpd =>
        (socketserver.server_close (print stopped_line httpd), Exit 0)
    end.
Proof.
  intros Hbind. unfold main, socketserver.TCPServer, PORT.
  cbn [chdir log_syscall cwd stdout stderr listening connections syscalls app].
  rewrite Hbind. reflexivity.
Qed.

Lemma main_refused events strerror :
  bind_error "" 8000%Z = Some strerror ->
  main P fs bind_error script cwd0 events
  = ({| cwd := realpath fs (posixpath.join cwd0 (pathlib.parent script));
        stdout := [];
        stderr := ["OSError: " ++ strerror];
        listening := None;
        connections := [];
        syscalls := [Chdir (pathlib.parent script); Bind "" 8000; CloseSocket] |},
     Exit 1).
Proof.
  intros Hbind. unfold main, socketserver.TCPServer, PORT.
  cbn [chdir log_syscall cwd stdout stderr listening connections syscalls app].
  rewrite Hbind. reflexivity.
Qed.

End Main.


(** ** The example tree *)

Lemma demo_listings_are_names : Spec.listings_are_names Demo.fs.
Proof.
  intros p names. unfold Demo.fs, lookup, Demo.tree.
  repeat match goal with
         | |- context [if ?b then _ else _] => destruct b
         end;
    intros H; try discriminate H;
    injection H as <-;
    repeat constructor; discriminate.
Qed.

Lemma demo_agree_under_root : Spec.agree_under Demo.root Demo.fs Demo.fs'.
Proof.
  intros p (rest & -> & _). split; reflexivity.
Qed.

(** ** Replies as a client reads them *)

Lemma length_append (a b : string) :
  String.length (a ++ b) = (String.length a + String.length b)%nat.
Proof. induction a as [|x a IH]; cbn; [reflexivity | now rewrite IH]. Qed.

Lemma one_line_app (a b : string) :
  Spec.one_line (a ++ b) <-> Spec.one_line a /\ Spec.one_line b.
Proof.
  unfold Spec.one_line. rewrite contains_app. apply orb_false_iff.
Qed.

Lemma one_line_digits (d : Decimal.uint) :
  Spec.one_line (NilEmpty.string_of_uint d).
Proof. induction d; cbn; [reflexivity | exact IHd ..]. Qed.

Lemma one_line_str (n : Z) : Spec.one_line (Py.str n).
Proof.
  unfold Py.str, NilZero.string_of_int, NilZero.string_of_uint.
  destruct (Z.to_int n) as [d | d]; destruct d;
    first [reflexivity | apply (one_line_digits (Decimal.D0 _))
           | apply (one_line_digits (Decimal.D1 _))
           | apply (one_line_digits (Decimal.D2 _))
           | apply (one_line_digits (Decimal.D3 _))
           | apply (one_line_digits (Decimal.D4 _))
           | apply (one_line_digits (Decimal.D5 _))
           | apply (one_line_digits (Decimal.D6 _))
           | apply (one_line_digits (Decimal.D7 _))
           | apply (one_line_digits (Decimal.D8 _))
           | apply (one_line_digits (Decimal.D9 _))].
Qed.

Lemma has_space_one_line (w : string) : has_space w = false -> Spec.one_line w.
Proof.
  unfold Spec.one_line. induction w as [|a w IH]; [reflexivity |].
  cbn [has_space Py.contains]. intros H. apply orb_false_iff in H as [Ha Hw].
  rewrite (IH Hw), orb_false_r.
  destruct (Ascii.eqb_spec a Py.LF) as [-> | _]; [discriminate Ha | reflexivity].
Qed.

(** A line that holds no line feed is cut where it ends. *)
Lemma cut_line_app (l rest : string) :
  Spec.one_line l -> Spec.cut_line (l ++ Py.CRLF ++ rest) = Some (l, rest).
Proof.
  unfold Spec.one_line. induction l as [|x l IH]; intros H.
  - reflexivity.
  - cbn [Py.contains] in H. apply orb_false_iff in H as [Hx Hl].
    change (String x l ++ Py.CRLF ++ rest) with (String x (l ++ Py.CRLF ++ rest)).
    cbn [Spec.cut_line].
    rewrite (IH Hl).
    destruct l as [|y l].
    + cbn [append Py.CRLF]. change (Ascii.eqb Py.CR Py.LF) with false.
      now rewrite andb_false_r.
    + cbn [append]. cbn [Py.contains] in Hl.
      apply orb_false_iff in Hl as [Hy _]. now rewrite Hy, andb_false_r.
Qed.

Lemma read_head_lines (lines : list string) (body : string) (fuel : nat) :
  Forall (fun l => l <> "" /\ Spec.one_line l) lines ->
  (List.length lines < fuel)%nat ->
  Spec.read_head fuel (Py.join0 (map (fun l => l ++ Py.CRLF) lines) ++ Py.CRLF ++ body)
  = Some (lines, body).
Proof.
  revert fuel. induction lines as [|l lines IH]; intros fuel Hl Hf.
  - destruct fuel as [|fuel]; [inversion Hf |]. reflexivity.
  - destruct fuel as [|fuel]; [inversion Hf |].
    apply Forall_cons_iff in Hl as [[Hne H1] Hl].
    cbn [map]. rewrite join0_cons, !append_assoc.
    cbn [Spec.read_head]. rewrite (cut_line_app l _ H1).
    destruct (String.eqb_spec l "") as [-> | _]; [congruence |].
    rewrite IH; [reflexivity | exact Hl | now apply PeanoNat.lt_S_n].
Qed.

Lemma length_lines (lines : list string) (rest : string) :
  (List.length lines
   <= String.length (Py.join0 (map (fun l => l ++ Py.CRLF) lines) ++ rest))%nat.
Proof.
  induction lines as [|l lines IH]; [apply Nat.le_0_l |].
  cbn [map List.length]. rewrite join0_cons, !length_append.
  rewrite length_append in IH. cbn [Py.CRLF String.length]. lia.
Qed.

Lemma head_and_body_lines (lines : list string) (body : string) :
  Forall (fun l => l <> "" /\ Spec.one_line l) lines ->
  Spec.head_and_body
    (Py.join0 (map (fun l => l ++ Py.CRLF) lines) ++ Py.CRLF ++ body)
  = Some (lines, body).
Proof.
  intros Hl. unfold Spec.head_and_body. apply read_head_lines; [exact Hl |].
  apply le_n_S, length_lines.
Qed.

Lemma field_of_line_field (kv : string * string) :
  Py.contains (fst kv) ":" = false ->
  Spec.field_of_line (fst kv ++ ": " ++ snd kv) = kv.
Proof.
  destruct kv as [k v]. cbn [fst snd]. intros Hk. unfold Spec.field_of_line.
  rewrite split1_head_app by exact Hk. cbn [append].
  rewrite split1_head_sep, append_nil_r.
  replace (Py.split1_tail (k ++ String ":" (String " " v)) ":") with (String " " v).
  - reflexivity.
  - clear - Hk. induction k as [|x k IH]; cbn.
    + reflexivity.
    + cbn in Hk. apply orb_false_iff in Hk as [Hx Hk]. rewrite Hx. now apply IH.
Qed.

(** The bytes of a well-formed response are read back as its status
    line, its header fields and its body. *)
Lemma parse_render (resp : Spec.response) :
  well_formed resp ->
  Spec.parse (Spec.render resp)
  = Some (status_text resp, Spec.header_fields resp, Spec.body resp).
Proof.
  intros [Hr Hf]. unfold Spec.parse.
  replace (Spec.render resp)
    with (Py.join0 (map (fun l => l ++ Py.CRLF)
                      (status_text resp
                       :: map (fun kv => fst kv ++ ": " ++ snd kv)
                            (Spec.header_fields resp)))
          ++ Py.CRLF ++ Spec.body resp).
  - rewrite head_and_body_lines.
    + f_equal. f_equal. f_equal. rewrite map_map.
      rewrite <- (map_id (Spec.header_fields resp)) at 2.
      apply map_ext_in. intros kv Hin. rewrite Forall_forall in Hf.
      apply field_of_line_field. now apply Hf.
    + constructor.
      * split; [discriminate |]. unfold status_text.
        apply one_line_app. split; [reflexivity |].
        apply one_line_app. split; [apply one_line_str |].
        apply one_line_app. split; [reflexivity | exact Hr].
      * rewrite Forall_map. eapply Forall_impl; [| exact Hf].
        intros [k v] (_ & Hk & Hv). cbn [fst snd] in *. split.
        -- destruct k; discriminate.
        -- apply one_line_app. split; [exact Hk |].
           apply one_line_app. split; [reflexivity | exact Hv].
  - unfold Spec.render, status_text. cbn [map]. rewrite join0_cons.
    rewrite map_map.
    rewrite (map_ext _ (fun kv => fst kv ++ ": " ++ snd kv ++ Py.CRLF))
      by (intros kv; now rewrite !append_assoc).
    unfold Py.join0. rewrite !append_assoc. reflexivity.
Qed.

(** ** Replies are well formed, and their CORS headers are in the header block *)

Ltac field_literal := repeat split; reflexivity.

Section WellFormed.

Variable P : platform.
Hypothesis HP : Spec.one_line_platform P.

Lemma phrase_one_line code : Spec.one_line (phrase P code None).
Proof.
  unfold phrase. destruct HP as (_ & _ & Hr & _).
  destruct (responses P code) as [[shortmsg longmsg]|] eqn:E; [| reflexivity].
  exact (Hr code shortmsg longmsg E).
Qed.

Lemma server_date_ok : Forall field_ok (server_date P).
Proof.
  destruct HP as (Hs & Hd & _).
  repeat constructor; cbn [fst snd]; try reflexivity.
  - unfold BaseHTTPRequestHandler.version_string.
    apply one_line_app. split; [reflexivity |].
    apply one_line_app. split; [reflexivity | exact Hs].
  - apply Hd.
Qed.

Lemma cors_headers_ok : Forall field_ok Spec.cors_headers.
Proof. repeat constructor. Qed.

Lemma with_cors_wf code reason hs body :
  Spec.one_line reason -> Forall field_ok hs ->
  well_formed (with_cors code reason hs body).
Proof.
  intros Hr Hh. split; [exact Hr |]. cbn [with_cors Spec.header_fields].
  apply Forall_app. split; [exact Hh | apply cors_headers_ok].
Qed.

Lemma fields_after_server_date hs :
  Forall field_ok hs -> Forall field_ok (server_date P ++ hs)%list.
Proof. intros H. apply Forall_app. split; [apply server_date_ok | exact H]. Qed.

Lemma error_response_wf c code message explain :
  match message with Some m => Spec.one_line m | None => True end ->
  well_formed (error_response P c code message explain).
Proof.
  intros Hm. unfold error_response. apply with_cors_wf.
  - destruct message as [m|]; [exact Hm |].
    destruct HP as (_ & _ & Hr & _).
    destruct (responses P code) as [[shortmsg longmsg]|] eqn:E; cbn [fst];
      [exact (Hr code shortmsg longmsg E) | reflexivity].
  - apply fields_after_server_date.
    destruct ((200 <=? code)%Z && _)%bool; repeat constructor; cbn [fst snd];
      try reflexivity.
    apply one_line_str.
Qed.

Lemma not_found_wf self message :
  Spec.one_line message -> well_formed (not_found P self message).
Proof. intros H. now apply error_response_wf. Qed.

Lemma add_body_wf resp data : well_formed resp -> well_formed (add_body resp data).
Proof. intros H. exact H. Qed.

Lemma file_reply_wf fs self p resp f :
  file_reply P fs self p = Returned (resp, f) -> well_formed resp.
Proof.
  unfold file_reply.
  destruct (Py.endswith p "/").
  { intros [= <- _]. now apply not_found_wf. }
  destruct (os.open P fs p) as [f0|[|m|m]]; [| | discriminate | discriminate].
  - destruct HP as (_ & Hd & _ & _ & _ & Hg & _).
    destruct (answered_by_cache _ _ _); intros [= <- _]; apply with_cors_wf;
      try apply phrase_one_line; try apply server_date_ok.
    apply fields_after_server_date.
    repeat constructor; cbn [fst snd]; try reflexivity;
      [apply Hg | apply one_line_str | apply Hd].
  - intros [= <- _]. now apply not_found_wf.
Qed.

Lemma listing_reply_wf fs self p resp f :
  listing_reply P fs self p = Returned (resp, f) -> well_formed resp.
Proof.
  unfold listing_reply.
  destruct (os.listdir fs p); [| intros [= <- _]; now apply not_found_wf].
  destruct (listing_error P _ _ _); [discriminate |]. intros [= <- _].
  apply with_cors_wf; [apply phrase_one_line |].
  apply fields_after_server_date.
  destruct HP as (_ & _ & _ & _ & _ & _ & He).
  repeat constructor; cbn [fst snd]; try reflexivity.
  - apply (proj2 (one_line_app "text/html; charset=" (getfilesystemencoding P))).
    split; [reflexivity | exact He].
  - apply one_line_str.
Qed.

Lemma head_reply_wf fs self resp f :
  head_reply P fs self = Returned (resp, f) -> well_formed resp.
Proof.
  unfold head_reply.
  destruct (os.isdir fs _); [| apply file_reply_wf].
  destruct (urlsplit_error P _); [discriminate |].
  destruct (negb _).
  { intros [= <- _]. apply with_cors_wf; [apply phrase_one_line |].
    apply fields_after_server_date.
    destruct HP as (_ & _ & _ & _ & Hu & _).
    repeat constructor; cbn [fst snd]; try reflexivity. apply Hu. }
  destruct (find _ _); [apply file_reply_wf | apply listing_reply_wf].
Qed.

Lemma reply_wf fs self resp :
  reply P fs self = Returned resp -> well_formed resp.
Proof.
  unfold reply.
  destruct (String.eqb (command self) "OPTIONS").
  { intros [= <-]. apply with_cors_wf; [apply phrase_one_line | apply server_date_ok]. }
  destruct (String.eqb (command self) "GET").
  { destruct (head_reply P fs self) as [[resp0 [f|]]|e] eqn:H;
      intros [= <-]; [apply add_body_wf |]; eapply head_reply_wf; exact H. }
  destruct (String.eqb (command self) "HEAD").
  { destruct (head_reply P fs self) as [[resp0 f]|e] eqn:H;
      intros [= <-]; eapply head_reply_wf; exact H. }
  intros [= <-]. apply error_response_wf.
  destruct HP as (_ & _ & _ & Hr & _).
  apply (proj2 (one_line_app "Unsupported method (" (repr P (command self) ++ ")"))).
  split; [reflexivity |].
  apply one_line_app. split; [apply Hr | reflexivity].
Qed.

End WellFormed.


(** The rendering of a well-formed response that ends its header fields
    with the CORS headers is read back with them in its header block. *)
Lemma rendered_cors_in_header resp :
  cors_shaped resp -> well_formed resp -> Spec.cors_in_header (Spec.render resp).
Proof.
  intros (code & reason & hs & body & -> & H) Hw.
  exists (status_text (with_cors code reason hs body)), hs, body.
  split; [now rewrite parse_render | exact H].
Qed.


(** ** The whole of [handle_one_request] *)

Lemma bind_modify {B} (f : handler -> handler) (k : unit -> M B) self :
  bind (modify f) k self = k tt (f self).
Proof. reflexivity. Qed.

(** What [send_error] leaves on the connection, whatever the version. *)
Lemma send_error_sent P (self : handler) code message explain :
  let self' :=
    snd (CORSRequestHandler.send_error P code message explain (upd self [] "" true [])) in
  request_version self' = request_version self
  /\ (String.eqb (request_version self) "HTTP/0.9" = false ->
      wfile self' = Spec.render (error_response P (command self) code message explain)).
Proof.
  unfold CORSRequestHandler.send_error.
  destruct (String.eqb (request_version self) "HTTP/0.9") eqn:Hv.
  - rewrite (send_error_09 P self Hv). split; [reflexivity | discriminate].
  - rewrite (send_error_1x P self Hv). split; [reflexivity | reflexivity].
Qed.

(** What the method of the request leaves on the connection. *)
Lemma call_method_sent P fs (self : handler) :
  let self' := snd (CORSRequestHandler.call_method P fs (upd self [] "" true [])) in
  request_version self' = request_version self
  /\ (String.eqb (request_version self) "HTTP/0.9" = false ->
      wfile self' = wire true (reply P fs self)).
Proof.
  destruct (String.eqb (request_version self) "HTTP/0.9") eqn:Hv.
  - rewrite (call_method_09 P fs self Hv).
    split; [| discriminate]. now destruct (reply P fs self).
  - rewrite (call_method_1x P fs self "" [] Hv).
    split; [| intros _]; now destruct (reply P fs self).
Qed.

Lemma refused_one_line P requestline version code message :
  Spec.one_line_platform P ->
  BaseHTTPRequestHandler.parse_request P requestline
  = BaseHTTPRequestHandler.Refused version code message ->
  version = "HTTP/0.9" \/ Spec.one_line message.
Proof.
  intros HP. destruct HP as (_ & _ & _ & Hr & _).
  assert (Hq : forall a s, Spec.one_line (a ++ repr P s ++ ")") <-> Spec.one_line a).
  { intros a s. rewrite one_line_app, one_line_app.
    split; [tauto | intros H; repeat split; [exact H | apply Hr]]. }
  unfold BaseHTTPRequestHandler.parse_request.
  destruct (Py.split_ws requestline) as [|w1 [|w2 [|w3 [|w4 ws]]]];
    [discriminate | | | |].
  - cbn [List.length Nat.leb]. intros [= <- _ _]. now left.
  - cbn [List.length Nat.leb].
    destruct (negb (String.eqb w1 "GET")); [| discriminate].
    intros [= <- _ _]. now left.
  - cbn [List.length Nat.leb List.last].
    destruct (negb (Py.startswith w3 "HTTP/")); [intros [= <- _ _]; now left |].
    destruct (Py.split (Py.split1_tail w3 "/") ".") as [|a [|b [|c l]]];
      try (intros [= <- _ _]; now left).
    destruct (Py.int a); [| intros [= <- _ _]; now left].
    destruct (Py.int b); [| intros [= <- _ _]; now left].
    destruct (BaseHTTPRequestHandler.version_ge_2 _);
      [intros [= <- _ _]; now left | discriminate].
  - cbn [List.length Nat.leb].
    destruct (negb _); [intros [= <- _ _]; now left |].
    destruct (Py.split _ ".") as [|a [|b [|c l]]];
      try (intros [= <- _ _]; now left).
    destruct (Py.int a); [| intros [= <- _ _]; now left].
    destruct (Py.int b); [| intros [= <- _ _]; now left].
    destruct (BaseHTTPRequestHandler.version_ge_2 _);
      [intros [= <- _ _]; now left |].
    intros [= _ _ <-]. right.
    apply (proj2 (Hq "Bad request syntax (" requestline)). reflexivity.
Qed.

Lemma received_sound P fs cwd client rfile :
  Spec.one_line_platform P ->
  String.eqb (request_version (received P fs cwd client rfile)) "HTTP/0.9" = false ->
  sound_reply (wfile (received P fs cwd client rfile)).
Proof.
  intros HP. unfold received, CORSRequestHandler.handle_one_request.
  destruct (Py.readline 65537 rfile) as [raw rest].
  destruct (65536 <? Py.len raw)%Z.
  { (* 414 *)
    rewrite !bind_modify.
    match goal with
    | |- context [CORSRequestHandler.send_error P ?c ?m ?e ?h] =>
        destruct (send_error_sent P h c m e) as [_ Hw]
    end.
    intros _. right. eexists. split; [apply Hw; reflexivity |].
    split; [apply error_response_shaped | now apply error_response_wf]. }
  destruct (String.eqb raw "").
  { intros _. now left. }
  rewrite !bind_modify.
  destruct (BaseHTTPRequestHandler.parse_request P (Py.rstrip_chars raw Py.CRLF))
    as [command path version | version code message |] eqn:Hparse.
  - rewrite !bind_modify.
    destruct (http_client.parse_headers P rest) as [hs | [line_type |]].
    + rewrite !bind_modify.
      match goal with
      | |- context [CORSRequestHandler.call_method P fs ?h] =>
          destruct (call_method_sent P fs h) as [Hv Hw];
          change (upd h [] "" true []) with h in Hv, Hw
      end.
      cbv zeta in Hv, Hw. rewrite Hv. intros Hver. rewrite (Hw Hver).
      match goal with
      | |- context [reply P fs ?h] => destruct (reply P fs h) as [resp|e] eqn:Hr
      end; [| now left].
      right. exists resp. split; [reflexivity |].
      split; [eapply reply_shaped | eapply reply_wf]; eassumption.
    + match goal with
      | |- context [CORSRequestHandler.send_error P ?c ?m ?e ?h] =>
          destruct (send_error_sent P h c m e) as [Hv Hw];
          change (upd h [] "" true []) with h in Hv, Hw
      end.
      cbv zeta in Hv, Hw. rewrite Hv. intros Hver. rewrite (Hw Hver).
      right. eexists. split; [reflexivity |].
      split; [apply error_response_shaped | now apply error_response_wf].
    + match goal with
      | |- context [CORSRequestHandler.send_error P ?c ?m ?e ?h] =>
          destruct (send_error_sent P h c m e) as [Hv Hw];
          change (upd h [] "" true []) with h in Hv, Hw
      end.
      cbv zeta in Hv, Hw. rewrite Hv. intros Hver. rewrite (Hw Hver).
      right. eexists. split; [reflexivity |].
      split; [apply error_response_shaped | now apply error_response_wf].
  - rewrite !bind_modify.
    match goal with
    | |- context [CORSRequestHandler.send_error P ?c ?m ?e ?h] =>
        destruct (send_error_sent P h c m e) as [Hv Hw];
        change (upd h [] "" true []) with h in Hv, Hw
    end.
    cbv zeta in Hv, Hw. rewrite Hv. intros Hver. rewrite (Hw Hver).
    right. eexists. split; [reflexivity |].
    split; [apply error_response_shaped | apply error_response_wf; trivial].
    destruct (refused_one_line P _ _ _ _ HP Hparse) as [-> | H]; [| exact H].
    discriminate Hver.
  - intros _. now left.
Qed.

(** ** The file that a plain URL path names *)
















(** ** The example platform *)

Lemma translate_one_line (table : ascii -> option string) (s : string) :
  (forall c t, table c = Some t -> Spec.one_line t) ->
  (forall c, table c = None -> Ascii.eqb c Py.LF = false) ->
  Spec.one_line (Py.translate table s).
Proof.
  intros Hsome Hnone. induction s as [|a s IH]; [reflexivity |].
  cbn [Py.translate]. destruct (table a) as [t|] eqn:E.
  - apply one_line_app. split; [exact (Hsome a t E) | exact IH].
  - unfold Spec.one_line. cbn [Py.contains]. now rewrite (Hnone a E), IH.
Qed.

Lemma control_char_table_one_line (s : string) :
  Spec.one_line (Py.translate BaseHTTPRequestHandler._control_char_table s).
Proof.
  apply translate_one_line.
  - intros c t. destruct c as [[] [] [] [] [] [] [] []];
      vm_compute; intros H; first [discriminate H | now injection H as <-].
  - intros c. destruct c as [[] [] [] [] [] [] [] []];
      vm_compute; intros H; first [discriminate H | reflexivity].
Qed.

Lemma split1_head_one_line (s : string) (c : ascii) :
  Spec.one_line s -> Spec.one_line (Py.split1_head s c).
Proof.
  unfold Spec.one_line. induction s as [|a s IH]; [reflexivity |].
  cbn [Py.contains Py.split1_head]. intros H.
  apply orb_false_iff in H as [Ha Hs].
  destruct (Ascii.eqb a c); [reflexivity |].
  cbn [Py.contains]. now rewrite Ha, IH.
Qed.

Lemma split1_tail_one_line (s : string) (c : ascii) :
  Spec.one_line s -> Spec.one_line (Py.split1_tail s c).
Proof.
  unfold Spec.one_line. induction s as [|a s IH]; [reflexivity |].
  cbn [Py.contains Py.split1_tail]. intros H.
  apply orb_false_iff in H as [Ha Hs].
  destruct (Ascii.eqb a c); [exact Hs | now apply IH].
Qed.

Lemma add_slash_one_line (s : string) :
  Spec.one_line s -> Spec.one_line (Demo.add_slash s).
Proof.
  intros H. unfold Demo.add_slash.
  apply one_line_app. split; [now apply split1_head_one_line, split1_head_one_line |].
  apply (proj2 (one_line_app "/" _)). split; [reflexivity |].
  apply one_line_app. split.
  - destruct (String.eqb _ ""); [reflexivity |].
    apply (proj2 (one_line_app "?" _)). split; [reflexivity |].
    now apply split1_tail_one_line, split1_head_one_line.
  - destruct (String.eqb _ ""); [reflexivity |].
    apply (proj2 (one_line_app "#" _)). split; [reflexivity |].
    now apply split1_tail_one_line.
Qed.

Lemma demo_one_line : Spec.one_line_platform Demo.lib.
Proof.
  repeat split; try reflexivity.
  - intros code shortmsg longmsg. cbn [Demo.lib responses]. unfold Demo.status_table.
    repeat match goal with
           | |- context [if ?b then _ else _] => destruct b
           end; intros H; first [discriminate H | now injection H as <- _].
  - intros s. cbn [Demo.lib repr]. unfold Demo.quoted.
    apply one_line_app. split; [reflexivity |].
    apply one_line_app. split; [apply control_char_table_one_line | reflexivity].
  - intros s. cbn [Demo.lib urlunsplit_slash].
    apply add_slash_one_line.
    apply translate_one_line; intros c; unfold Demo.unsafe_byte.
    + intros t. destruct (_ || _)%bool; intros H;
        [now injection H as <- | discriminate H].
    + destruct (Ascii.eqb c Py.LF); [discriminate | reflexivity].
  - intros s. cbn [Demo.lib guess_type]. unfold Demo.mime.
    repeat match goal with
           | |- context [if ?b then _ else _] => destruct b
           end; reflexivity.
Qed.

(** * The scenarios of the specification *)

Example scenario_get_index :
  respond Demo.lib Demo.fs Demo.root (Demo.req "GET" "/index.html" "HTTP/1.1")
  = Spec.render
      {| Spec.status := 200; Spec.reason := "OK";
         Spec.header_fields :=
           [("Server", "SimpleHTTP/0.6 Python/3.11.2");
            ("Date", "Tue, 03 Nov 2026 12:00:00 GMT");
            ("Content-type", "text/html");
            ("Content-Length", "11");
            ("Last-Modified", "Tue, 03 Nov 2026 12:00:00 GMT");
            ("Access-Control-Allow-Origin", "*");
            ("Access-Control-Allow-Methods", "GET, POST, OPTIONS");
            ("Access-Control-Allow-Headers", "*")];
         Spec.body := "<h1>Hi</h1>" |}.
Proof. vm_compute. reflexivity. Qed.

Example scenario_options_anything :
  lookup Demo.fs (SimpleHTTPRequestHandler.translate_path Demo.lib Demo.root "/anything")
  = None
  /\ respond Demo.lib Demo.fs Demo.root (Demo.req "OPTIONS" "/anything" "HTTP/1.1")
     = Spec.render
         {| Spec.status := 200; Spec.reason := "OK";
            Spec.header_fields :=
              [("Server", "SimpleHTTP/0.6 Python/3.11.2");
               ("Date", "Tue, 03 Nov 2026 12:00:00 GMT");
               ("Access-Control-Allow-Origin", "*");
               ("Access-Control-Allow-Methods", "GET, POST, OPTIONS");
               ("Access-Control-Allow-Headers", "*")];
            Spec.body := "" |}.
Proof. split; vm_compute; reflexivity. Qed.

Example scenario_missing_file :
  respond Demo.lib Demo.fs Demo.root (Demo.req "GET" "/does-not-exist.js" "HTTP/1.1")
  = Spec.render
      {| Spec.status := 404; Spec.reason := "File not found";
         Spec.header_fields :=
           [("Server", "SimpleHTTP/0.6 Python/3.11.2");
            ("Date", "Tue, 03 Nov 2026 12:00:00 GMT");
            ("Connection", "close");
            ("Content-Type", "text/html;charset=utf-8");
            ("Content-Length", "63");
            ("Access-Control-Allow-Origin", "*");
            ("Access-Control-Allow-Methods", "GET, POST, OPTIONS");
            ("Access-Control-Allow-Headers", "*")];
         Spec.body := "<h1>404 File not found</h1><p>Nothing matches the given URI</p>" |}.
Proof. vm_compute. reflexivity. Qed.

Example scenario_parent_segments :
  SimpleHTTPRequestHandler.translate_path Demo.lib Demo.root "/../../etc/passwd"
  = "/srv/app/etc/passwd"
  /\ SimpleHTTPRequestHandler.translate_path Demo.lib Demo.root "/assets/../main.js?v=2"
     = "/srv/app/main.js"
  /\ Spec.has_status 404
       (respond Demo.lib Demo.fs Demo.root (Demo.req "GET" "/../../etc/passwd" "HTTP/1.1")).
Proof.
  repeat split; try (vm_compute; reflexivity).
  do 3 eexists. rewrite respond_1x by reflexivity. reflexivity.
Qed.

Example scenario_interrupt :
  main Demo.lib Demo.fs Demo.bind_ok Demo.script "/home/user"
    [Request (Demo.req "OPTIONS" "/anything" "HTTP/1.1"); Interrupt;
     Request (Demo.req "GET" "/index.html" "HTTP/1.1")]
  = ({| cwd := "/srv/app";
        stdout := (banner "/srv/app" ++ [stopped_line])%list;
        stderr :=
          ["127.0.0.1 - - [03/Nov/2026 12:00:00] "
           ++ String Py.DQUOTE "OPTIONS /anything HTTP/1.1"
           ++ String Py.DQUOTE " 200 -"];
        listening := None;
        connections :=
          [respond Demo.lib Demo.fs Demo.root (Demo.req "OPTIONS" "/anything" "HTTP/1.1")];
        syscalls := [Chdir "/srv/app"; Bind "" 8000; CloseSocket] |},
     Exit 0).
Proof. vm_compute. reflexivity. Qed.

(** A request line that is refused, a request with more header lines
    than [http.client] reads, and a name with a null byte in it. *)
Example scenario_refused_requests :
  (exists hs body,
     Spec.parse
       (respond_line Demo.lib Demo.fs Demo.root Demo.peer "GET /x y HTTP/1.1" [])
     = Some ("HTTP/1.0 400 Bad request syntax ('GET /x y HTTP/1.1')", hs, body))
  /\ (exists hs body,
        Spec.parse
          (respond_line Demo.lib Demo.fs Demo.root Demo.peer "GET / HTTP/1.1"
             (repeat "X: y" 100))
        = Some ("HTTP/1.0 431 Too many headers", hs, body))
  /\ (exists hs body,
        Spec.parse
          (respond_line Demo.lib Demo.fs Demo.root Demo.peer "GET / HTTP/1.1"
             (repeat "X: y" 99))
        = Some ("HTTP/1.0 200 OK", hs, body))
  /\ handled Demo.lib Demo.fs Demo.root
       (Demo.req "GET" (String "/" (String Py.NUL "")) "HTTP/1.1")
     = (Raised (ValueError "embedded null byte"),
        new_handler Demo.root
          (Demo.req "GET" (String "/" (String Py.NUL "")) "HTTP/1.1")).
Proof.
  split; [| split; [| split]].
  - do 2 eexists. vm_compute. reflexivity.
  - do 2 eexists. vm_compute. reflexivity.
  - do 2 eexists. vm_compute. reflexivity.
  - vm_compute. reflexivity.
Qed.

(** * The properties of the specification *)

(** ** Preflight requests *)




(** C10: the reply to an OPTIONS request is either nothing at all (an
    HTTP/0.9 request) or the status line, Server, Date, the three CORS
    headers and the blank line, with no byte after it; none of its
    header fields is Content-Length or Content-Type. *)
Theorem options_reply_has_no_content_headers (P : platform) (fs : filesystem)
  (cwd : string) (r : request) :
  method r = "OPTIONS" ->
  exists hs,
    hs = [("Server", BaseHTTPRequestHandler.version_string P);
          ("Date", date_time_string P None);
          ("Access-Control-Allow-Origin", "*");
          ("Access-Control-Allow-Methods", "GET, POST, OPTIONS");
          ("Access-Control-Allow-Headers", "*")]
    /\ Forall (fun kv => Spec.is_content_name (fst kv) = false) hs
    /\ respond P fs cwd r
       = if String.eqb (version r) "HTTP/0.9" then ""
         else Spec.render
                {| Spec.status := 200; Spec.reason := phrase P 200 None;
                   Spec.header_fields := hs; Spec.body := "" |}.
Proof.
  intros Hm. eexists. split; [reflexivity | split].
  - repeat constructor.
  - now rewrite respond_OPTIONS.
Qed.

Lemma options_reply_has_no_content_headers_witness :
  let r := Demo.req "OPTIONS" "/anything" "HTTP/1.1" in
  method r = "OPTIONS"
  /\ exists hs,
       Forall (fun kv => Spec.is_content_name (fst kv) = false) hs
       /\ respond Demo.lib Demo.fs Demo.root r
          = Spec.render {| Spec.status := 200; Spec.reason := "OK";
                           Spec.header_fields := hs; Spec.body := "" |}.
Proof.
  intros r. split; [reflexivity |].
  destruct (options_reply_has_no_content_headers Demo.lib Demo.fs Demo.root r eq_refl)
    as (hs & _ & Hnames & Hbytes).
  exists hs. split; [exact Hnames | exact Hbytes].
Defined.

(** ** The CORS headers on every reply *)

(** C2, as stated, fails: the simple request [GET /index.html], which
    [parse_request] reads as HTTP/0.9, is answered with the bytes of the
    file and no header at all. *)
Lemma get_http09_carries_no_cors :
  BaseHTTPRequestHandler.parse_request Demo.lib "GET /index.html"
  = BaseHTTPRequestHandler.Accepted "GET" "/index.html" "HTTP/0.9"
  /\ respond_line Demo.lib Demo.fs Demo.root Demo.peer "GET /index.html" []
     = "<h1>Hi</h1>"
  /\ ~ Spec.carries_cors
         (respond_line Demo.lib Demo.fs Demo.root Demo.peer "GET /index.html" [])
  /\ ~ Spec.cors_in_header
         (respond_line Demo.lib Demo.fs Demo.root Demo.peer "GET /index.html" []).
Proof.
  assert (E : respond_line Demo.lib Demo.fs Demo.root Demo.peer "GET /index.html" []
              = "<h1>Hi</h1>") by (vm_compute; reflexivity).
  split; [vm_compute; reflexivity | split; [exact E |]].
  rewrite E. split.
  - intros (code & reason & hs & body & H & _). cbn in H. discriminate H.
  - intros (status_line & hs & body & H & _). vm_compute in H. discriminate H.
Qed.

(** C2, amended: for every request of any method and path whose protocol
    version is not HTTP/0.9, either the handler fails with an exception
    and nothing is sent, or the header block of the reply, as a client
    reads it up to the first empty line, ends with the three CORS
    headers, each with exactly the specified value, and no other header
    of the block bears one of their names.  The same holds for whatever
    bytes a client sends, when [request_version] is not ['HTTP/0.9'] at
    the end: for the errors that [parse_request] and [handle_one_request]
    answer themselves (400, 414, 431) as for the replies of the methods.
    The library functions behind the platform return one-line strings. *)
Theorem every_reply_carries_cors (P : platform) (fs : filesystem) (cwd : string) :
  Spec.one_line_platform P ->
  (forall r,
     String.eqb (version r) "HTTP/0.9" = false ->
     match failure P fs cwd r with
     | Some _ => respond P fs cwd r = ""
     | None => Spec.cors_in_header (respond P fs cwd r)
     end)
  /\ (forall client rfile,
        let self := received P fs cwd client rfile in
        String.eqb (request_version self) "HTTP/0.9" = false ->
        wfile self = "" \/ Spec.cors_in_header (wfile self)).
Proof.
  intros HP. split.
  - intros r Hv. rewrite failure_reply, respond_1x by exact Hv.
    destruct (reply P fs (new_handler cwd r)) as [resp|e] eqn:Hr; [| reflexivity].
    cbn [wire]. apply rendered_cors_in_header.
    + eapply reply_shaped. exact Hr.
    + eapply reply_wf; eassumption.
  - intros client rfile self Hv.
    destruct (received_sound P fs cwd client rfile HP Hv)
      as [H | (resp & H & Hs & Hw)]; [now left | right].
    fold self in H. rewrite H. now apply rendered_cors_in_header.
Qed.

Lemma every_reply_carries_cors_witness :
  let r := Demo.req "GET" "/does-not-exist.js" "HTTP/1.1" in
  let rfile := "GET /x y HTTP/1.1" ++ Py.CRLF ++ Py.CRLF in
  (Spec.one_line_platform Demo.lib
   /\ String.eqb (version r) "HTTP/0.9" = false
   /\ String.eqb
        (request_version (received Demo.lib Demo.fs Demo.root Demo.peer rfile))
        "HTTP/0.9" = false)
  /\ Spec.cors_in_header (respond Demo.lib Demo.fs Demo.root r)
  /\ Spec.cors_in_header (wfile (received Demo.lib Demo.fs Demo.root Demo.peer rfile)).
Proof.
  intros r rfile.
  split; [split; [exact demo_one_line | split; reflexivity] |].
  destruct (every_reply_carries_cors Demo.lib Demo.fs Demo.root demo_one_line)
    as [A B].
  split.
  - exact (A r eq_refl).
  - destruct (B Demo.peer rfile eq_refl) as [H | H]; [| exact H].
    vm_compute in H. discriminate H.
Defined.




(** ** Serving files *)

(** C3, as stated, fails: [/index.html] names a readable file below the
    root, and the request [POST /index.html HTTP/1.1] is answered with
    status 501, since the handler has no [do_POST]. *)
Lemma post_existing_file_not_served :
  lookup Demo.fs
    (SimpleHTTPRequestHandler.translate_path Demo.lib Demo.root "/index.html")
  = Some (RegularFile "<h1>Hi</h1>" 1700000000%Z true)
  /\ respond_line Demo.lib Demo.fs Demo.root Demo.peer "POST /index.html HTTP/1.1" []
     = respond Demo.lib Demo.fs Demo.root (Demo.req "POST" "/index.html" "HTTP/1.1")
  /\ Spec.has_status 501
       (respond Demo.lib Demo.fs Demo.root (Demo.req "POST" "/index.html" "HTTP/1.1"))
  /\ ~ Spec.serves_file "<h1>Hi</h1>"
         (respond Demo.lib Demo.fs Demo.root (Demo.req "POST" "/index.html" "HTTP/1.1")).
Proof.
  split; [reflexivity | split; [vm_compute; reflexivity | split]].
  - rewrite respond_1x by reflexivity. do 3 eexists. reflexivity.
  - intros (reason & hs & H). vm_compute in H. discriminate H.
Qed.

(** The other replies to a request for the same file: HEAD gets the
    headers and no body, a GET that carries an If-Modified-Since date
    after the file's modification time gets 304 and no body, and a simple
    request gets the bytes of the file with no status line. *)
Example existing_file_other_replies :
  Spec.serves_file ""
    (respond_line Demo.lib Demo.fs Demo.root Demo.peer "HEAD /index.html HTTP/1.1" [])
  /\ Spec.has_status 304
       (respond_line Demo.lib Demo.fs Demo.root Demo.peer "GET /index.html HTTP/1.1"
          ["If-Modified-Since: Tue, 03 Nov 2026 12:00:00 GMT"])
  /\ respond_line Demo.lib Demo.fs Demo.root Demo.peer "GET /index.html" []
     = "<h1>Hi</h1>".
Proof.
  split; [| split].
  - replace (respond_line Demo.lib Demo.fs Demo.root Demo.peer
               "HEAD /index.html HTTP/1.1" [])
      with (respond Demo.lib Demo.fs Demo.root
              (Demo.req "HEAD" "/index.html" "HTTP/1.1"))
      by (vm_compute; reflexivity).
    rewrite respond_1x by reflexivity. do 2 eexists. reflexivity.
  - replace (respond_line Demo.lib Demo.fs Demo.root Demo.peer
               "GET /index.html HTTP/1.1"
               ["If-Modified-Since: Tue, 03 Nov 2026 12:00:00 GMT"])
      with (respond Demo.lib Demo.fs Demo.root
              {| method := "GET"; target := "/index.html"; version := "HTTP/1.1";
                 fields := [("If-Modified-Since", "Tue, 03 Nov 2026 12:00:00 GMT")];
                 line := "GET /index.html HTTP/1.1"; client := Demo.peer |})
      by (vm_compute; reflexivity).
    rewrite respond_1x by reflexivity. do 3 eexists. reflexivity.
  - vm_compute. reflexivity.
Qed.

(** C3, amended: for every GET request above HTTP/0.9 that carries no
    If-Modified-Since header and whose path translates to a readable
    regular file (a name that does not end in a slash), the reply has
    status 200, the headers Server, Date, Content-type (what [guess_type]
    infers from the path), Content-Length (the decimal byte length of the
    file) and Last-Modified, then the CORS headers, and a body that is
    the file's bytes; a HEAD request gets the same headers and no
    body. *)
Theorem get_serves_file (P : platform) (fs : filesystem) (cwd : string)
  (r : request) (data : string) (mtime : timestamp) :
  (String.eqb (method r) "GET" || String.eqb (method r) "HEAD")%bool = true ->
  String.eqb (version r) "HTTP/0.9" = false ->
  headers_contains (fields r) "If-Modified-Since" = false ->
  let p := SimpleHTTPRequestHandler.translate_path P cwd (target r) in
  lookup fs p = Some (RegularFile data mtime true) ->
  Py.endswith p "/" = false ->
  respond P fs cwd r
  = Spec.render
      {| Spec.status := 200;
         Spec.reason := phrase P 200 None;
         Spec.header_fields :=
           [("Server", BaseHTTPRequestHandler.version_string P);
            ("Date", date_time_string P None);
            ("Content-type", guess_type P p);
            ("Content-Length", Py.str (Py.len data));
            ("Last-Modified", date_time_string P (Some mtime));
            ("Access-Control-Allow-Origin", "*");
            ("Access-Control-Allow-Methods", "GET, POST, OPTIONS");
            ("Access-Control-Allow-Headers", "*")];
         Spec.body := if String.eqb (method r) "GET" then data else "" |}.
Proof.
  intros Hm Hv Hims p Hfile Hend.
  rewrite respond_not_directory; [| exact Hm | exact Hv |].
  2:{ unfold os.isdir. fold p. now rewrite Hfile. }
  fold p. rewrite (file_reply_regular P fs _ p data mtime Hfile Hend).
  unfold answered_by_cache. cbn [new_handler headers]. rewrite Hims.
  cbn [andb with_file wire]. now destruct (String.eqb (method r) "GET").
Qed.

Lemma get_serves_file_witness :
  let r := Demo.req "GET" "/index.html" "HTTP/1.1" in
  let p := SimpleHTTPRequestHandler.translate_path Demo.lib Demo.root (target r) in
  ((String.eqb (method r) "GET" || String.eqb (method r) "HEAD")%bool = true
   /\ String.eqb (version r) "HTTP/0.9" = false
   /\ headers_contains (fields r) "If-Modified-Since" = false
   /\ lookup Demo.fs p = Some (RegularFile "<h1>Hi</h1>" 1700000000%Z true)
   /\ Py.endswith p "/" = false)
  /\ Spec.serves_file "<h1>Hi</h1>" (respond Demo.lib Demo.fs Demo.root r).
Proof.
  intros r p. split; [repeat split |].
  do 2 eexists.
  apply (get_serves_file Demo.lib Demo.fs Demo.root r "<h1>Hi</h1>" 1700000000%Z);
    reflexivity.
Defined.

(** ** Missing files *)


(** A simple request for the same path gets the error page with no
    status line and no header. *)
Example missing_file_simple_request :
  respond_line Demo.lib Demo.fs Demo.root Demo.peer "GET /does-not-exist.js" []
  = "<h1>404 File not found</h1><p>Nothing matches the given URI</p>".
Proof. vm_compute. reflexivity. Qed.

(** A path with a null byte names no file either: [open()] raises
    [ValueError], which [send_head] does not catch; nothing is sent on
    the connection, and [handle_error] reports the exception. *)
Example missing_file_null_byte :
  let r := Demo.req "GET" (String "/" (String "a" (String Py.NUL "b"))) "HTTP/1.1" in
  lookup Demo.fs
    (SimpleHTTPRequestHandler.translate_path Demo.lib Demo.root (target r))
  = None
  /\ respond Demo.lib Demo.fs Demo.root r = ""
  /\ failure Demo.lib Demo.fs Demo.root r = Some (ValueError "embedded null byte")
  /\ ~ Spec.has_status 404 (respond Demo.lib Demo.fs Demo.root r)
  /\ reported Demo.lib Demo.fs Demo.root r
     = ["----------------------------------------";
        "Exception occurred during processing of request from ('127.0.0.1', 54321)";
        "ValueError: embedded null byte";
        "----------------------------------------"].
Proof.
  intros r.
  assert (E : respond Demo.lib Demo.fs Demo.root r = "") by (vm_compute; reflexivity).
  split; [vm_compute; reflexivity | split; [exact E | split; [| split]]].
  - vm_compute. reflexivity.
  - rewrite E. intros (reason & hs & body & H). cbn in H. discriminate H.
  - vm_compute. reflexivity.
Qed.





(** ** Paths that try to leave the root *)

(** C4: whatever the request (its method, its path with any number of
    parent-directory segments, percent escapes, query or fragment), the
    name that [translate_path] hands to the file system is the root
    followed by a relative path without any [..] segment, and the bytes
    of the reply are the same on any two file systems that agree on all
    such names: nothing in the reply comes from a file that is not below
    the root.  The root is a non-empty path, as [os.getcwd()] returns it,
    and directory listings hold names, as [os.listdir] returns them. *)
Theorem reply_ignores_files_outside_root (P : platform) (fs1 fs2 : filesystem)
  (root : string) (r : request) :
  String.eqb root "" = false ->
  Spec.listings_are_names fs1 ->
  Spec.agree_under root fs1 fs2 ->
  Spec.under_root root (SimpleHTTPRequestHandler.translate_path P root (target r))
  /\ respond P fs1 root r = respond P fs2 root r.
Proof.
  intros Hroot Hnames Hagree. apply String.eqb_neq in Hroot. split.
  - now apply translate_path_under_root.
  - unfold respond, handled.
    now rewrite (call_method_agree P fs1 fs2 root Hroot Hnames Hagree).
Qed.

Lemma reply_ignores_files_outside_root_witness :
  let r := Demo.req "GET" "/assets/../../../etc/passwd" "HTTP/1.1" in
  (String.eqb Demo.root "" = false
   /\ Spec.listings_are_names Demo.fs
   /\ Spec.agree_under Demo.root Demo.fs Demo.fs')
  /\ SimpleHTTPRequestHandler.translate_path Demo.lib Demo.root (target r)
     = "/srv/app/etc/passwd"
  /\ respond Demo.lib Demo.fs Demo.root r = respond Demo.lib Demo.fs' Demo.root r.
Proof.
  intros r.
  split; [split; [reflexivity | split;
                  [exact demo_listings_are_names | exact demo_agree_under_root]] |].
  split; [reflexivity |].
  apply (reply_ignores_files_outside_root Demo.lib Demo.fs Demo.fs' Demo.root r
           eq_refl demo_listings_are_names demo_agree_under_root).
Defined.

(** ** Start, bind failure and interrupt *)



(** C7: when the operating system refuses the bind on port 8000, the
    program has asked for the socket once and not again, has printed
    nothing on standard output and accepted no connection, leaves the
    error text of the operating system on standard error as the last line
    of the traceback, and exits with status 1. *)
Theorem bind_failure_is_fatal
  (P : platform) (fs : filesystem) (bind_error : string -> Z -> option string)
  (script cwd0 : string) (events : list event) (strerror : string) :
  bind_error "" 8000%Z = Some strerror ->
  exists p status,
    main P fs bind_error script cwd0 events = (p, Exit status)
    /\ status <> 0%Z
    /\ stderr p = ["OSError: " ++ strerror]
    /\ stdout p = []
    /\ connections p = []
    /\ listening p = None
    /\ List.length (filter (fun c => match c with Bind _ _ => true | _ => false end)
                      (syscalls p)) = 1%nat.
Proof.
  intros Hbind. rewrite (main_refused P fs bind_error script cwd0 events strerror Hbind).
  do 2 eexists. split; [reflexivity |].
  cbn. repeat split. discriminate.
Qed.

Lemma bind_failure_is_fatal_witness :
  Demo.bind_in_use "" 8000%Z = Some "[Errno 98] Address already in use"
  /\ exists p status,
       main Demo.lib Demo.fs Demo.bind_in_use Demo.script "/home/user"
         [Request (Demo.req "GET" "/index.html" "HTTP/1.1")]
       = (p, Exit status)
       /\ status <> 0%Z
       /\ stderr p = ["OSError: [Errno 98] Address already in use"]
       /\ connections p = [].
Proof.
  split; [reflexivity |].
  destruct (bind_failure_is_fatal Demo.lib Demo.fs Demo.bind_in_use Demo.script
              "/home/user" [Request (Demo.req "GET" "/index.html" "HTTP/1.1")]
              "[Errno 98] Address already in use" eq_refl)
    as (p & status & Hmain & Hstatus & Herr & _ & Hconn & _).
  exists p, status. repeat split; assumption.
Defined.

(** C8, as stated, fails: the signal is raised as [KeyboardInterrupt] in
    the thread that handles the request, so a reply that is being written
    when it arrives stops where it stands.  Here the client has ten bytes
    of the reply to [GET /index.html] when the program exits with
    status 0. *)
Lemma interrupt_cuts_reply_short :
  let r := Demo.req "GET" "/index.html" "HTTP/1.1" in
  let result := main Demo.lib Demo.fs Demo.bind_ok Demo.script "/home/user"
                  [InterruptedRequest r 10] in
  snd result = Exit 0
  /\ connections (fst result) = ["HTTP/1.0 2"]
  /\ connections (fst result) <> [respond Demo.lib Demo.fs Demo.root r].
Proof.
  intros r result.
  assert (E : connections (fst result) = ["HTTP/1.0 2"]) by (vm_compute; reflexivity).
  split; [vm_compute; reflexivity | split; [exact E |]].
  rewrite E. intros H. vm_compute in H. discriminate H.
Qed.

(** C8, amended: when the interrupt signal arrives while the program
    serves, at rest or in the middle of a request, the serving loop is
    left and no later connection is accepted; the replies sent before are
    complete; the stop line is printed on standard output after the
    banner; the listening socket is closed; and the program exits with
    status 0.  A reply that is being written when the signal arrives ends
    with the bytes written so far. *)
Theorem interrupt_stops_server
  (P : platform) (fs : filesystem) (bind_error : string -> Z -> option string)
  (script cwd0 : string) (before : list request) (ev : event) (after : list event) :
  bind_error "" 8000%Z = None ->
  is_interrupt ev = true ->
  exists p,
    main P fs bind_error script cwd0 (map Request before ++ ev :: after)%list
    = (p, Exit 0)
    /\ listening p = None
    /\ syscalls p = [Chdir (pathlib.parent script); Bind "" 8000; CloseSocket]
    /\ stdout p = (banner (cwd p) ++ [stopped_line])%list
    /\ connections p
       = (map (respond P fs (cwd p)) before ++ cut_off P fs (cwd p) ev)%list.
Proof.
  intros Hbind Hev.
  rewrite main_bound by exact Hbind.
  rewrite serve_forever_interrupted by exact Hev.
  eexists. split; [reflexivity |].
  destruct (serve_all_fields P fs before (started fs script cwd0))
    as (H1 & H2 & _ & H4 & H5 & H6).
  destruct ev as [r | r [|sent] |]; [discriminate Hev | | |];
    cbn [socketserver.server_close set_listening log_syscall print send_reply
         write_stderr cwd stdout listening connections syscalls cut_off];
    rewrite ?H1, ?H2, ?H5, ?H6; unfold started;
    cbn [cwd stdout listening connections syscalls app];
    rewrite ?app_nil_r; repeat split.
Qed.

Lemma interrupt_stops_server_witness :
  let r := Demo.req "GET" "/index.html" "HTTP/1.1" in
  (Demo.bind_ok "" 8000%Z = None /\ is_interrupt Interrupt = true)
  /\ exists p,
       main Demo.lib Demo.fs Demo.bind_ok Demo.script "/home/user"
         (map Request [r] ++ Interrupt :: [Request r])%list
       = (p, Exit 0)
       /\ listening p = None
       /\ connections p = [respond Demo.lib Demo.fs Demo.root r].
Proof.
  intros r. split; [split; reflexivity |].
  destruct (interrupt_stops_server Demo.lib Demo.fs Demo.bind_ok Demo.script
              "/home/user" [r] Interrupt [Request r] eq_refl eq_refl)
    as (p & Hmain & Hl & _ & _ & Hc).
  exists p. split; [exact Hmain | split; [exact Hl |]].
  rewrite Hc.
  replace (cwd p) with Demo.root; [reflexivity |].
  vm_compute in Hmain. injection Hmain as <-. reflexivity.
Defined.

(** * Further properties of the handler and of the main block *)

(** ** Methods without a handler *)

(** X1: a request above HTTP/0.9 whose method is not OPTIONS, GET or HEAD
    (POST among them, which the CORS header names as allowed) is answered
    501 with the reason [Unsupported method (...)], the error page as
    body and the CORS headers; the reply is the same whatever the path,
    the request line, the client and the files. *)
Theorem unsupported_method_is_501 (P : platform) (fs : filesystem) (cwd : string)
  (r : request) :
  String.eqb (method r) "OPTIONS" = false ->
  String.eqb (method r) "GET" = false ->
  String.eqb (method r) "HEAD" = false ->
  String.eqb (version r) "HTTP/0.9" = false ->
  let message := "Unsupported method (" ++ repr P (method r) ++ ")" in
  let explain :=
    match responses P 501 with Some sl => snd sl | None => "???" end in
  let page := error_page P 501 message explain in
  respond P fs cwd r
  = Spec.render
      {| Spec.status := 501;
         Spec.reason := message;
         Spec.header_fields :=
           [("Server", BaseHTTPRequestHandler.version_string P);
            ("Date", date_time_string P None);
            ("Connection", "close");
            ("Content-Type", "text/html;charset=utf-8");
            ("Content-Length", Py.str (Py.len page));
            ("Access-Control-Allow-Origin", "*");
            ("Access-Control-Allow-Methods", "GET, POST, OPTIONS");
            ("Access-Control-Allow-Headers", "*")];
         Spec.body := page |}
  /\ forall fs' cwd' target' line' client',
       respond P fs' cwd'
         {| method := method r; target := target'; version := version r;
            fields := fields r; line := line'; client := client' |}
       = respond P fs cwd r.
Proof.
  intros Ho Hg Hh Hv message explain page.
  assert (E : forall fs0 cwd0 r0, method r0 = method r -> version r0 = version r ->
                respond P fs0 cwd0 r0
                = Spec.render
                    (with_cors 501 message
                       (server_date P
                        ++ [("Connection", "close");
                            ("Content-Type", "text/html;charset=utf-8");
                            ("Content-Length", Py.str (Py.len page))])%list
                       page)).
  { intros fs0 cwd0 r0 Hm0 Hv0.
    rewrite respond_1x by now rewrite Hv0.
    unfold reply. cbn [new_handler command]. rewrite Hm0, Ho, Hg, Hh.
    cbn [wire].
    unfold error_response, HTTPStatus.NOT_IMPLEMENTED, HTTPStatus.NO_CONTENT,
      HTTPStatus.RESET_CONTENT, HTTPStatus.NOT_MODIFIED.
    change ((200 <=? 501)%Z
            && negb ((501 =? 204)%Z || (501 =? 205)%Z || (501 =? 304)%Z))%bool
      with true.
    cbv iota. subst page explain message.
    destruct (responses P 501) as [[shortmsg longmsg]|]; cbn [fst snd];
      now rewrite error_body_page by exact Hh. }
  split; [now apply E | intros; now rewrite !E].
Qed.

Lemma unsupported_method_is_501_witness :
  let r := Demo.req "POST" "/api/chat" "HTTP/1.1" in
  (String.eqb (method r) "OPTIONS" = false
   /\ String.eqb (method r) "GET" = false
   /\ String.eqb (method r) "HEAD" = false
   /\ String.eqb (version r) "HTTP/0.9" = false)
  /\ Spec.has_status 501 (respond Demo.lib Demo.fs Demo.root r)
  /\ respond Demo.lib Demo.fs Demo.root
       {| method := "POST"; target := "/index.html"; version := "HTTP/1.1";
          fields := []; line := "POST /index.html HTTP/1.1";
          client := ("10.0.0.7", 40000%Z) |}
     = respond Demo.lib Demo.fs Demo.root r.
Proof.
  intros r. split; [repeat split |].
  destruct (unsupported_method_is_501 Demo.lib Demo.fs Demo.root r
              eq_refl eq_refl eq_refl eq_refl) as [H1 H2].
  split.
  - rewrite H1. do 3 eexists. reflexivity.
  - apply (H2 Demo.fs Demo.root "/index.html").
Defined.

(** ** HEAD *)

Lemma file_reply_head_body P fs self p resp f :
  command self = "HEAD" ->
  file_reply P fs self p = Returned (resp, f) -> Spec.body resp = "".
Proof.
  intros Hc. unfold file_reply, not_found. rewrite Hc.
  destruct (Py.endswith p "/"); [now intros [= <- _] |].
  destruct (os.open P fs p) as [g|[|m|m]];
    [| now intros [= <- _] | discriminate | discriminate].
  now destruct (answered_by_cache _ _ _); intros [= <- _].
Qed.

Lemma head_reply_head_body P fs self resp f :
  command self = "HEAD" ->
  head_reply P fs self = Returned (resp, f) -> Spec.body resp = "".
Proof.
  intros Hc. unfold head_reply.
  destruct (os.isdir fs _); [| now apply file_reply_head_body].
  destruct (urlsplit_error P _); [discriminate |].
  destruct (negb _); [now intros [= <- _] |].
  destruct (find _ _); [now apply file_reply_head_body |].
  unfold listing_reply, not_found. rewrite Hc.
  destruct (os.listdir fs _); [| now intros [= <- _]].
  destruct (listing_error P _ _ _); [discriminate |]. now intros [= <- _].
Qed.

(** X2: the reply to a HEAD request never has a body.  For an HTTP/0.9
    request nothing at all is written.  Above HTTP/0.9, either the
    handler fails with an exception and nothing is written, or the reply
    read as a client reads it has a status line and a header block that
    ends with the three CORS headers, with no byte after the empty line
    that ends the block: whether the path is a file, a directory,
    missing or unreadable.  The library functions behind the platform
    return one-line strings. *)
Theorem head_reply_has_no_body (P : platform) (fs : filesystem) (cwd : string)
  (r : request) :
  Spec.one_line_platform P ->
  method r = "HEAD" ->
  if String.eqb (version r) "HTTP/0.9" then respond P fs cwd r = ""
  else
    match failure P fs cwd r with
    | Some _ => respond P fs cwd r = ""
    | None =>
        exists status_line hs,
          Spec.parse (respond P fs cwd r)
          = Some (status_line, (hs ++ Spec.cors_headers)%list, "")
          /\ Forall (fun kv => Spec.is_cors_name (fst kv) = false) hs
    end.
Proof.
  intros HP Hm.
  assert (Hr : reply P fs (new_handler cwd r)
               = with_file false (head_reply P fs (new_handler cwd r))).
  { rewrite reply_get_or_head by (cbn [new_handler command]; now rewrite Hm).
    cbn [new_handler command]. now rewrite Hm. }
  assert (Hb : forall resp, reply P fs (new_handler cwd r) = Returned resp ->
                 Spec.body resp = "").
  { intros resp. rewrite Hr.
    destruct (head_reply P fs (new_handler cwd r)) as [[resp0 f]|e] eqn:Hh;
      [| discriminate].
    pose proof (head_reply_head_body P fs (new_handler cwd r) resp0 f Hm Hh) as Hb.
    destruct f; cbn [with_file]; now intros [= <-]. }
  rewrite failure_reply.
  destruct (String.eqb (version r) "HTTP/0.9") eqn:Hv.
  - rewrite respond_09 by exact Hv.
    destruct (reply P fs (new_handler cwd r)) as [resp|e] eqn:Hreply;
      [| reflexivity].
    cbn [wire]. now apply Hb.
  - rewrite respond_1x by exact Hv.
    destruct (reply P fs (new_handler cwd r)) as [resp|e] eqn:Hreply;
      [| reflexivity].
    cbn [wire].
    pose proof (reply_wf P HP fs _ _ Hreply) as Hw.
    pose proof (Hb resp eq_refl) as Hbody.
    destruct (reply_shaped P fs _ _ Hreply) as (code & reason & hs & body & -> & Hs).
    exists (status_text (with_cors code reason hs body)), hs.
    split; [| exact Hs].
    rewrite parse_render by exact Hw. cbn [with_cors Spec.header_fields Spec.body] in *.
    now rewrite Hbody.
Qed.

Lemma head_reply_has_no_body_witness :
  let r := Demo.req "HEAD" "/index.html" "HTTP/1.1" in
  (Spec.one_line_platform Demo.lib /\ method r = "HEAD")
  /\ exists status_line hs,
       Spec.parse (respond Demo.lib Demo.fs Demo.root r)
       = Some (status_line, (hs ++ Spec.cors_headers)%list, "").
Proof.
  intros r. split; [split; [exact demo_one_line | reflexivity] |].
  destruct (head_reply_has_no_body Demo.lib Demo.fs Demo.root r demo_one_line eq_refl)
    as (status_line & hs & H & _).
  now exists status_line, hs.
Defined.

(** ** Content-Length *)

Ltac length_fields :=
  let k := fresh "k" in
  let v := fresh "v" in
  let H := fresh "H" in
  let Hk := fresh "Hk" in
  intros k v H Hk;
  cbn [Spec.header_fields Spec.body with_cors add_body server_date
       Spec.cors_headers app In] in H |- *;
  repeat (destruct H as [H | H];
          [injection H as <- <-;
           try (vm_compute in Hk; discriminate Hk); try reflexivity |]);
  try contradiction.

Lemma error_response_length P c code message explain :
  String.eqb c "HEAD" = false ->
  length_announced (error_response P c code message explain).
Proof.
  intros Hc. unfold error_response.
  destruct ((200 <=? code)%Z && _)%bool.
  - rewrite error_body_page by exact Hc. length_fields.
  - length_fields.
Qed.

Lemma file_reply_length P fs self p :
  String.eqb (command self) "HEAD" = false ->
  forall resp, with_file true (file_reply P fs self p) = Returned resp ->
    length_announced resp.
Proof.
  intros Hc resp. unfold file_reply, not_found.
  destruct (Py.endswith p "/").
  { intros [= <-]. now apply error_response_length. }
  destruct (os.open P fs p) as [f|[|m|m]];
    [| intros [= <-]; now apply error_response_length | discriminate | discriminate].
  destruct (answered_by_cache _ _ _); intros [= <-]; length_fields.
Qed.

Lemma listing_reply_length P fs self p :
  String.eqb (command self) "HEAD" = false ->
  forall resp, with_file true (listing_reply P fs self p) = Returned resp ->
    length_announced resp.
Proof.
  intros Hc resp. unfold listing_reply, not_found.
  destruct (os.listdir fs p);
    [| intros [= <-]; now apply error_response_length].
  destruct (listing_error P _ _ _); [discriminate |].
  intros [= <-]. length_fields.
Qed.

Lemma head_reply_length P fs self :
  String.eqb (command self) "HEAD" = false ->
  forall resp, with_file true (head_reply P fs self) = Returned resp ->
    length_announced resp.
Proof.
  intros Hc resp. unfold head_reply.
  destruct (os.isdir fs _); [| now apply file_reply_length].
  destruct (urlsplit_error P _); [discriminate |].
  destruct (negb _).
  { intros [= <-]. length_fields. }
  destruct (find _ _); [now apply file_reply_length | now apply listing_reply_length].
Qed.

Lemma reply_length P fs self resp :
  String.eqb (command self) "HEAD" = false ->
  reply P fs self = Returned resp -> length_announced resp.
Proof.
  intros Hh. unfold reply. rewrite Hh.
  destruct (String.eqb (command self) "OPTIONS").
  { intros [= <-]. length_fields. }
  destruct (String.eqb (command self) "GET").
  - now apply head_reply_length.
  - intros [= <-]. now apply error_response_length.
Qed.

(** X3: in the reply to any request above HTTP/0.9 whose method is not
    HEAD and that the handler answers, read as a client reads it (the
    header fields are the lines before the first empty line, the body is
    what follows that line), every Content-Length header, its name
    compared without case, gives the decimal length of the body: for
    files, directory listings, redirects and error pages alike.  The
    library functions behind the platform return one-line strings. *)
Theorem content_length_is_body_length (P : platform) (fs : filesystem)
  (cwd : string) (r : request) :
  Spec.one_line_platform P ->
  String.eqb (method r) "HEAD" = false ->
  String.eqb (version r) "HTTP/0.9" = false ->
  failure P fs cwd r = None ->
  match Spec.parse (respond P fs cwd r) with
  | Some (_, hs, body) =>
      forall k v, In (k, v) hs -> Py.lower k = "content-length" ->
        v = Py.str (Py.len body)
  | None => False
  end.
Proof.
  intros HP Hh Hv Hf. rewrite failure_reply in Hf.
  rewrite respond_1x by exact Hv.
  destruct (reply P fs (new_handler cwd r)) as [resp|e] eqn:Hreply;
    [| discriminate Hf].
  cbn [wire]. rewrite parse_render by (eapply reply_wf; eassumption).
  now apply (reply_length P fs (new_handler cwd r)).
Qed.

Lemma content_length_is_body_length_witness :
  let r := Demo.req "GET" "/index.html" "HTTP/1.1" in
  (Spec.one_line_platform Demo.lib
   /\ String.eqb (method r) "HEAD" = false
   /\ String.eqb (version r) "HTTP/0.9" = false
   /\ failure Demo.lib Demo.fs Demo.root r = None)
  /\ match Spec.parse (respond Demo.lib Demo.fs Demo.root r) with
     | Some (_, hs, body) =>
         forall k v, In (k, v) hs -> Py.lower k = "content-length" ->
           v = Py.str (Py.len body)
     | None => False
     end.
Proof.
  intros r. split; [split; [exact demo_one_line | repeat split] |].
  exact (content_length_is_body_length Demo.lib Demo.fs Demo.root r
           demo_one_line eq_refl eq_refl eq_refl).
Defined.

(** ** Files, conditional requests and names that cannot be served *)



(** X5: a GET or HEAD request above HTTP/0.9 whose path, query and
    fragment aside, ends in a slash and does not name a directory is
    answered 404 [File not found] with the CORS headers, also when the
    name without the slash is an existing file: the file is not opened. *)
Theorem trailing_slash_on_file_is_404 (P : platform) (fs : filesystem)
  (cwd : string) (r : request) :
  (String.eqb (method r) "GET" || String.eqb (method r) "HEAD")%bool = true ->
  String.eqb (version r) "HTTP/0.9" = false ->
  Py.endswith (Py.rstrip (Py.split1_head (Py.split1_head (target r) "?") "#")) "/"
  = true ->
  os.isdir fs (SimpleHTTPRequestHandler.translate_path P cwd (target r)) = false ->
  let explain :=
    match responses P 404 with Some sl => snd sl | None => "???" end in
  let page := error_page P 404 "File not found" explain in
  respond P fs cwd r
  = Spec.render
      {| Spec.status := 404;
         Spec.reason := "File not found";
         Spec.header_fields :=
           [("Server", BaseHTTPRequestHandler.version_string P);
            ("Date", date_time_string P None);
            ("Connection", "close");
            ("Content-Type", "text/html;charset=utf-8");
            ("Content-Length", Py.str (Py.len page));
            ("Access-Control-Allow-Origin", "*");
            ("Access-Control-Allow-Methods", "GET, POST, OPTIONS");
            ("Access-Control-Allow-Headers", "*")];
         Spec.body := if String.eqb (method r) "HEAD" then "" else page |}.
Proof.
  intros Hm Hv Hs Hd explain page.
  rewrite respond_not_directory by assumption.
  unfold file_reply.
  rewrite (translate_path_keeps_trailing_slash P cwd (target r) Hs).
  cbn [with_file wire]. rewrite not_found_explicit. reflexivity.
Qed.

Lemma trailing_slash_on_file_is_404_witness :
  let r := Demo.req "GET" "/index.html/" "HTTP/1.1" in
  ((String.eqb (method r) "GET" || String.eqb (method r) "HEAD")%bool = true
   /\ String.eqb (version r) "HTTP/0.9" = false
   /\ Py.endswith (Py.rstrip (Py.split1_head (Py.split1_head (target r) "?") "#")) "/"
      = true
   /\ os.isdir Demo.fs
        (SimpleHTTPRequestHandler.translate_path Demo.lib Demo.root (target r))
      = false)
  /\ Spec.has_status 404 (respond Demo.lib Demo.fs Demo.root r).
Proof.
  intros r. split; [repeat split |].
  rewrite (trailing_slash_on_file_is_404 Demo.lib Demo.fs Demo.root r
             eq_refl eq_refl eq_refl eq_refl).
  do 3 eexists. reflexivity.
Defined.

(** X6: a GET or HEAD request above HTTP/0.9 for a file that exists and
    cannot be read is answered 404 [File not found] with the CORS
    headers, the same reply as for a missing file, not 403. *)
Theorem unreadable_file_is_404 (P : platform) (fs : filesystem) (cwd : string)
  (r : request) (data : string) (mtime : timestamp) :
  (String.eqb (method r) "GET" || String.eqb (method r) "HEAD")%bool = true ->
  String.eqb (version r) "HTTP/0.9" = false ->
  lookup fs (SimpleHTTPRequestHandler.translate_path P cwd (target r))
  = Some (RegularFile data mtime false) ->
  let explain :=
    match responses P 404 with Some sl => snd sl | None => "???" end in
  let page := error_page P 404 "File not found" explain in
  respond P fs cwd r
  = Spec.render
      {| Spec.status := 404;
         Spec.reason := "File not found";
         Spec.header_fields :=
           [("Server", BaseHTTPRequestHandler.version_string P);
            ("Date", date_time_string P None);
            ("Connection", "close");
            ("Content-Type", "text/html;charset=utf-8");
            ("Content-Length", Py.str (Py.len page));
            ("Access-Control-Allow-Origin", "*");
            ("Access-Control-Allow-Methods", "GET, POST, OPTIONS");
            ("Access-Control-Allow-Headers", "*")];
         Spec.body := if String.eqb (method r) "HEAD" then "" else page |}.
Proof.
  intros Hm Hv Hf explain page.
  rewrite respond_not_directory; [| exact Hm | exact Hv |].
  2:{ unfold os.isdir. now rewrite Hf. }
  unfold file_reply, os.open. rewrite Hf.
  destruct (Py.endswith _ "/"); cbn [with_file wire];
    rewrite not_found_explicit; reflexivity.
Qed.

Lemma unreadable_file_is_404_witness :
  let locked :=
    {| lookup := fun p =>
         if String.eqb p "/srv/app/secret.txt"
         then Some (RegularFile "key" 1700000003%Z false)
         else Demo.tree p;
       is_symlink := fun _ => false;
       realpath := Demo.kernel_name |} in
  let r := Demo.req "GET" "/secret.txt" "HTTP/1.1" in
  ((String.eqb (method r) "GET" || String.eqb (method r) "HEAD")%bool = true
   /\ String.eqb (version r) "HTTP/0.9" = false
   /\ lookup locked
        (SimpleHTTPRequestHandler.translate_path Demo.lib Demo.root (target r))
      = Some (RegularFile "key" 1700000003%Z false))
  /\ Spec.has_status 404 (respond Demo.lib locked Demo.root r).
Proof.
  intros locked r. split; [repeat split |].
  rewrite (unreadable_file_is_404 Demo.lib locked Demo.root r "key" 1700000003%Z
             eq_refl eq_refl eq_refl).
  do 3 eexists. reflexivity.
Defined.

(** ** Directories *)



(** X8: a GET or HEAD request above HTTP/0.9 for a directory, with a URL
    path that ends in a slash, is answered with the directory's
    [index.html] when that is a file, and with its [index.htm] when
    [index.html] is not a file and [index.htm] is: status 200, the
    Content-type of the index file's name, its length and its bytes (no
    bytes for HEAD), and the CORS headers.  (The request carries no
    If-Modified-Since header.)  When [urlsplit] refuses the URL it
    raises [ValueError], and nothing is sent. *)
Theorem directory_index_is_served (P : platform) (fs : filesystem) (cwd : string)
  (r : request) (index data : string) (mtime : timestamp) :
  (String.eqb (method r) "GET" || String.eqb (method r) "HEAD")%bool = true ->
  String.eqb (version r) "HTTP/0.9" = false ->
  headers_contains (fields r) "If-Modified-Since" = false ->
  let p := SimpleHTTPRequestHandler.translate_path P cwd (target r) in
  os.isdir fs p = true ->
  Py.endswith (urlsplit_path P (target r)) "/" = true ->
  index = "index.html"
  \/ (index = "index.htm" /\ os.isfile fs (posixpath.join p "index.html") = false) ->
  lookup fs (posixpath.join p index) = Some (RegularFile data mtime true) ->
  respond P fs cwd r
  = match urlsplit_error P (target r) with
    | Some _ => ""
    | None =>
        Spec.render
          {| Spec.status := 200;
             Spec.reason := phrase P 200 None;
             Spec.header_fields :=
               [("Server", BaseHTTPRequestHandler.version_string P);
                ("Date", date_time_string P None);
                ("Content-type", guess_type P (posixpath.join p index));
                ("Content-Length", Py.str (Py.len data));
                ("Last-Modified", date_time_string P (Some mtime));
                ("Access-Control-Allow-Origin", "*");
                ("Access-Control-Allow-Methods", "GET, POST, OPTIONS");
                ("Access-Control-Allow-Headers", "*")];
             Spec.body := if String.eqb (method r) "GET" then data else "" |}
    end.
Proof.
  intros Hm Hv Hims p Hd Hs Hindex Hf.
  rewrite respond_directory by assumption. fold p.
  destruct (urlsplit_error P (target r)); [reflexivity |].
  assert (Hfile : os.isfile fs (posixpath.join p index) = true)
    by (unfold os.isfile; now rewrite Hf).
  assert (Hfound : find (fun i => os.isfile fs (posixpath.join p i))
                     ["index.html"; "index.htm"] = Some index).
  { cbn [find]. destruct Hindex as [-> | [-> Hno]].
    - now rewrite Hfile.
    - now rewrite Hno, Hfile. }
  rewrite Hfound.
  assert (He : Py.endswith (posixpath.join p index) "/" = false).
  { destruct Hindex as [-> | [-> _]]; apply join_name_not_slash;
      reflexivity || discriminate. }
  rewrite (file_reply_regular P fs _ _ data mtime Hf He).
  unfold answered_by_cache. cbn [new_handler headers]. rewrite Hims.
  cbn [andb with_file wire]. now destruct (String.eqb (method r) "GET").
Qed.

Lemma directory_index_is_served_witness :
  let r := Demo.req "GET" "/?v=3" "HTTP/1.1" in
  let p := SimpleHTTPRequestHandler.translate_path Demo.lib Demo.root (target r) in
  ((String.eqb (method r) "GET" || String.eqb (method r) "HEAD")%bool = true
   /\ String.eqb (version r) "HTTP/0.9" = false
   /\ headers_contains (fields r) "If-Modified-Since" = false
   /\ os.isdir Demo.fs p = true
   /\ Py.endswith (urlsplit_path Demo.lib (target r)) "/" = true
   /\ lookup Demo.fs (posixpath.join p "index.html")
      = Some (RegularFile "<h1>Hi</h1>" 1700000000%Z true))
  /\ Spec.serves_file "<h1>Hi</h1>" (respond Demo.lib Demo.fs Demo.root r).
Proof.
  intros r p. split; [repeat split |].
  rewrite (directory_index_is_served Demo.lib Demo.fs Demo.root r "index.html"
             "<h1>Hi</h1>" 1700000000%Z eq_refl eq_refl eq_refl eq_refl eq_refl
             (or_introl eq_refl) eq_refl).
  do 2 eexists. reflexivity.
Defined.

(** X9: a GET or HEAD request above HTTP/0.9 for a directory that has
    neither index file, with a URL path that ends in a slash, is answered
    with the listing page of the directory's entries: status 200,
    Content-type [text/html] with the file system's encoding, the length
    of the page, the CORS headers and the page as body (no body for
    HEAD); when the directory cannot be listed the reply is 404 [No
    permission to list directory].  When [urlsplit] refuses the URL, or
    the page cannot be encoded, the handler raises and nothing is
    sent. *)
Theorem directory_without_index_is_listed (P : platform) (fs : filesystem)
  (cwd : string) (r : request) :
  (String.eqb (method r) "GET" || String.eqb (method r) "HEAD")%bool = true ->
  String.eqb (version r) "HTTP/0.9" = false ->
  let p := SimpleHTTPRequestHandler.translate_path P cwd (target r) in
  os.isdir fs p = true ->
  Py.endswith (urlsplit_path P (target r)) "/" = true ->
  os.isfile fs (posixpath.join p "index.html") = false ->
  os.isfile fs (posixpath.join p "index.htm") = false ->
  respond P fs cwd r
  = match urlsplit_error P (target r), os.listdir fs p with
    | Some _, _ => ""
    | None, Some names =>
        let entries :=
          map (fun name => (name, os.isdir fs (posixpath.join p name),
                            os.islink fs (posixpath.join p name))) names in
        let page := listing_page P (target r) p entries in
        match listing_error P (target r) p entries with
        | Some _ => ""
        | None =>
            Spec.render
              {| Spec.status := 200;
                 Spec.reason := phrase P 200 None;
                 Spec.header_fields :=
                   [("Server", BaseHTTPRequestHandler.version_string P);
                    ("Date", date_time_string P None);
                    ("Content-type",
                     "text/html; charset=" ++ getfilesystemencoding P);
                    ("Content-Length", Py.str (Py.len page));
                    ("Access-Control-Allow-Origin", "*");
                    ("Access-Control-Allow-Methods", "GET, POST, OPTIONS");
                    ("Access-Control-Allow-Headers", "*")];
                 Spec.body := if String.eqb (method r) "GET" then page else "" |}
        end
    | None, None =>
        let explain :=
          match responses P 404 with Some sl => snd sl | None => "???" end in
        let page := error_page P 404 "No permission to list directory" explain in
        Spec.render
          {| Spec.status := 404;
             Spec.reason := "No permission to list directory";
             Spec.header_fields :=
               [("Server", BaseHTTPRequestHandler.version_string P);
                ("Date", date_time_string P None);
                ("Connection", "close");
                ("Content-Type", "text/html;charset=utf-8");
                ("Content-Length", Py.str (Py.len page));
                ("Access-Control-Allow-Origin", "*");
                ("Access-Control-Allow-Methods", "GET, POST, OPTIONS");
                ("Access-Control-Allow-Headers", "*")];
             Spec.body := if String.eqb (method r) "HEAD" then "" else page |}
    end.
Proof.
  intros Hm Hv p Hd Hs H1 H2.
  rewrite respond_directory by assumption. fold p.
  destruct (urlsplit_error P (target r)); [reflexivity |].
  cbn [find]. rewrite H1, H2.
  unfold listing_reply, request_target. cbn [new_handler path].
  destruct (os.listdir fs p) as [names|]; cbn [with_file wire].
  - destruct (listing_error P (target r) p _); [reflexivity |].
    cbn [with_file wire]. now destruct (String.eqb (method r) "GET").
  - rewrite not_found_explicit. reflexivity.
Qed.

Lemma directory_without_index_is_listed_witness :
  let r := Demo.req "GET" "/assets/" "HTTP/1.1" in
  let p := SimpleHTTPRequestHandler.translate_path Demo.lib Demo.root (target r) in
  ((String.eqb (method r) "GET" || String.eqb (method r) "HEAD")%bool = true
   /\ String.eqb (version r) "HTTP/0.9" = false
   /\ os.isdir Demo.fs p = true
   /\ Py.endswith (urlsplit_path Demo.lib (target r)) "/" = true
   /\ os.isfile Demo.fs (posixpath.join p "index.html") = false
   /\ os.isfile Demo.fs (posixpath.join p "index.htm") = false)
  /\ Spec.serves_file
       "<title>Directory listing for /assets/</title><li>logo.svg</li>"
       (respond Demo.lib Demo.fs Demo.root r).
Proof.
  intros r p. split; [repeat split |].
  rewrite (directory_without_index_is_listed Demo.lib Demo.fs Demo.root r
             eq_refl eq_refl eq_refl eq_refl eq_refl eq_refl).
  do 2 eexists. reflexivity.
Defined.

(** ** Query strings and fragments *)

(** X10: a query string or a fragment after the path does not change the
    file name that [translate_path] computes, and a GET or HEAD request
    above HTTP/0.9 for a name that is not a directory gets the same
    reply with or without them, whatever the request lines and the
    clients. *)
Theorem query_and_fragment_are_ignored (P : platform) (fs : filesystem)
  (cwd p q : string) :
  Py.contains p "?" = false ->
  Py.contains p "#" = false ->
  SimpleHTTPRequestHandler.translate_path P cwd (p ++ "?" ++ q)
  = SimpleHTTPRequestHandler.translate_path P cwd p
  /\ SimpleHTTPRequestHandler.translate_path P cwd (p ++ "#" ++ q)
     = SimpleHTTPRequestHandler.translate_path P cwd p
  /\ forall m v hs line1 client1 line2 client2,
       (String.eqb m "GET" || String.eqb m "HEAD")%bool = true ->
       String.eqb v "HTTP/0.9" = false ->
       os.isdir fs (SimpleHTTPRequestHandler.translate_path P cwd p) = false ->
       respond P fs cwd
         {| method := m; target := p ++ "?" ++ q; version := v; fields := hs;
            line := line1; client := client1 |}
       = respond P fs cwd
           {| method := m; target := p; version := v; fields := hs;
              line := line2; client := client2 |}.
Proof.
  intros Hq Hf.
  destruct (strip_query_and_fragment p q Hq Hf) as (E1 & E2 & E3).
  assert (T1 : SimpleHTTPRequestHandler.translate_path P cwd (p ++ "?" ++ q)
               = SimpleHTTPRequestHandler.translate_path P cwd p).
  { unfold SimpleHTTPRequestHandler.translate_path. now rewrite E1, E3. }
  split; [exact T1 | split].
  - unfold SimpleHTTPRequestHandler.translate_path. now rewrite E2, E3.
  - intros m v hs line1 client1 line2 client2 Hm Hv Hd.
    rewrite !respond_not_directory; cbn [method target version];
      rewrite ?T1; try assumption.
    reflexivity.
Qed.

Lemma query_and_fragment_are_ignored_witness :
  (Py.contains "/main.js" "?" = false /\ Py.contains "/main.js" "#" = false)
  /\ SimpleHTTPRequestHandler.translate_path Demo.lib Demo.root "/main.js?v=2"
     = "/srv/app/main.js"
  /\ respond Demo.lib Demo.fs Demo.root (Demo.req "GET" "/main.js?v=2" "HTTP/1.1")
     = respond Demo.lib Demo.fs Demo.root (Demo.req "GET" "/main.js" "HTTP/1.1").
Proof.
  split; [split; reflexivity |].
  destruct (query_and_fragment_are_ignored Demo.lib Demo.fs Demo.root
              "/main.js" "v=2" eq_refl eq_refl) as (T & _ & R).
  split; [exact T |].
  exact (R "GET" "HTTP/1.1" [] _ _ _ _ eq_refl eq_refl eq_refl).
Defined.

(** ** HTTP/0.9 and HTTP/1.x replies *)

(** X11: the reply to an HTTP/0.9 request is the body, and nothing but
    the body, of the reply that the same request gets under any other
    protocol version: read as a client reads it, that reply has a status
    line and a header block, and the bytes after the first empty line
    are exactly the HTTP/0.9 reply.  When the handler fails with an
    exception under one version it fails with the same exception under
    the other, and nothing is sent in either case.  The library
    functions behind the platform return one-line strings. *)
Theorem simple_reply_is_body_of_full_reply (P : platform) (fs : filesystem)
  (cwd m t v : string) (hs : list (string * string))
  (line1 line2 : string) (client1 client2 : string * Z) :
  Spec.one_line_platform P ->
  String.eqb v "HTTP/0.9" = false ->
  let full := {| method := m; target := t; version := v; fields := hs;
                 line := line1; client := client1 |} in
  let simple := {| method := m; target := t; version := "HTTP/0.9"; fields := hs;
                   line := line2; client := client2 |} in
  match failure P fs cwd full with
  | Some e =>
      failure P fs cwd simple = Some e
      /\ respond P fs cwd full = "" /\ respond P fs cwd simple = ""
  | None =>
      failure P fs cwd simple = None
      /\ exists status_line fields,
           Spec.parse (respond P fs cwd full)
           = Some (status_line, fields, respond P fs cwd simple)
  end.
Proof.
  intros HP Hv full simple.
  assert (E : reply P fs (new_handler cwd simple) = reply P fs (new_handler cwd full))
    by reflexivity.
  rewrite !failure_reply, E.
  rewrite (respond_1x P fs cwd full) by exact Hv.
  rewrite (respond_09 P fs cwd simple) by reflexivity. rewrite E.
  destruct (reply P fs (new_handler cwd full)) as [resp|e] eqn:Hr; cbn [wire].
  - split; [reflexivity |].
    exists (status_text resp), (Spec.header_fields resp).
    apply parse_render. eapply reply_wf; eassumption.
  - repeat split.
Qed.

Lemma simple_reply_is_body_of_full_reply_witness :
  (Spec.one_line_platform Demo.lib /\ String.eqb "HTTP/1.1" "HTTP/0.9" = false)
  /\ respond Demo.lib Demo.fs Demo.root (Demo.req "GET" "/index.html" "HTTP/0.9")
     = "<h1>Hi</h1>"
  /\ exists status_line fields,
       Spec.parse
         (respond Demo.lib Demo.fs Demo.root (Demo.req "GET" "/index.html" "HTTP/1.1"))
       = Some (status_line, fields, "<h1>Hi</h1>").
Proof.
  split; [split; [exact demo_one_line | reflexivity] |].
  split; [vm_compute; reflexivity |].
  destruct (simple_reply_is_body_of_full_reply Demo.lib Demo.fs Demo.root
              "GET" "/index.html" "HTTP/1.1" []
              "GET /index.html HTTP/1.1" "GET /index.html HTTP/0.9"
              Demo.peer Demo.peer demo_one_line eq_refl)
    as (_ & status_line & fields & H).
  exists status_line, fields. exact H.
Defined.

(** ** Preflight requests and the request's header fields *)

(** X12: the reply to an OPTIONS request does not depend on the header
    fields of the request (Origin, Access-Control-Request-Method,
    Access-Control-Request-Headers or any other), nor on its path, the
    root or the files: two OPTIONS requests that are both HTTP/0.9 or
    both not get the same bytes. *)
Theorem preflight_ignores_request_headers (P : platform)
  (fs1 fs2 : filesystem) (cwd1 cwd2 : string) (r1 r2 : request) :
  method r1 = "OPTIONS" ->
  method r2 = "OPTIONS" ->
  String.eqb (version r1) "HTTP/0.9" = String.eqb (version r2) "HTTP/0.9" ->
  respond P fs1 cwd1 r1 = respond P fs2 cwd2 r2.
Proof.
  intros H1 H2 Hv. rewrite !respond_OPTIONS by assumption. now rewrite Hv.
Qed.

Lemma preflight_ignores_request_headers_witness :
  let r1 := {| method := "OPTIONS"; target := "/api"; version := "HTTP/1.1";
               fields := [("Origin", "https://a.example");
                          ("Access-Control-Request-Method", "DELETE")];
               line := "OPTIONS /api HTTP/1.1"; client := Demo.peer |} in
  let r2 := {| method := "OPTIONS"; target := "/index.html"; version := "HTTP/1.0";
               fields := []; line := "OPTIONS /index.html HTTP/1.0";
               client := ("10.0.0.7", 40000%Z) |} in
  (method r1 = "OPTIONS" /\ method r2 = "OPTIONS"
   /\ String.eqb (version r1) "HTTP/0.9" = String.eqb (version r2) "HTTP/0.9")
  /\ respond Demo.lib Demo.fs Demo.root r1 = respond Demo.lib Demo.fs' "/tmp" r2.
Proof.
  intros r1 r2. split; [repeat split |].
  apply (preflight_ignores_request_headers Demo.lib Demo.fs Demo.fs'
           Demo.root "/tmp" r1 r2); reflexivity.
Defined.

(** ** The override of end_headers on any handler *)

(** X13: on a handler in any state, [end_headers] writes the header lines
    buffered so far, then the three CORS lines, then the blank line, in
    this order and after what the connection already holds, and leaves
    the buffer empty; for an HTTP/0.9 request it writes nothing and
    leaves the buffer as it is.  It raises nothing, logs nothing, and
    changes neither the request nor [close_connection]. *)
Theorem end_headers_appends_cors_and_flushes (self : handler) :
  let self' := snd (CORSRequestHandler.end_headers self) in
  fst (CORSRequestHandler.end_headers self) = Returned tt
  /\ (client_address self', requestline self', logged self')
     = (client_address self, requestline self, logged self)
  /\ (command self', path self', request_version self', headers self',
      directory self', close_connection self')
     = (command self, path self, request_version self, headers self,
        directory self, close_connection self)
  /\ if String.eqb (request_version self) "HTTP/0.9"
     then _headers_buffer self' = _headers_buffer self
          /\ wfile self' = wfile self
     else _headers_buffer self' = []
          /\ wfile self'
             = wfile self
               ++ Py.join0 (_headers_buffer self)
               ++ "Access-Control-Allow-Origin: *" ++ Py.CRLF
               ++ "Access-Control-Allow-Methods: GET, POST, OPTIONS" ++ Py.CRLF
               ++ "Access-Control-Allow-Headers: *" ++ Py.CRLF
               ++ Py.CRLF.
Proof.
  destruct self as [ca rl c p v h d b w cc lg].
  pose proof (end_headers_run
                {| client_address := ca; requestline := rl;
                   command := c; path := p; request_version := v; headers := h;
                   directory := d; _headers_buffer := b; wfile := w;
                   close_connection := cc; logged := lg |} b w cc lg) as E.
  unfold upd in E.
  cbn [client_address requestline command path request_version headers directory
       _headers_buffer wfile close_connection logged] in E |- *.
  rewrite E.
  destruct (String.eqb v "HTTP/0.9");
    cbn [fst snd client_address requestline command path request_version headers
         directory _headers_buffer wfile close_connection logged].
  - repeat split.
  - repeat split. rewrite join0_app, append_assoc. reflexivity.
Qed.

(** ** What parse_request hands to the handler *)

(** X14: whatever the request line, the command, path and version that
    [parse_request] accepts and hands to the handler are non-empty and
    free of white space, carriage return and line feed included, and the
    path does not begin with two slashes. *)
Theorem parse_request_accepts_clean_words (P : platform)
  (requestline command path version : string) :
  BaseHTTPRequestHandler.parse_request P requestline
  = BaseHTTPRequestHandler.Accepted command path version ->
  is_word command /\ is_word path /\ is_word version
  /\ Py.startswith path "//" = false.
Proof.
  unfold BaseHTTPRequestHandler.parse_request.
  pose proof (split_ws_words requestline) as Hw.
  destruct (Py.split_ws requestline) as [|w1 [|w2 [|w3 [|w4 ws]]]];
    [discriminate | discriminate | | |].
  - (* two words *)
    apply Forall_cons_iff in Hw as [H1 Hw].
    apply Forall_cons_iff in Hw as [H2 _].
    cbn [List.length Nat.leb].
    destruct (negb (String.eqb w1 "GET")); [discriminate |].
    intros H. injection H as <- <- <-.
    destruct (collapsed_path w2 H2) as [Hp Hs].
    repeat split; try apply H1; try apply Hp; try exact Hs; discriminate.
  - (* three words *)
    apply Forall_cons_iff in Hw as [H1 Hw].
    apply Forall_cons_iff in Hw as [H2 Hw].
    apply Forall_cons_iff in Hw as [H3 _].
    cbn [List.length Nat.leb List.last].
    destruct (negb (Py.startswith w3 "HTTP/")); [discriminate |].
    destruct (Py.split (Py.split1_tail w3 "/") ".") as [|a [|b [|c l]]];
      try discriminate.
    destruct (Py.int a); [| discriminate].
    destruct (Py.int b); [| discriminate].
    destruct (BaseHTTPRequestHandler.version_ge_2 _); [discriminate |].
    intros H. injection H as <- <- <-.
    destruct (collapsed_path w2 H2) as [Hp Hs].
    repeat split; try apply H1; try apply Hp; try apply H3; exact Hs.
  - (* four words or more *)
    cbn [List.length Nat.leb].
    destruct (negb _); [discriminate |].
    destruct (Py.split _ ".") as [|a [|b [|c l]]]; try discriminate.
    destruct (Py.int a); [| discriminate].
    destruct (Py.int b); [| discriminate].
    destruct (BaseHTTPRequestHandler.version_ge_2 _); discriminate.
Qed.

Lemma parse_request_accepts_clean_words_witness :
  BaseHTTPRequestHandler.parse_request Demo.lib "GET  //srv//app/index.html   HTTP/1.1"
  = BaseHTTPRequestHandler.Accepted "GET" "/srv//app/index.html" "HTTP/1.1"
  /\ is_word "/srv//app/index.html"
  /\ Py.startswith "/srv//app/index.html" "//" = false.
Proof.
  assert (E : BaseHTTPRequestHandler.parse_request Demo.lib
                "GET  //srv//app/index.html   HTTP/1.1"
              = BaseHTTPRequestHandler.Accepted "GET" "/srv//app/index.html" "HTTP/1.1")
    by reflexivity.
  split; [exact E |].
  destruct (parse_request_accepts_clean_words Demo.lib _ _ _ _ E)
    as (_ & Hp & _ & Hs).
  split; [exact Hp | exact Hs].
Defined.

(** ** What serving leaves alone *)


